(* ===== verification/_CoqProject ===== *)
-Q . S2P
Prelude.v
PyData.v
Unicode.v
PyInt.v
Libs.v
Flask.v
Json.v
JsonText.v
Pandas.v
Mlflow.v
Inference.v
Debugger.v
Reloader.v
Concurrency.v
JsonLines.v
JsonOut.v
JsonFloat.v
JsonEncoding.v
