(* ===== verification/Prelude.v ===== *)
(** * A verification development of the ModelEndpoint prediction service

    The program ([src/.ipynb_checkpoints/inference-checkpoint.py], 41 lines
    of Python) is a Flask application.  At import time it creates the Flask
    object [api] (line 7) and loads an MLflow pyfunc model from
    ["./best_estimator"] (line 10); it registers two routes, [home] on ["/"]
    (lines 14-17) and [make_predictions] on ["/predict"] for POST
    (lines 21-33); run as a script it reads the port from the environment
    variable [PORT] (default 8080) and starts the development server on
    0.0.0.0 with [debug=True] (lines 37-41).

    [make_predictions] is a pipeline of four library calls:
    [request.get_json(force=True)] (werkzeug / Flask: decode the body as one
    JSON document, 400 Bad Request when that fails), [pd.read_json(...,
    lines=True, dtype={"gre": float, "gpa": float})] (pandas: treat the
    decoded value as JSON-lines text and build a data frame, coercing the
    two named columns to float), [model.predict(df)] (mlflow) and
    [.tolist()] (numpy), and returns [{"predictions": ...}].  Every
    exception that is not a werkzeug [HTTPException] becomes a 500 response:
    with [debug=True], Flask re-raises it and werkzeug's debugger answers
    500 with its traceback page.  [debug=True] also turns on werkzeug's
    reloader, which runs the script as a parent process and a child that
    is restarted whenever a source file changes, each importing the module
    and loading the model.

    ** Files and what they model (in [_CoqProject] order)

    - [Prelude] (this file): Python exceptions as data ([PyExc]), the
      exception monad [PyResult] with its notation [x <- c ;; k] in
      [py_scope], the hint databases [pysvc] and [pysvc_rw], the tactics
      [py_inv] and [raise_cases], a [Proper] instance for [Forall2], and
      the lemmas on binds, [py_mapM] and lists that the components share.
    - [PyData]: Python values as the service sees them ([PyObj]: None,
      bool, int, float literal, str, list, dict), dict construction with
      Python's duplicate-key rule (last value, first position), decidable
      equality.
    - [Unicode]: UTF-8/16/32 decoding of byte strings as [json.loads] does
      it ([detect_encoding], [decode_bytes], surrogates passed through),
      UTF-8 encoding, [str.isspace] and the Unicode decimal digits
      [int()] accepts.
    - [PyInt]: CPython's [int(str)] for base 10 ([py_long_from_string]:
      whitespace, sign, single underscores, the 4300-digit limit) and
      [str(int)], used by the port configuration of line 40.
    - [Libs]: the data frame ([DataFrame], [Column], [DType]), the
      prediction value and its numpy [tolist], and the interfaces the
      program relies on, as type classes with laws: [JsonLoads] (what
      [json.loads] promises to werkzeug), [ReadJson] (what [pd.read_json]
      promises), [PyFuncModel] and [ModelLoader] (what mlflow promises).
    - [Flask]: the werkzeug/Flask layer the routes run in: requests and
      responses, the URL map of the two rules with Flask's automatic HEAD
      and OPTIONS, werkzeug's leading-slash stripping and slash merging,
      404/405, the strict-slash redirect ([slash_required]),
      [get_json(force=True)] and the conversion of exceptions to
      responses ([finalize], [server_error]: Flask's page, or under debug
      the debugger's traceback page).
    - [Json]: CPython's [json.loads] ([py_json_loads]): the scanner
      [scan_value]/[scan_members]/[scan_elements] as a mutual fixpoint on
      fuel, its errors ("Extra data", bad escapes, control characters, the
      int digit limit, the recursion limit); instance [cpython_json]; the
      well-formedness of what it returns ([py_wf], distinct dict keys).
    - [JsonText]: the texts a client prints as the spec describes them
      (number literals, objects of plain keys and numbers, arrays of
      objects, [json.dumps] of a string) and exact lemmas on what the
      scanner makes of them: [json.loads(json.dumps(s)) == s] for
      printable text, and the array of objects is read as the list of
      their dicts.
    - [Pandas]: [pd.read_json(text, lines=True, dtype=...)]
      ([pandas_read_json]): path-or-literal ([source_text]), JSON-lines
      combination ([combine_lines]), ujson decoding, [DataFrame] of a list
      of records, [astype(float)] with pandas' fallback; instance
      [pandas_reference].  The shapes the service never reaches are the
      section's parameters.
    - [Mlflow]: the pyfunc model ([pyfunc_predict]): schema enforcement
      ([enforce_schema]: every missing input listed, then each column
      re-inferred when it is object ([infer_objects]) and checked against
      the signature's type ([enforce_datatype]), the errors wrapped as
      [predict] wraps them), then the estimator row by row, which may
      raise; the loader [load_pyfunc]; instances [pyfunc_model] and
      [pyfunc_loader].
    - [Inference]: the source file itself, in a section over the four
      interfaces: [df_schema], [home], [make_predictions], [routes],
      [view], the request handler [handle], the imports of lines 1-4
      ([source_imports], [exec_import]: [ModuleNotFoundError] and
      [ImportError]), and the start-up sequence [run_module]/[startup]
      (imports, load the model, read [PORT], [int()], the CLI check,
      bind on a machine described by the class [SocketOS]: port 0 is the
      kernel's ephemeral port, a privileged port without root is
      werkzeug's [sys.exit(1)]).  After the section: the deployed libraries ([json_stdlib]:
      CPython's json with the default recursion limit 1000;
      [pandas_lines]: the reference pandas with ujson's depth 1024 and no
      file named by a body), the spec's example bodies, and the witnesses.
    - [Debugger]: werkzeug's [DebuggedApplication], which [debug=True]
      puts around the app ([serve]): [/console] (after leading slashes)
      answers the console page when [host_is_trusted] accepts the [Host]
      header ([localhost], [127.0.0.1], [*.localhost] and the host the
      server was started on, through the [idna] codec's ASCII path) and
      400 otherwise; other requests go to [handle].
    - [Reloader]: werkzeug's reloader, which [debug=True] turns on, as a
      process tree ([Proc]): the parent ([launch]) runs the module and
      binds, children ([child_start]) import the module again, load the
      model anew and serve on the parent's socket; [rstep] restarts on exit
      code 3 (a source file changed) and stops on any other code;
      [supervise]/[run_script] run it for a number of changes.
    - [Concurrency]: the threaded development server [api.run] starts:
      one thread per connection ([Thread]), each running the statements
      of [make_predictions] one per step ([thread_step]: line 24, 28, 31,
      31, 33), all reading the one model; [step] interleaves arrivals and
      thread steps in any order, and [exec] runs a schedule of them.
    - [JsonLines]: the client's JSON-lines body followed through the whole
      route with the reference libraries: [split("\n")], [strip()],
      [_combine_lines], ujson, [DataFrame], [dtype=float], the signature
      and the estimator.
    - [JsonOut]: the bytes of a response, as Flask's JSON provider writes
      the dicts of lines 17 and 33 ([flask_json_text]): [json.dumps] with
      [ensure_ascii] ([escape_cp], [py_encode_str]: [\uXXXX] escapes and
      surrogate pairs), [sort_keys] ([sort_obj]), [indent=2] under
      [debug=True] (line 39) or compact separators ([flask_layout],
      [encode]), [repr(float)] ([float_repr]), and a final newline; then
      what [json.loads] makes of those bytes, in a section [RoundTrip]
      over how floats are written and read back.
    - [JsonFloat]: [repr] of a float whose shortest literal has at most 15
      digits in each notation [format_float_short] uses ([0.000ddd],
      [dd.ddd], [ddd00.0], [d.ddde+XX]) and the float [json.loads] reads
      from it; floats compared by their normal form ([fnorm]: sign,
      mantissa without trailing zeros, exponent) through the stdpp
      equivalence [≡] on values ([PyObj_equiv]).
    - [JsonEncoding]: what the provider's flag [ensure_ascii] promises of
      the text: every byte is ASCII ([ascii_byte]).

    The components interact only through the interfaces: the theorems
    about the service (C1-C13, C15-C16, C27-C28) hold for every
    implementation of [JsonLoads], [ReadJson], [PyFuncModel],
    [ModelLoader] and [SocketOS] that satisfies the laws, and the
    reference instances discharge the laws and run.

    ** What the theorems show (claims C1-C28)

    - the prediction route (C1-C4): success gives 200 with
      [{"predictions": tolist}]; a body [json.loads] rejects gives 400;
      any failure after the JSON decoded (pandas, mlflow's signature
      check, the model, [tolist]) gives 500 with that exception (the
      debugger's traceback page under debug); a JSON body that is not a
      string gives 500.
    - routing (C5-C9): the health check; every response is 200, 400, 404,
      405 or 500 except werkzeug's 308 redirect of an empty path to
      ["/"]; wrong methods give 405 with the allowed ones; unknown
      non-empty paths 404; leading slashes do not matter.
    - start-up (C10-C12): port 8080 by default; [PORT] set to [str(n)] is
      bound as the socket layer binds it (the ephemeral port for 0, exit
      status 1 for a privileged port without root); a missing package
      stops the module at its import before the model loads, a missing
      model or a bad [PORT] stops start-up.
    - the reloader (C13, C15): every state of the process tree is the
      parent holding its model and the socket, a child serving on that
      socket in debug mode with the model of its own import (two models
      resident), or the end with code 0 or 1; after [c] source changes
      child [c] serves when every import loads the model, and the first
      child whose import fails ends the script with code 1, for good.
    - termination (C14): the JSON scanner never runs out of its fuel.
    - concurrency (C16): however the threads of the server interleave,
      every answered request got the sequential handler's answer to its
      own request.
    - the client's records end to end (C17-C18): records sent as the spec
      describes, one per line in a JSON string, get one prediction each in
      line order; records on one line separated by commas are answered the
      same way.
    - repeated keys (C19): [json.loads] keeps a repeated key once, at its
      first position, with its last value.
    - client boundary inputs (C20-C22): a blank body gets 500 with both
      inputs reported missing; a record missing [gpa] while another has it
      reaches the estimator with NaN, so the answer is the estimator's
      (its predictions, or 500 with its own error), never an input error
      of the service; when no record has [gpa] the signature check fails
      and the answer is 500.
    - responses (C23-C26): [json.loads] reads the body written for any
      value of None, bools, ints below the digit limit, NaN, the
      infinities, strs of valid code points, lists and dicts without a
      repeated key back as the value with sorted keys, provided its
      nesting fits the decoder's depth; with floats, the value read back
      is equivalent, each float a literal of the same number; a
      successful [POST /predict] is read back by the client as
      [{"predictions": ...}] with the model's predictions; every byte of
      a response is ASCII.
    - the debugger (C27-C28): on the server started as a script, every
      failure after the body decoded is answered with the traceback page
      of its exception; [/console] is the console page exactly for a
      [Host] naming [localhost], [127.0.0.1], a [.localhost] name or
      [0.0.0.0] (the host [run_simple] adds), which the client chooses,
      and 400 otherwise.

    ** Bounds and fuel

    The JSON scanner gets fuel [1 + 2 * length text]: each call consumes a
    character or passes to a sub-scanner on a shorter input, and
    [json_decode_text_terminates] proves this fuel is never exhausted, so
    the fuel is not a restriction.  The nesting limits are those of the
    libraries (CPython's recursion limit 1000, ujson's 1024), and the int
    digit limit is CPython's default 4300.  Ports are integers checked
    against 0..65535 as the socket layer does; the machine's unprivileged
    port start (0..1024), ephemeral port (1024..65535) and whether the
    process is root are the fields of [SocketOS], so the start-up
    theorems hold on every machine.  The client's number
    literals have at most 18 integer digits, which keeps every int they
    denote inside ujson's range (below [10^18 < 2^63]); longer ints are
    covered by the error theorems, not by C17-C18.  A float is written
    by [float_repr] when its shortest decimal literal has at most 15
    significant digits and its decimal point lies within 10^-300 to
    10^300: binary64 keeps every such decimal ([DBL_DIG] is 15) and
    stays in its normal range, so [repr] returns exactly those digits.

    ** Not modelled

    The Python interpreter, the WSGI server's sockets and HTTP parsing
    (requests enter as method, path and body; the debugger also sees the
    [Host] header), the top-level code of the imported libraries, the
    debugger's [__debugger__] query-string commands and its PIN (requests
    carry no query string), the [idna] conversion of non-ASCII host names
    (a parameter), the reloader's polling of file times (a file change is
    an event of [rstep]) and signals, the HTML pages werkzeug writes for
    error responses, tracebacks and the console, [repr] of a float whose
    shortest literal has more than 15 significant digits (it depends on
    binary64 rounding: the parameter [repr_other] of [JsonOut]),
    pandas' [DataFrame] of a list that is not a list of records and
    [read_json] without [lines=True] (parameters of [Pandas]; the service
    always passes [lines=True], and a list that is not all records ends
    in the schema check's 500 whatever frame it gives),
    binary64 rounding of float literals (a float is kept as the decimal
    literal it was parsed from; the service never compares floats), and
    the internals of the trained model (a row-wise estimator that may
    raise: scikit-learn validates the whole array and reports its first
    refusal, the model the first refusing row), the reprs of the frame
    and the signature and the hint text inside mlflow's messages, and a
    port already in use (bind's [EADDRINUSE], which the start-up theorems
    do not cover). *)

From Stdlib Require Import Ascii String ZArith Lia.
From stdpp Require Export base list strings.

(** ** Python exceptions

    The exceptions the modelled code can raise, by Python class.
    [JSONDecodeError] and [UnicodeDecodeError] are subclasses of
    [ValueError] in Python; [is_value_error] is [isinstance(e, ValueError)].
    [MlflowMissingInputs] and [MlflowIncompatibleInput] are the
    [MlflowException]s [PyFuncModel.predict] raises when its signature
    refuses a frame: [Failed to enforce schema of data '<frame>' with
    schema '<signature>'. Error: <inner>], whose inner message is
    [Model is missing inputs [<missing>].], followed by a note listing the
    frame's other columns when [extra], or [Incompatible input types for
    column <column>. Can not safely convert <from> to <to>.], followed
    by mlflow's hint when [hint]; the two reprs are not modelled.
    [ModuleNotFoundError] is a subclass of [ImportError]; [SystemExit] is
    what [sys.exit(code)] raises.
    [HTTPException] is werkzeug's base class, carrying the status code. *)
Inductive PyExc : Type :=
| ValueError (msg : string)
| JSONDecodeError (msg : string)
| UnicodeDecodeError (msg : string)
| TypeError (msg : string)
| AttributeError (msg : string)
| OverflowError (msg : string)
| FileNotFoundError (msg : string)
| MlflowException (msg : string)
| MlflowMissingInputs (missing : list string) (extra : bool)
| MlflowIncompatibleInput (column from_dtype to_dtype : string) (hint : bool)
| ModelError (msg : string)
| RecursionError (msg : string)
| ImportError (msg : string)
| ModuleNotFoundError (msg : string)
| SystemExit (code : Z)
| HTTPException (code : Z) (name : string).

Definition is_value_error (e : PyExc) : bool :=
  match e with
  | ValueError _ | JSONDecodeError _ | UnicodeDecodeError _ => true
  | _ => false
  end.

Definition is_http_exception (e : PyExc) : bool :=
  match e with HTTPException _ _ => true | _ => false end.

#[export] Instance PyExc_eq_dec : EqDecision PyExc.
Proof. solve_decision. Defined.

(** ** The exception monad

    A Python computation either returns a value or raises. *)
Inductive PyResult (A : Type) : Type :=
| Ok (a : A)
| Raise (e : PyExc).
Arguments Ok {A} a.
Arguments Raise {A} e.

Definition py_bind {A B} (c : PyResult A) (k : A -> PyResult B) : PyResult B :=
  match c with
  | Ok a => k a
  | Raise e => Raise e
  end.

Definition py_map {A B} (f : A -> B) (c : PyResult A) : PyResult B :=
  py_bind c (fun a => Ok (f a)).

Declare Scope py_scope.
Delimit Scope py_scope with py.
Notation "x <- c ;; k" := (py_bind c (fun x => k))
  (at level 100, c at next level, right associativity) : py_scope.
Open Scope py_scope.

(** [try: c except ValueError as e: h e] *)
Definition py_catch_value_error {A} (c : PyResult A) (h : PyExc -> PyResult A)
  : PyResult A :=
  match c with
  | Raise e => if is_value_error e then h e else Raise e
  | Ok a => Ok a
  end.

(** A Python loop that applies a raising function to each element. *)
Fixpoint py_mapM {A B} (f : A -> PyResult B) (l : list A) : PyResult (list B) :=
  match l with
  | [] => Ok []
  | x :: xs => y <- f x ;; ys <- py_mapM f xs ;; Ok (y :: ys)
  end.

Definition is_ok {A} (c : PyResult A) : bool :=
  match c with Ok _ => true | Raise _ => false end.

(** [s.split(".")] *)
Fixpoint split_dots (s : string) : list string :=
  match s with
  | EmptyString => [EmptyString]
  | String "." s' => EmptyString :: split_dots s'
  | String c s' =>
      match split_dots s' with
      | l :: ls => String c l :: ls
      | [] => [String c EmptyString]
      end
  end.

(** ** Shared lemmas *)

Create HintDb pysvc discriminated.
Create Rewrite HintDb pysvc_rw.

Lemma py_bind_ok {A B} (a : A) (k : A -> PyResult B) : py_bind (Ok a) k = k a.
Proof. reflexivity. Qed.

Lemma py_bind_raise {A B} (e : PyExc) (k : A -> PyResult B) :
  py_bind (Raise e) k = Raise e.
Proof. reflexivity. Qed.

Lemma py_bind_assoc {A B C} (c : PyResult A) (f : A -> PyResult B)
  (g : B -> PyResult C) :
  py_bind (py_bind c f) g = py_bind c (fun a => py_bind (f a) g).
Proof. by destruct c. Qed.

Lemma py_bind_ret {A} (c : PyResult A) : py_bind c Ok = c.
Proof. by destruct c. Qed.

(** Inversion of a successful bind: both stages succeeded. *)
Lemma py_bind_Ok_inv {A B} (c : PyResult A) (k : A -> PyResult B) (b : B) :
  py_bind c k = Ok b -> exists a, c = Ok a /\ k a = Ok b.
Proof. destruct c; simpl; [eauto | discriminate]. Qed.

(** Inversion of a failed bind: the first stage raised, or the second did. *)
Lemma py_bind_Raise_inv {A B} (c : PyResult A) (k : A -> PyResult B) e :
  py_bind c k = Raise e -> c = Raise e \/ exists a, c = Ok a /\ k a = Raise e.
Proof. destruct c; simpl; [eauto | injection 1 as ->; auto]. Qed.

Lemma py_mapM_length {A B} (f : A -> PyResult B) l l' :
  py_mapM f l = Ok l' -> length l' = length l.
Proof.
  revert l'; induction l as [|x xs IH]; intros l' H; simpl in H.
  - by injection H as <-.
  - destruct (f x); [|discriminate]. simpl in H.
    destruct (py_mapM f xs) eqn:E; [|discriminate]. simpl in H.
    injection H as <-. simpl. by rewrite (IH _ eq_refl).
Qed.

(** [py_mapM] of a function that never raises is [map]. *)
Lemma py_mapM_total {A B} (f : A -> PyResult B) (g : A -> B) l :
  (forall x, f x = Ok (g x)) -> py_mapM f l = Ok (map g l).
Proof. intros Hf; induction l as [|x xs IH]; simpl; [done|]. by rewrite Hf, IH. Qed.

(** [py_mapM] succeeds exactly when [f] succeeds on every element. *)
Lemma py_mapM_Ok_iff {A B} (f : A -> PyResult B) l l' :
  py_mapM f l = Ok l' <-> Forall2 (fun x y => f x = Ok y) l l'.
Proof.
  revert l'; induction l as [|x xs IH]; intros l'; simpl.
  - split; [intros [= <-]; constructor | by inversion 1].
  - split.
    + destruct (f x) as [y|] eqn:Ef; [|discriminate]. simpl.
      destruct (py_mapM f xs) as [ys|] eqn:E; [|discriminate]. intros [= <-].
      constructor; [done | by apply IH].
    + inversion 1 as [|? y ? ys Hy Hys]; subst. rewrite Hy. simpl.
      by rewrite (proj2 (IH ys) Hys).
Qed.

(** [Forall2] respects pointwise equivalence of relations, so that
    characterisations of the element relation rewrite under it. *)
#[export] Instance Forall2_iff_proper {A B} :
  Proper (pointwise_relation A (pointwise_relation B iff) ==> eq ==> eq ==> iff) (@Forall2 A B).
Proof.
  intros P Q HPQ l1 ? <- l2 ? <-.
  split; intros H; (eapply Forall2_impl; [exact H|]); intros x y; apply HPQ.
Qed.

(** A relation that is a function on the elements it relates. *)
Lemma Forall2_fun_iff {A B} (P : A -> Prop) (g : A -> B) l l' :
  Forall2 (fun x y => P x /\ y = g x) l l' <-> Forall P l /\ l' = map g l.
Proof.
  revert l'; induction l as [|x xs IH]; intros l'.
  - split; [by inversion 1 | intros [_ ->]; constructor].
  - split.
    + inversion 1 as [|? y ? ys [Hx ->] Hys]; subst.
      apply IH in Hys as [Hall ->]. split; [by constructor | done].
    + intros [Hall ->]. inversion Hall; subst. simpl. constructor; [done|]. by apply IH.
Qed.

#[export] Hint Rewrite @py_bind_ok @py_bind_raise @py_bind_assoc @py_bind_ret : pysvc_rw.
#[export] Hint Resolve py_mapM_total : pysvc.

(** [py_inv]: split every successful or failed bind among the hypotheses. *)
Ltac py_inv :=
  repeat match goal with
  | H : py_bind ?c ?k = Ok _ |- _ =>
      let a := fresh "a" in let Ha := fresh "Hok" in
      apply py_bind_Ok_inv in H as (a & Ha & H)
  | H : Ok _ = Ok _ |- _ => injection H as H
  | H : Ok _ = Raise _ |- _ => discriminate H
  | H : Raise _ = Ok _ |- _ => discriminate H
  end.

(** [raise_cases H]: [H] says a chain of binds raised; split it into one
    case per step, each with the step that raised as [H]. *)
Ltac raise_cases H :=
  repeat (apply py_bind_Raise_inv in H as [H | (? & ? & H)]); try discriminate H.

(** ** Lists *)

Lemma nth_error_map_some {A B} (f : A -> B) (l : list A) i x :
  nth_error l i = Some x -> nth_error (map f l) i = Some (f x).
Proof. intros H. by rewrite nth_error_map, H. Qed.

#[export] Hint Resolve nth_error_map_some : pysvc.
