(* ===== verification/PyData.v ===== *)
(** * Python values as the service sees them

    [PyObj] is the part of Python's object graph that flows through the
    service: what [json.loads] builds (None, bool, int, float, str, list,
    dict with str keys) and what [numpy.ndarray.tolist] returns.  A dict is
    the list of its items in insertion order, without duplicate keys; a
    float is the decimal literal it was read from ([PyFloat]).  A str is
    the Rocq string of its UTF-8 encoding (lone surrogates encoded as
    [surrogatepass] does), as [Unicode] explains. *)

From Stdlib Require Import Ascii String ZArith Lia.
From S2P Require Import Prelude.

(** A float: [FDec neg m e] is [(-1)^neg * m * 10^e], the decimal the
    float was parsed from; NaN and the two infinities as Python has them. *)
Inductive PyFloat : Type :=
| FDec (neg : bool) (mant : N) (exp : Z)
| FNaN
| FInf (neg : bool).

#[export] Instance PyFloat_eq_dec : EqDecision PyFloat.
Proof. solve_decision. Defined.

#[local] Set Warnings "-register-all".
Inductive PyObj : Type :=
| PNone
| PBool (b : bool)
| PInt (z : Z)
| PFloat (f : PyFloat)
| PStr (s : string)
| PList (l : list PyObj)
| PDict (items : list (string * PyObj)).

(** Structural induction through the lists of [PList] and [PDict]. *)
Section PyObj_ind.
Variable P : PyObj -> Prop.
Hypothesis HNone : P PNone.
Hypothesis HBool : forall b, P (PBool b).
Hypothesis HInt : forall z, P (PInt z).
Hypothesis HFloat : forall f, P (PFloat f).
Hypothesis HStr : forall s, P (PStr s).
Hypothesis HList : forall l, Forall P l -> P (PList l).
Hypothesis HDict : forall d, Forall (fun kv => P kv.2) d -> P (PDict d).

Fixpoint PyObj_ind' (v : PyObj) : P v :=
  match v with
  | PNone => HNone
  | PBool b => HBool b
  | PInt z => HInt z
  | PFloat f => HFloat f
  | PStr s => HStr s
  | PList l =>
      HList l ((fix go (l : list PyObj) : Forall P l :=
                  match l with
                  | [] => List.Forall_nil _
                  | x :: xs => List.Forall_cons _ x xs (PyObj_ind' x) (go xs)
                  end) l)
  | PDict d =>
      HDict d ((fix go (d : list (string * PyObj)) : Forall (fun kv => P kv.2) d :=
                  match d with
                  | [] => List.Forall_nil _
                  | kv :: d' => List.Forall_cons _ kv d' (PyObj_ind' kv.2) (go d')
                  end) d)
  end.
End PyObj_ind.

#[export] Instance PyObj_eq_dec : EqDecision PyObj.
Proof.
  refine (fix go (x y : PyObj) {struct x} : Decision (x = y) :=
    match x, y with
    | PNone, PNone => left eq_refl
    | PBool a, PBool b => cast_if (decide (a = b))
    | PInt a, PInt b => cast_if (decide (a = b))
    | PFloat a, PFloat b => cast_if (decide (a = b))
    | PStr a, PStr b => cast_if (decide (a = b))
    | PList a, PList b => cast_if (@list_eq_dec _ go a b)
    | PDict a, PDict b =>
        cast_if (@list_eq_dec _ (fun p q => @prod_eq_dec _ _ _ go p q) a b)
    | _, _ => right _
    end); congruence.
Defined.

(** ** Dicts

    [dict_set k v d] is [d[k] = v]: an existing key keeps its position and
    takes the new value, a new key goes last.  [dict_of_pairs] is
    [dict(pairs)], which is how [json.loads] builds an object: for a key
    given twice the last value wins, at the position of the first. *)
Fixpoint dict_set (k : string) (v : PyObj) (d : list (string * PyObj))
  : list (string * PyObj) :=
  match d with
  | [] => [(k, v)]
  | (k', v') :: d' =>
      if String.eqb k k' then (k, v) :: d' else (k', v') :: dict_set k v d'
  end.

Definition dict_of_pairs (ps : list (string * PyObj)) : list (string * PyObj) :=
  fold_left (fun d kv => dict_set kv.1 kv.2 d) ps [].

Fixpoint dict_get (k : string) (d : list (string * PyObj)) : option PyObj :=
  match d with
  | [] => None
  | (k', v) :: d' => if String.eqb k k' then Some v else dict_get k d'
  end.

Definition dict_keys (d : list (string * PyObj)) : list string := map fst d.

(** The value of [k] in a list of pairs read left to right: the last one. *)
Fixpoint last_value (k : string) (ps : list (string * PyObj)) : option PyObj :=
  match ps with
  | [] => None
  | (k', v) :: ps' =>
      match last_value k ps' with
      | Some w => Some w
      | None => if String.eqb k k' then Some v else None
      end
  end.

(** The keys of a list of pairs in the order of their first occurrence. *)
Definition first_occurrences (ks : list string) : list string :=
  fold_left (fun acc k => if decide (k ∈ acc) then acc else acc ++ [k]) ks [].

(** A well-formed value: every dict in it, at any depth, has distinct
    keys, as every Python dict has. *)
Fixpoint py_wf (v : PyObj) : bool :=
  match v with
  | PList l => forallb py_wf l
  | PDict d => bool_decide (NoDup (dict_keys d)) && forallb (fun kv => py_wf kv.2) d
  | _ => true
  end.

(** ** Lemmas on dicts *)

Lemma dict_get_set_eq k v d : dict_get k (dict_set k v d) = Some v.
Proof.
  induction d as [|[k' v'] d IH]; simpl; [by rewrite String.eqb_refl|].
  destruct (String.eqb_spec k k') as [->|Hne]; simpl.
  - by rewrite String.eqb_refl.
  - rewrite (proj2 (String.eqb_neq k k') Hne). exact IH.
Qed.

Lemma dict_get_set_ne k k' v d :
  k <> k' -> dict_get k' (dict_set k v d) = dict_get k' d.
Proof.
  intros Hne. induction d as [|[k0 v0] d IH]; simpl.
  - destruct (String.eqb_spec k' k); [congruence | done].
  - destruct (String.eqb_spec k k0) as [->|Hk0]; simpl.
    + destruct (String.eqb_spec k' k0); [congruence | done].
    + by rewrite IH.
Qed.

Lemma dict_keys_set k v d :
  dict_keys (dict_set k v d) =
  if decide (k ∈ dict_keys d) then dict_keys d else dict_keys d ++ [k].
Proof.
  induction d as [|[k0 v0] d IH]; simpl; [done|].
  destruct (String.eqb_spec k k0) as [->|Hne]; simpl.
  - rewrite decide_True; [done | by left].
  - rewrite IH. unfold dict_keys.
    destruct (decide (k ∈ map fst d)) as [Hin|Hin].
    + rewrite decide_True; [done | by right].
    + rewrite decide_False; [done|].
      rewrite elem_of_cons. intros [? | ?]; contradiction.
Qed.

(** [dict_set] keeps the keys of a dict distinct. *)
Lemma dict_set_NoDup k v d :
  NoDup (dict_keys d) -> NoDup (dict_keys (dict_set k v d)).
Proof.
  intros Hnd. rewrite dict_keys_set. case_decide; [done|].
  apply NoDup_app. repeat split; [done| |by apply NoDup_singleton].
  intros x Hx ->%list_elem_of_singleton. contradiction.
Qed.

Lemma dict_set_forallb (p : string * PyObj -> bool) k v d :
  forallb p d = true -> p (k, v) = true -> forallb p (dict_set k v d) = true.
Proof.
  intros Hd Hkv. induction d as [|[k' v'] d IH]; simpl in *; [by rewrite Hkv|].
  apply andb_prop in Hd as [Hk' Hd].
  destruct (String.eqb k k'); simpl; [by rewrite Hkv, Hd | by rewrite Hk', IH].
Qed.

(** The dict built by [json.loads] from an object's pairs has distinct
    keys, and each key maps to the last value given for it. *)
Lemma dict_of_pairs_NoDup ps : NoDup (dict_keys (dict_of_pairs ps)).
Proof.
  unfold dict_of_pairs.
  enough (forall d, NoDup (dict_keys d) ->
            NoDup (dict_keys (fold_left (fun d kv => dict_set kv.1 kv.2 d) ps d)))
    by (apply H; constructor).
  induction ps as [|[k v] ps IH]; intros d Hd; simpl; [done|].
  apply IH, dict_set_NoDup, Hd.
Qed.

Lemma dict_get_fold k ps d :
  dict_get k (fold_left (fun d kv => dict_set kv.1 kv.2 d) ps d) =
  match last_value k ps with Some w => Some w | None => dict_get k d end.
Proof.
  revert d; induction ps as [|[k' v] ps IH]; intros d; simpl; [done|].
  rewrite IH. destruct (last_value k ps); [done|].
  destruct (String.eqb_spec k k') as [->|Hne].
  - apply dict_get_set_eq.
  - apply dict_get_set_ne. congruence.
Qed.

Lemma dict_keys_fold ps d :
  dict_keys (fold_left (fun d kv => dict_set kv.1 kv.2 d) ps d) =
  fold_left (fun acc k => if decide (k ∈ acc) then acc else acc ++ [k]) (map fst ps) (dict_keys d).
Proof.
  revert d; induction ps as [|[k v] ps IH]; intros d; simpl; [done|].
  by rewrite IH, dict_keys_set.
Qed.

Lemma dict_keys_of_pairs ps : dict_keys (dict_of_pairs ps) = first_occurrences (map fst ps).
Proof. unfold dict_of_pairs, first_occurrences. by rewrite dict_keys_fold. Qed.

Lemma dict_get_of_pairs k ps : dict_get k (dict_of_pairs ps) = last_value k ps.
Proof.
  unfold dict_of_pairs. rewrite dict_get_fold. by destruct (last_value k ps).
Qed.
