(* ===== verification/Unicode.v ===== *)
(** * Text: code points, UTF-8, and the encodings [json.loads] detects

    A Python str is represented by the Rocq string of its UTF-8 encoding
    (a lone surrogate, which [json.loads] builds from an unpaired [\ud800]
    escape, is encoded in the same three-byte form Python's
    [surrogatepass] handler uses).  This file holds
    - [utf8_encode] of one code point and [encode_cps] of a sequence;
    - [utf8_decode]: CPython's UTF-8 decoder with [errors='surrogatepass'];
    - [utf16_decode] / [utf32_decode] and [detect_encoding]: what
      [json.loads] does to a bytes argument before scanning it;
    - [py_isspace]: [Py_UNICODE_ISSPACE], and [py_todecimal]:
      [Py_UNICODE_TODECIMAL] (the Unicode 15.0 decimal digits). *)

From Stdlib Require Import Ascii String ZArith Lia.
From S2P Require Import Prelude.

Open Scope Z_scope.

Definition byte (a : ascii) : Z := Z.of_N (N_of_ascii a).
Definition chr (z : Z) : ascii := ascii_of_N (Z.to_N z).

Definition in_range (lo hi x : Z) : bool := (lo <=? x) && (x <=? hi).

(** ** UTF-8 *)

Definition utf8_encode (cp : Z) : list ascii :=
  if cp <? 0x80 then [chr cp]
  else if cp <? 0x800 then [chr (0xC0 + cp / 64); chr (0x80 + cp mod 64)]
  else if cp <? 0x10000 then
    [chr (0xE0 + cp / 4096); chr (0x80 + (cp / 64) mod 64); chr (0x80 + cp mod 64)]
  else
    [chr (0xF0 + cp / 262144); chr (0x80 + (cp / 4096) mod 64);
     chr (0x80 + (cp / 64) mod 64); chr (0x80 + cp mod 64)].

Definition encode_cps (cps : list Z) : list ascii := concat (map utf8_encode cps).

Definition cont (a : ascii) : bool := in_range 0x80 0xBF (byte a).
Definition low6 (a : ascii) : Z := byte a - 0x80.

(** The range the second byte of a multi-byte sequence may take, given
    the first: this rules out overlong forms and code points above
    0x10FFFF.  Surrogates (ED A0..BF) pass, as [surrogatepass] lets them. *)
Definition second_ok (b1 : Z) (a : ascii) : bool :=
  let b := byte a in
  if b1 =? 0xE0 then in_range 0xA0 0xBF b
  else if b1 =? 0xF0 then in_range 0x90 0xBF b
  else if b1 =? 0xF4 then in_range 0x80 0x8F b
  else in_range 0x80 0xBF b.

Fixpoint utf8_decode (bs : list ascii) : option (list Z) :=
  match bs with
  | [] => Some []
  | a :: r =>
      let b1 := byte a in
      if b1 <? 0x80 then cons b1 <$> utf8_decode r
      else if in_range 0xC2 0xDF b1 then
        match r with
        | a2 :: r2 =>
            if cont a2 then cons ((b1 - 0xC0) * 64 + low6 a2) <$> utf8_decode r2
            else None
        | [] => None
        end
      else if in_range 0xE0 0xEF b1 then
        match r with
        | a2 :: a3 :: r3 =>
            if second_ok b1 a2 && cont a3 then
              cons ((b1 - 0xE0) * 4096 + low6 a2 * 64 + low6 a3) <$> utf8_decode r3
            else None
        | _ => None
        end
      else if in_range 0xF0 0xF4 b1 then
        match r with
        | a2 :: a3 :: a4 :: r4 =>
            if second_ok b1 a2 && cont a3 && cont a4 then
              cons ((b1 - 0xF0) * 262144 + low6 a2 * 4096 + low6 a3 * 64 + low6 a4)
                <$> utf8_decode r4
            else None
        | _ => None
        end
      else None
  end.

(** ** UTF-16 and UTF-32 *)

Definition is_high_surrogate (u : Z) : bool := in_range 0xD800 0xDBFF u.
Definition is_low_surrogate (u : Z) : bool := in_range 0xDC00 0xDFFF u.

Fixpoint utf16_units (be : bool) (bs : list ascii) : option (list Z) :=
  match bs with
  | [] => Some []
  | a :: b :: r =>
      cons (if be then byte a * 256 + byte b else byte b * 256 + byte a)
        <$> utf16_units be r
  | [_] => None
  end.

(** A high surrogate followed by a low one is one code point; any other
    surrogate stays as it is ([surrogatepass]). *)
Fixpoint join_surrogates (us : list Z) : list Z :=
  match us with
  | hi :: ((lo :: rest') as rest) =>
      if is_high_surrogate hi && is_low_surrogate lo
      then (0x10000 + (hi - 0xD800) * 1024 + (lo - 0xDC00)) :: join_surrogates rest'
      else hi :: join_surrogates rest
  | _ => us
  end.

Definition utf16_decode (be : bool) (bs : list ascii) : option (list Z) :=
  join_surrogates <$> utf16_units be bs.

Fixpoint utf32_decode (be : bool) (bs : list ascii) : option (list Z) :=
  match bs with
  | [] => Some []
  | a :: b :: c :: d :: r =>
      let u := if be then ((byte a * 256 + byte b) * 256 + byte c) * 256 + byte d
               else ((byte d * 256 + byte c) * 256 + byte b) * 256 + byte a in
      if u <=? 0x10FFFF then cons u <$> utf32_decode be r else None
  | _ => None
  end.

(** [json.detect_encoding] *)
Inductive Encoding : Type :=
| Utf8 | Utf8Sig | Utf16 | Utf16BE | Utf16LE | Utf32 | Utf32BE | Utf32LE.

Definition is_nul (a : ascii) : bool := byte a =? 0.

Definition detect_encoding (bs : list ascii) : Encoding :=
  match map byte bs with
  | 0 :: 0 :: 0xFE :: 0xFF :: _ | 0xFF :: 0xFE :: 0 :: 0 :: _ => Utf32
  | 0xFE :: 0xFF :: _ | 0xFF :: 0xFE :: _ => Utf16
  | 0xEF :: 0xBB :: 0xBF :: _ => Utf8Sig
  | b0 :: b1 :: b2 :: b3 :: _ =>
      if b0 =? 0 then (if b1 =? 0 then Utf32BE else Utf16BE)
      else if b1 =? 0 then
        (if (b2 =? 0) && (b3 =? 0) then Utf32LE else Utf16LE)
      else Utf8
  | [b0; b1] =>
      if b0 =? 0 then Utf16BE else if b1 =? 0 then Utf16LE else Utf8
  | _ => Utf8
  end.

(** [bs.decode(enc, 'surrogatepass')] as code points.  The [utf-16] and
    [utf-32] codecs read the byte-order mark and drop it, [utf-8-sig]
    drops a UTF-8 mark. *)
Definition decode_bytes (enc : Encoding) (bs : list ascii) : option (list Z) :=
  match enc, bs with
  | Utf8, _ => utf8_decode bs
  | Utf8Sig, _ :: _ :: _ :: r => utf8_decode r
  | Utf8Sig, _ => utf8_decode bs
  | Utf16, a :: b :: r => utf16_decode (bool_decide (byte a = 0xFE)) r
  | Utf16, _ => None
  | Utf16BE, _ => utf16_decode true bs
  | Utf16LE, _ => utf16_decode false bs
  | Utf32, a :: _ :: _ :: _ :: r => utf32_decode (bool_decide (byte a = 0)) r
  | Utf32, _ => None
  | Utf32BE, _ => utf32_decode true bs
  | Utf32LE, _ => utf32_decode false bs
  end.

(** ** Character classes *)

(** [Py_UNICODE_ISSPACE]: the characters with the White_Space property
    plus the four ASCII separators 0x1C..0x1F. *)
Definition py_isspace (cp : Z) : bool :=
  in_range 0x09 0x0D cp || in_range 0x1C 0x20 cp || (cp =? 0x85) || (cp =? 0xA0)
  || (cp =? 0x1680) || in_range 0x2000 0x200A cp || (cp =? 0x2028) || (cp =? 0x2029)
  || (cp =? 0x202F) || (cp =? 0x205F) || (cp =? 0x3000).

(** The first code point of each run of ten decimal digits (general
    category Nd) in Unicode 15.0. *)
Definition decimal_zeros : list Z :=
  [0x30; 0x660; 0x6F0; 0x7C0; 0x966; 0x9E6; 0xA66; 0xAE6; 0xB66; 0xBE6; 0xC66;
   0xCE6; 0xD66; 0xDE6; 0xE50; 0xED0; 0xF20; 0x1040; 0x1090; 0x17E0; 0x1810;
   0x1946; 0x19D0; 0x1A80; 0x1A90; 0x1B50; 0x1BB0; 0x1C40; 0x1C50; 0xA620;
   0xA8D0; 0xA900; 0xA9D0; 0xA9F0; 0xAA50; 0xABF0; 0xFF10; 0x104A0; 0x10D30;
   0x11066; 0x110F0; 0x11136; 0x111D0; 0x112F0; 0x11450; 0x114D0; 0x11650;
   0x116C0; 0x11730; 0x118E0; 0x11950; 0x11C50; 0x11D50; 0x11DA0; 0x11F50;
   0x16A60; 0x16AC0; 0x16B50; 0x1D7CE; 0x1D7D8; 0x1D7E2; 0x1D7EC; 0x1D7F6;
   0x1E140; 0x1E2F0; 0x1E4F0; 0x1E950; 0x1FBF0].

(** [Py_UNICODE_TODECIMAL]: the digit value, if the character is one. *)
Definition py_todecimal (cp : Z) : option Z :=
  match find (fun z => in_range z (z + 9) cp) decimal_zeros with
  | Some z => Some (cp - z)
  | None => None
  end.

(** ** Lemmas *)

Lemma byte_chr z : 0 <= z < 256 -> byte (chr z) = z.
Proof.
  intros Hz. unfold byte, chr. rewrite N_ascii_embedding; [lia|].
  apply N2Z.inj_lt. rewrite Z2N.id; lia.
Qed.

Lemma byte_range a : 0 <= byte a < 256.
Proof.
  unfold byte. pose proof (N_ascii_bounded a). lia.
Qed.

Lemma utf8_encode_ascii cp : 0 <= cp < 0x80 -> utf8_encode cp = [chr cp].
Proof. intros H. unfold utf8_encode. destruct (Z.ltb_spec cp 0x80); [done | lia]. Qed.

Lemma in_range_true lo hi x : lo <= x <= hi -> in_range lo hi x = true.
Proof. intros. unfold in_range. apply andb_true_intro. split; apply Z.leb_le; lia. Qed.

Lemma in_range_false lo hi x : x < lo \/ hi < x -> in_range lo hi x = false.
Proof.
  intros H. unfold in_range.
  destruct H as [H|H]; [rewrite (proj2 (Z.leb_gt lo x)) by lia; done|].
  rewrite (proj2 (Z.leb_gt x hi)) by lia. apply andb_false_r.
Qed.

(** Settle the byte tests of the decoder on an encoded code point, once
    its digits are plain variables. *)
Ltac range_tac :=
  repeat match goal with
  | |- context [byte (chr ?z)] => rewrite (byte_chr z) by lia
  | |- context [in_range ?lo ?hi ?x] =>
      first [ rewrite (in_range_true lo hi x) by lia
            | rewrite (in_range_false lo hi x) by lia ]
  | |- context [?x <? ?y] =>
      first [ rewrite (proj2 (Z.ltb_lt x y)) by lia
            | rewrite (proj2 (Z.ltb_ge x y)) by lia ]
  | |- context [?x =? ?y] =>
      first [ rewrite (proj2 (Z.eqb_eq x y)) by lia
            | rewrite (proj2 (Z.eqb_neq x y)) by lia
            | destruct (Z.eqb_spec x y) ]
  end; simpl.

Lemma div_mod_64 x : x = 64 * (x / 64) + x mod 64 /\ 0 <= x mod 64 < 64.
Proof. split; [apply Z.div_mod; lia | apply Z.mod_pos_bound; lia]. Qed.

Lemma utf8_decode_encode_one cp rest :
  0 <= cp <= 0x10FFFF ->
  utf8_decode (utf8_encode cp ++ rest) = cons cp <$> utf8_decode rest.
Proof.
  intros Hcp. unfold utf8_encode.
  destruct (div_mod_64 cp) as [E1 B1].
  destruct (div_mod_64 (cp / 64)) as [E2 B2].
  destruct (div_mod_64 (cp / 4096)) as [E3 B3].
  replace (cp / 64 / 64) with (cp / 4096) in E2 by (rewrite Z.div_div by lia; reflexivity).
  replace (cp / 4096 / 64) with (cp / 262144) in E3 by (rewrite Z.div_div by lia; reflexivity).
  set (q3 := cp / 262144) in *. set (d3 := (cp / 4096) mod 64) in *.
  set (q2 := cp / 4096) in *. set (d2 := (cp / 64) mod 64) in *.
  set (q1 := cp / 64) in *. set (d1 := cp mod 64) in *.
  clearbody q3 d3 q2 d2 q1 d1.
  destruct (Z.ltb_spec cp 0x80); [|destruct (Z.ltb_spec cp 0x800);
    [|destruct (Z.ltb_spec cp 0x10000)]]; simpl;
  unfold cont, second_ok, low6; range_tac;
  destruct (utf8_decode rest); simpl; try done; do 2 f_equal; lia.
Qed.

(** Round trip: decoding the UTF-8 encoding of valid code points gives
    them back. *)
Theorem utf8_decode_encode cps :
  Forall (fun cp => 0 <= cp <= 0x10FFFF) cps -> utf8_decode (encode_cps cps) = Some cps.
Proof.
  induction 1 as [|cp cps Hcp Hall IH]; [done|].
  unfold encode_cps in *. simpl. rewrite utf8_decode_encode_one by done.
  by rewrite IH.
Qed.

(** The round trip at ASCII, two- three- and four-byte characters and a
    lone surrogate. *)
Lemma utf8_decode_encode_witness :
  Forall (fun cp => 0 <= cp <= 0x10FFFF) [0x41; 0xE9; 0x20AC; 0xD800; 0x1F600] /\
  utf8_decode (encode_cps [0x41; 0xE9; 0x20AC; 0xD800; 0x1F600]) = Some [0x41; 0xE9; 0x20AC; 0xD800; 0x1F600].
Proof.
  assert (H : Forall (fun cp => 0 <= cp <= 0x10FFFF) [0x41; 0xE9; 0x20AC; 0xD800; 0x1F600])
    by (repeat constructor; lia).
  split; [exact H | apply utf8_decode_encode, H].
Defined.
