(* ===== verification/PyInt.v ===== *)
(** * CPython's [int()] on a str, and [str()] on an int

    [py_int_of_str s] is [int(s)] with base 10, as
    [PyLong_FromUnicodeObject] computes it:
    - [transform_cps]: [_PyUnicode_TransformDecimalAndSpaceToASCII] maps
      every non-ASCII white-space character to a space and every non-ASCII
      decimal digit to its ASCII digit, and cuts the text at the first
      other non-ASCII character (which then makes the parse fail);
    - [py_long_from_string]: [PyLong_FromString]: skip leading ASCII white
      space, read a sign, refuse a leading underscore, read digits with
      single underscores between them, refuse more than
      [max_str_digits] (4300, [sys.get_int_max_str_digits()]'s default)
      digits, skip trailing ASCII white space, and require the end.
    Every failure is a [ValueError].  [py_str_of_Z n] is [str(n)]. *)

From Stdlib Require Import Ascii String ZArith Lia.
From S2P Require Import Prelude PyData Unicode.

Open Scope Z_scope.

Definition max_str_digits : Z := 4300.

(** The code points of a str. *)
Definition str_cps (s : string) : list Z :=
  default [] (utf8_decode (list_ascii_of_string s)).

Fixpoint transform_cps (cps : list Z) : list Z :=
  match cps with
  | [] => []
  | c :: r =>
      if c <? 127 then c :: transform_cps r
      else if py_isspace c then 32 :: transform_cps r
      else match py_todecimal c with
           | Some d => (48 + d) :: transform_cps r
           | None => [63]
           end
  end.

(** [Py_ISSPACE] on an ASCII character. *)
Definition c_isspace (c : Z) : bool := in_range 9 13 c || (c =? 32).

Fixpoint skip_cspace (l : list Z) : list Z :=
  match l with
  | c :: r => if c_isspace c then skip_cspace r else l
  | [] => []
  end.

Definition digit_val (c : Z) : option Z := if in_range 48 57 c then Some (c - 48) else None.

(** The digit scan: digits and underscores, never two underscores in a
    row and not ending with one ([None] is that error).  [prev_us] says
    the previous character was an underscore. *)
Fixpoint scan_num (l : list Z) (prev_us : bool) : option (list Z * list Z) :=
  match l with
  | c :: r =>
      if c =? 95 then (if prev_us then None else scan_num r true)
      else match digit_val c with
           | Some d => (fun p => (d :: p.1, p.2)) <$> scan_num r false
           | None => if prev_us then None else Some ([], l)
           end
  | [] => if prev_us then None else Some ([], [])
  end.

Definition digits_value (ds : list Z) : Z := fold_left (fun acc d => acc * 10 + d) ds 0.

Definition invalid_literal : PyExc := ValueError "invalid literal for int() with base 10".

Definition digit_limit_exc : PyExc :=
  ValueError "Exceeds the limit (4300 digits) for integer string conversion".

(** Read a sign: ['+'] (43) or ['-'] (45). *)
Definition read_sign (s : list Z) : Z * list Z :=
  match s with
  | c :: r => if c =? 43 then (1, r) else if c =? 45 then (-1, r) else (1, s)
  | [] => (1, s)
  end.

Definition starts_with_underscore (s : list Z) : bool :=
  match s with c :: _ => c =? 95 | [] => false end.

Definition py_long_from_string (buf : list Z) : PyResult Z :=
  let '(sign, s2) := read_sign (skip_cspace buf) in
  if starts_with_underscore s2 then Raise invalid_literal
  else
    match scan_num s2 false with
    | None => Raise invalid_literal
    | Some (ds, rest) =>
        if max_str_digits <? Z.of_nat (length ds) then
          Raise digit_limit_exc
        else match ds, skip_cspace rest with
             | _ :: _, [] => Ok (sign * digits_value ds)
             | _, _ => Raise invalid_literal
             end
    end.

Definition py_int_of_str (s : string) : PyResult Z :=
  py_long_from_string (transform_cps (str_cps s)).

(** The builtin [int(x)] on the values it is given in the source. *)
Definition py_int (v : PyObj) : PyResult Z :=
  match v with
  | PInt z => Ok z
  | PBool b => Ok (if b then 1 else 0)
  | PStr s => py_int_of_str s
  | _ => Raise (TypeError "int() argument must be a string, a bytes-like object or a real number")
  end.

(** ** [str(n)] *)

Fixpoint digits_rev (fuel : nat) (n : Z) : list Z :=
  match fuel with
  | O => []
  | S f => if n <? 10 then [n] else n mod 10 :: digits_rev f (n / 10)
  end.

(** The decimal digits of [n >= 0], most significant first. *)
Definition decimal_digits (n : Z) : list Z := rev (digits_rev (S (Z.to_nat (Z.log2 n))) n).

Definition py_str_of_Z (n : Z) : string :=
  string_of_list_ascii
    ((if n <? 0 then ["-"%char] else []) ++ map (fun d => chr (48 + d)) (decimal_digits (Z.abs n))).

(** ** Lemmas *)

Fixpoint value_rev (ds : list Z) : Z :=
  match ds with [] => 0 | d :: ds' => d + 10 * value_rev ds' end.

Lemma digits_value_app ds d : digits_value (ds ++ [d]) = digits_value ds * 10 + d.
Proof. unfold digits_value. by rewrite fold_left_app. Qed.

Lemma digits_value_rev ds : digits_value (rev ds) = value_rev ds.
Proof.
  induction ds as [|d ds IH]; [done|]. simpl. rewrite digits_value_app, IH. lia.
Qed.

(** What [digits_rev] produces from enough fuel: digits 0..9, at least
    one, whose value is [n], and no more than [k] of them when [n < 10^k]. *)
Lemma digits_rev_spec fuel n :
  0 <= n < 2 ^ Z.of_nat (S fuel) ->
  Forall (fun d => 0 <= d < 10) (digits_rev (S fuel) n) /\
  digits_rev (S fuel) n <> [] /\
  value_rev (digits_rev (S fuel) n) = n /\
  (forall k, 1 <= k -> n < 10 ^ k -> Z.of_nat (length (digits_rev (S fuel) n)) <= k).
Proof.
  revert n; induction fuel as [|f IH]; intros n Hn.
  - simpl in Hn. simpl. destruct (Z.ltb_spec n 10); [|lia].
    repeat split; [repeat constructor; lia | done | simpl; lia | simpl; lia].
  - rewrite Nat2Z.inj_succ, Z.pow_succ_r in Hn by lia.
    pose proof (Z.pow_pos_nonneg 2 (Z.of_nat (S f)) ltac:(lia) ltac:(lia)).
    remember (S f) as f' eqn:Ef. simpl. subst f'.
    destruct (Z.ltb_spec n 10).
    + repeat split; [repeat constructor; lia | done | simpl; lia | simpl; lia].
    + destruct (IH (n / 10)) as (Hd & Hne & Hv & Hl).
      { split; [apply Z.div_pos; lia|]. apply Z.div_lt_upper_bound; lia. }
      pose proof (Z.mod_pos_bound n 10 ltac:(lia)).
      pose proof (Z.div_mod n 10 ltac:(lia)).
      repeat split; [constructor; [lia | done] | done | cbn [value_rev]; lia |].
      intros k Hk Hnk. cbn [length]. rewrite Nat2Z.inj_succ.
      assert (2 <= k).
      { destruct (Z.eq_dec k 1) as [->|]; [|lia]. simpl in Hnk. lia. }
      enough (Z.of_nat (length (digits_rev (S f) (n / 10))) <= k - 1) by lia.
      apply Hl; [lia|]. apply Z.div_lt_upper_bound; [lia|].
      replace (10 * 10 ^ (k - 1)) with (10 ^ k); [lia|].
      rewrite <- Z.pow_succ_r by lia. f_equal. lia.
Qed.

Lemma decimal_digits_spec n :
  0 <= n ->
  Forall (fun d => 0 <= d < 10) (decimal_digits n) /\ decimal_digits n <> [] /\
  digits_value (decimal_digits n) = n /\
  (forall k, 1 <= k -> n < 10 ^ k -> Z.of_nat (length (decimal_digits n)) <= k).
Proof.
  intros Hn. unfold decimal_digits.
  destruct (digits_rev_spec (Z.to_nat (Z.log2 n)) n) as (Hd & Hne & Hv & Hl).
  { split; [done|]. rewrite Nat2Z.inj_succ, Z2Nat.id by apply Z.log2_nonneg.
    destruct (Z.eq_dec n 0) as [->|]; [simpl; lia|].
    apply Z.log2_spec; lia. }
  repeat split.
  - by apply Forall_rev.
  - intros H. apply Hne. by apply (f_equal (@rev Z)) in H; rewrite rev_involutive in H.
  - by rewrite digits_value_rev.
  - intros k Hk Hnk. rewrite length_rev. by apply Hl.
Qed.

Lemma utf8_decode_ascii bs :
  Forall (fun a => byte a < 0x80) bs -> utf8_decode bs = Some (map byte bs).
Proof.
  induction 1 as [|a bs Ha _ IH]; [done|]. simpl.
  rewrite (proj2 (Z.ltb_lt _ _) Ha), IH. done.
Qed.

Lemma transform_cps_ascii cps : Forall (fun c => c < 127) cps -> transform_cps cps = cps.
Proof.
  induction 1 as [|c cps Hc _ IH]; [done|]. simpl. by rewrite (proj2 (Z.ltb_lt _ _) Hc), IH.
Qed.

Lemma scan_num_digits ds :
  Forall (fun d => 0 <= d < 10) ds -> scan_num (map (fun d => 48 + d) ds) false = Some (ds, []).
Proof.
  induction 1 as [|d ds Hd _ IH]; [done|]. simpl.
  rewrite (proj2 (Z.eqb_neq _ _)) by lia. unfold digit_val.
  rewrite in_range_true by lia. rewrite IH. simpl. do 3 f_equal. lia.
Qed.

Lemma map_byte_digits ds :
  Forall (fun d => 0 <= d < 10) ds ->
  map byte (map (fun d => chr (48 + d)) ds) = map (fun d => 48 + d) ds.
Proof.
  induction 1 as [|d ds Hd _ IH]; [done|]. simpl. rewrite byte_chr by lia. by rewrite IH.
Qed.

(** The buffer of an optional minus sign and decimal digits parses to
    their value, within the digit limit. *)
Lemma py_long_from_string_digits (neg : bool) ds :
  Forall (fun d => 0 <= d < 10) ds -> ds <> [] ->
  py_long_from_string ((if neg then [45] else []) ++ map (fun d => 48 + d) ds) =
  (if max_str_digits <? Z.of_nat (length ds) then Raise digit_limit_exc
   else Ok ((if neg then -1 else 1) * digits_value ds)).
Proof.
  intros Hd Hne. destruct ds as [|d0 ds']; [done|].
  inversion Hd as [|? ? Hd0 _]; subst.
  assert (Hhead : forall r, skip_cspace ((48 + d0) :: r) = (48 + d0) :: r /\
                            read_sign ((48 + d0) :: r) = (1, (48 + d0) :: r) /\
                            starts_with_underscore ((48 + d0) :: r) = false).
  { intros r. unfold read_sign, starts_with_underscore. cbn [skip_cspace].
    unfold c_isspace. rewrite in_range_false by lia.
    rewrite (proj2 (Z.eqb_neq (48 + d0) 32)), (proj2 (Z.eqb_neq (48 + d0) 43)),
      (proj2 (Z.eqb_neq (48 + d0) 45)), (proj2 (Z.eqb_neq (48 + d0) 95)) by lia.
    done. }
  set (L := map (fun d => 48 + d) (d0 :: ds')).
  assert (HL : exists r, L = (48 + d0) :: r) by (eexists; reflexivity).
  assert (Hscan : scan_num L false = Some (d0 :: ds', [])) by (apply scan_num_digits; done).
  clearbody L. destruct HL as [r ->].
  destruct (Hhead r) as (H1 & H2 & H3).
  unfold py_long_from_string. destruct neg; simpl app;
    [change (skip_cspace (45 :: 48 + d0 :: r)) with (45 :: 48 + d0 :: r);
     change (read_sign (45 :: 48 + d0 :: r)) with (-1, 48 + d0 :: r)
    | rewrite H1, H2];
    cbv iota beta; rewrite H3, Hscan; by destruct (_ <? _).
Qed.

(** Digits 0..9 are worth less than [10 ^ (their number)]. *)
Lemma digits_value_bound ds :
  Forall (fun d => 0 <= d < 10) ds -> 0 <= digits_value ds < 10 ^ Z.of_nat (length ds).
Proof.
  induction ds as [|d ds IH] using rev_ind; [done|].
  intros [Hds Hd]%Forall_app. inversion Hd; subst.
  rewrite digits_value_app, length_app, Nat2Z.inj_add, Z.pow_add_r by lia.
  specialize (IH Hds). simpl. lia.
Qed.

(** What [int()] reads from [str(n)]: the sign and the decimal digits. *)
Lemma py_str_of_Z_buffer n :
  transform_cps (str_cps (py_str_of_Z n)) =
  (if n <? 0 then [45] else []) ++ map (fun d => 48 + d) (decimal_digits (Z.abs n)).
Proof.
  destruct (decimal_digits_spec (Z.abs n)) as (Hd & _); [lia|].
  set (ds := decimal_digits (Z.abs n)) in *.
  assert (Hbytes : Forall (fun a => byte a < 0x80) (map (fun d => chr (48 + d)) ds)).
  { apply Forall_map. eapply Forall_impl; [exact Hd|]. intros d Hd1. cbn in *. rewrite byte_chr; lia. }
  assert (Hdig : Forall (fun c => c < 127) (map (fun d => 48 + d) ds)).
  { apply Forall_map. eapply Forall_impl; [exact Hd|]. intros d Hd1. cbn in *. lia. }
  unfold str_cps, py_str_of_Z. rewrite list_ascii_of_string_of_list_ascii.
  rewrite utf8_decode_ascii.
  - simpl. rewrite map_app, map_byte_digits by done.
    rewrite transform_cps_ascii; [by destruct (n <? 0)|].
    apply Forall_app; split; [destruct (n <? 0); repeat constructor; lia | done].
  - apply Forall_app; split; [destruct (n <? 0); repeat constructor; vm_compute; done | done].
Qed.

Lemma py_int_of_str_of_Z_if n :
  py_int_of_str (py_str_of_Z n) =
  (if max_str_digits <? Z.of_nat (length (decimal_digits (Z.abs n))) then Raise digit_limit_exc
   else Ok n).
Proof.
  destruct (decimal_digits_spec (Z.abs n)) as (Hd & Hne & Hv & _); [lia|].
  unfold py_int_of_str. rewrite py_str_of_Z_buffer.
  destruct (Z.ltb_spec n 0);
    [rewrite (py_long_from_string_digits true) | rewrite (py_long_from_string_digits false)];
    try done; rewrite Hv; destruct (_ <? _); [done| |done|]; f_equal; lia.
Qed.

(** Round trip: [int(str(n)) == n] for every [n] within the digit limit
    of [int()]. *)
Lemma py_int_of_str_of_Z n :
  Z.abs n < 10 ^ max_str_digits -> py_int_of_str (py_str_of_Z n) = Ok n.
Proof.
  intros Hlim. destruct (decimal_digits_spec (Z.abs n)) as (_ & _ & _ & Hl); [lia|].
  specialize (Hl max_str_digits ltac:(unfold max_str_digits; lia) Hlim).
  rewrite py_int_of_str_of_Z_if. by rewrite (proj2 (Z.ltb_ge _ _)) by lia.
Qed.

(** [int(str(n))] is [n] exactly when [n] has fewer than 4300 digits
    ([sys.int_info.default_max_str_digits]); a longer number is refused
    with [ValueError] by the digit limit, never misread. *)
Theorem py_int_of_str_of_Z_limit n :
  py_int_of_str (py_str_of_Z n) =
  (if Z.abs n <? 10 ^ max_str_digits then Ok n else Raise digit_limit_exc).
Proof.
  destruct (decimal_digits_spec (Z.abs n)) as (Hd & _ & Hv & Hl); [lia|].
  pose proof (digits_value_bound _ Hd) as Hb. rewrite Hv in Hb.
  assert (Hm : 1 <= max_str_digits) by (unfold max_str_digits; lia).
  rewrite py_int_of_str_of_Z_if.
  destruct (Z.ltb_spec (Z.abs n) (10 ^ max_str_digits)) as [Hlt|Hge].
  - specialize (Hl max_str_digits Hm Hlt). by rewrite (proj2 (Z.ltb_ge _ _)) by lia.
  - rewrite (proj2 (Z.ltb_lt _ _)); [done|].
    apply (Z.pow_lt_mono_r_iff 10); [lia | lia | eapply Z.le_lt_trans; [exact Hge | apply Hb]].
Qed.
