(* ===== verification/Libs.v ===== *)
(** * The interfaces of the libraries the service calls

    The source calls four libraries.  Each is an interface here: a type
    class whose operations are the calls the source makes and whose laws
    are what the service's theorems need from them.  [Json], [Pandas] and
    [Mlflow] give reference instances that discharge the laws.

    - [JsonLoads]: [json.loads] on the request body (called by werkzeug's
      [get_json]); it raises no werkzeug [HTTPException].
    - [ReadJson]: [pandas.read_json(obj, lines=..., dtype=...)]; a value
      that is not a str is refused with a [ValueError] (pandas'
      "Invalid file path or buffer object type"), a frame it returns is
      well formed, and it raises no [HTTPException].
    - [PyFuncModel]: [mlflow.pyfunc.PyFuncModel.predict]; it raises no
      [HTTPException].  [ModelLoader]: [mlflow.pyfunc.load_model].
    - [tolist]: [numpy.ndarray.tolist] and [pandas.Series.tolist] on what
      [predict] returns; any other result has no [tolist] attribute. *)

From Stdlib Require Import Ascii String ZArith Lia.
From S2P Require Import Prelude PyData.

(** ** Data frames

    A frame is its row count and its columns in order; a column has a
    label, a dtype and one value per row. *)
Inductive DType : Type := DFloat64 | DInt64 | DBool | DObject.

#[export] Instance DType_eq_dec : EqDecision DType.
Proof. solve_decision. Defined.

Record Column : Type := mkColumn {
  col_label : PyObj;
  col_dtype : DType;
  col_values : list PyObj
}.

Record DataFrame : Type := mkFrame {
  df_nrows : nat;
  df_cols : list Column
}.

(** Well formed: every column has one value per row. *)
Definition df_wf (df : DataFrame) : Prop :=
  Forall (fun c => length (col_values c) = df_nrows df) (df_cols df).

#[export] Instance df_wf_dec df : Decision (df_wf df).
Proof. unfold df_wf. apply _. Defined.

(** Row [i], as the (label, value) pairs of its cells. *)
Definition df_row (df : DataFrame) (i : nat) : list (PyObj * PyObj) :=
  map (fun c => (col_label c, nth i (col_values c) PNone)) (df_cols df).

Definition df_rows (df : DataFrame) : list (list (PyObj * PyObj)) :=
  map (df_row df) (seq 0 (df_nrows df)).

(** [df[label]]: the first column with that label. *)
Definition df_column (df : DataFrame) (label : PyObj) : option Column :=
  find (fun c => bool_decide (col_label c = label)) (df_cols df).

Lemma df_rows_length df : length (df_rows df) = df_nrows df.
Proof. unfold df_rows. by rewrite length_map, length_seq. Qed.

(** ** What [predict] returns, and [tolist] *)
Inductive PredOut : Type :=
| NdArray (elems : list PyObj)
| SeriesOut (elems : list PyObj)
| FrameOut (df : DataFrame)
| ListOut (elems : list PyObj).

Definition tolist (o : PredOut) : PyResult PyObj :=
  match o with
  | NdArray l | SeriesOut l => Ok (PList l)
  | FrameOut _ => Raise (AttributeError "'DataFrame' object has no attribute 'tolist'")
  | ListOut _ => Raise (AttributeError "'list' object has no attribute 'tolist'")
  end.

(** ** Interfaces *)

Class JsonLoads : Type := {
  json_loads : string -> PyResult PyObj;
  json_loads_no_http s e : json_loads s = Raise e -> is_http_exception e = false
}.

Class ReadJson : Type := {
  read_json : PyObj -> bool -> list (string * DType) -> PyResult DataFrame;
  read_json_no_http v lines dtype e :
    read_json v lines dtype = Raise e -> is_http_exception e = false;
  read_json_not_str v lines dtype :
    (forall s, v <> PStr s) -> exists msg, read_json v lines dtype = Raise (ValueError msg);
  read_json_wf v lines dtype df : read_json v lines dtype = Ok df -> df_wf df
}.

Class PyFuncModel (M : Type) : Type := {
  predict : M -> DataFrame -> PyResult PredOut;
  predict_no_http m df e : predict m df = Raise e -> is_http_exception e = false
}.

Class ModelLoader (M : Type) : Type := {
  load_model : string -> PyResult M
}.

Lemma tolist_no_http o e : tolist o = Raise e -> is_http_exception e = false.
Proof. destruct o; simpl; intros [= <-]; done. Qed.

(** [lib_no_http H]: [H] says a library call raised; the call's law says
    the exception is not an HTTP exception. *)
Ltac lib_no_http H :=
  first [ apply json_loads_no_http in H | apply read_json_no_http in H
        | apply predict_no_http in H | apply tolist_no_http in H ].
