(* ===== verification/Flask.v ===== *)
(** * The Flask / werkzeug layer the two routes run in

    What happens to a request before and after the source's view
    functions, as Flask 2.2+ and werkzeug 2.2+ do it for an application
    with static rules:
    - [flask_rule]: [@api.route(path, methods=...)] registers a rule whose
      methods are the given ones (default GET), plus HEAD when GET is
      among them (werkzeug [Rule]) and OPTIONS (Flask's automatic options);
    - [werkzeug_match]: [MapAdapter.match] strips the leading slashes of the
      path and puts one back, matches the rules with strict slashes, and on
      failure tries again with [re.sub("/{2,}?", "/", path)]
      ([merge_slashes_once]); a match on the merged path is a 308 redirect,
      and so is a path that only a rule with an added trailing slash
      matches ([slash_required]: an empty PATH_INFO for the rule ["/"]),
      a path matched only for other methods is a 405 whose [Allow] header
      lists the set [have_match_for] of their methods (a list without
      duplicates here; the order of the header is not modelled), anything
      else a 404;
    - [flask_dispatch]: an OPTIONS request on a rule answers 200 with the
      allowed methods; otherwise the view runs, its return value goes
      through [make_response], and an exception goes through
      [handle_user_exception] / [handle_exception]: a werkzeug
      [HTTPException] becomes its own status, anything else 500, rendered
      by [InternalServerError] or, when [app.debug] is set, re-raised by
      Flask and rendered as a traceback page by werkzeug's
      [DebuggedApplication] ([server_error]);
    - [get_json_force]: [request.get_json(force=True)] calls [json.loads]
      on the body and turns a [ValueError] into 400 Bad Request.
    Request paths are PATH_INFO after percent-decoding, as the development
    server builds it from the request target; it is empty for an
    absolute-form target without a path ([GET http://host HTTP/1.1]). *)

From Stdlib Require Import Ascii String ZArith Lia.
From S2P Require Import Prelude PyData Libs.

Inductive Method : Type := GET | HEAD | POST | PUT | DELETE | PATCH | OPTIONS | TRACE.

#[export] Instance Method_eq_dec : EqDecision Method.
Proof. solve_decision. Defined.

Record Request : Type := mkRequest {
  req_method : Method;
  req_path : string;
  req_body : string
}.

(** The payload of a response: a JSON document, a text body, werkzeug's
    HTML error page for a status, the debugger's HTML traceback page of an
    exception, the debugger's console page, a redirect to a path, or
    nothing. *)
Inductive RespBody : Type :=
| BJson (v : PyObj)
| BText (s : string)
| BErrorPage (code : Z)
| BTraceback (e : PyExc)
| BConsole
| BRedirect (location : string)
| BEmpty.

Record Response : Type := mkResponse {
  status : Z;
  resp_body : RespBody;
  resp_allow : list Method
}.

(** What a view function returns: a body, or a (body, status) tuple. *)
Inductive ViewResult : Type :=
| VBody (v : PyObj)
| VBodyStatus (v : PyObj) (code : Z).

Record Rule (E : Type) : Type := mkRule {
  rule_path : string;
  rule_methods : list Method;
  rule_endpoint : E
}.
Arguments mkRule {E} _ _ _.
Arguments rule_path {E} _.
Arguments rule_methods {E} _.
Arguments rule_endpoint {E} _.

(** [@app.route(path, methods=ms)] *)
Definition flask_rule {E} (path : string) (ms : list Method) (ep : E) : Rule E :=
  mkRule path (ms ++ (if decide (GET ∈ ms) then [HEAD] else []) ++ [OPTIONS]) ep.

(** ** URL matching *)

Fixpoint lstrip_slash (s : string) : string :=
  match s with
  | String "/" s' => lstrip_slash s'
  | _ => s
  end.

(** [f"/{path_info.lstrip('/')}"] for a non-empty [path_info], the empty string otherwise *)
Definition path_part (p : string) : string :=
  match p with
  | EmptyString => EmptyString
  | _ => String "/" (lstrip_slash p)
  end.

(** [re.sub("/{2,}?", "/", path)]: each non-overlapping pair of slashes,
    left to right, becomes one slash. *)
Fixpoint merge_slashes_once (s : string) : string :=
  match s with
  | String "/" (String "/" rest) => String "/" (merge_slashes_once rest)
  | String c rest => String c (merge_slashes_once rest)
  | EmptyString => EmptyString
  end.

Inductive MatchResult (E : Type) : Type :=
| Matched (r : Rule E)
| RedirectTo (path : string)
| NoMatch (have_match_for : list Method).
Arguments Matched {E} r.
Arguments RedirectTo {E} path.
Arguments NoMatch {E} have_match_for.

(** One pass of the state-machine matcher over static rules: the first
    rule with this path that allows the method, or the methods of the
    rules with this path. *)
Definition match_once {E} (rules : list (Rule E)) (path : string) (m : Method)
  : option (Rule E) * list Method :=
  let same := List.filter (fun r => bool_decide (rule_path r = path)) rules in
  match find (fun r => bool_decide (m ∈ rule_methods r)) same with
  | Some r => (Some r, [])
  | None => (None, concat (map rule_methods same))
  end.

(** The [SlashRequired] branch of the matcher: no rule of this path
    allows the method, but a rule of the path with a trailing slash
    does, and rules have [strict_slashes] (Flask's default), so the
    matcher asks for a redirect to [path + "/"]. *)
Definition slash_required {E} (rules : list (Rule E)) (path : string) (m : Method) : bool :=
  existsb (fun r => bool_decide (rule_path r = String.append path "/") && bool_decide (m ∈ rule_methods r)) rules.

Definition werkzeug_match {E} (rules : list (Rule E)) (path_info : string)
  (m : Method) : MatchResult E :=
  let p := path_part path_info in
  match match_once rules p m with
  | (Some r, _) => Matched r
  | (None, h1) =>
      if slash_required rules p m then RedirectTo (String.append p "/") else
      let p' := merge_slashes_once p in
      match match_once rules p' m with
      | (Some _, _) => RedirectTo p'
      | (None, h2) =>
          if slash_required rules p' m then RedirectTo (String.append p' "/")
          else NoMatch (remove_dups (h1 ++ h2))
      end
  end.

(** ** Responses *)

Definition error_response (code : Z) : Response := mkResponse code (BErrorPage code) [].

(** [make_response(rv)]: dicts and lists are serialised as JSON, a str is
    a text body; any other value is refused with a [TypeError]. *)
Definition body_of (v : PyObj) : PyResult RespBody :=
  match v with
  | PDict _ | PList _ => Ok (BJson v)
  | PStr s => Ok (BText s)
  | _ => Raise (TypeError "The view function did not return a valid response.")
  end.

Definition make_response (rv : ViewResult) : PyResult Response :=
  match rv with
  | VBody v => b <- body_of v ;; Ok (mkResponse 200 b [])
  | VBodyStatus v code => b <- body_of v ;; Ok (mkResponse code b [])
  end.

(** [handle_exception] for an exception that is not an HTTP exception.
    [PROPAGATE_EXCEPTIONS] is unset, so Flask re-raises when [app.debug]
    is set; [app.run(debug=True)] also sets [use_debugger], and werkzeug's
    [DebuggedApplication.debug_application] catches the exception and
    answers 500 with the HTML page of its traceback.  Otherwise Flask logs
    it and answers [InternalServerError]. *)
Definition server_error (debug : bool) (e : PyExc) : Response :=
  if debug then mkResponse 500 (BTraceback e) [] else error_response 500.

(** [handle_user_exception] then [handle_exception]. *)
Definition finalize (debug : bool) (r : PyResult Response) : Response :=
  match r with
  | Ok resp => resp
  | Raise (HTTPException code _) => error_response code
  | Raise e => server_error debug e
  end.

(** A HEAD response keeps its status and headers and sends no body. *)
Definition strip_for_head (m : Method) (resp : Response) : Response :=
  match m with
  | HEAD => mkResponse (status resp) BEmpty (resp_allow resp)
  | _ => resp
  end.

(** The methods every rule with this path allows ([allowed_methods]). *)
Definition allowed_methods {E} (rules : list (Rule E)) (path : string) : list Method :=
  concat (map rule_methods (List.filter (fun r => bool_decide (rule_path r = path)) rules)).

Definition flask_dispatch {E} (debug : bool) (rules : list (Rule E))
  (view : E -> Request -> PyResult ViewResult) (req : Request) : Response :=
  strip_for_head (req_method req)
    match werkzeug_match rules (req_path req) (req_method req) with
    | NoMatch [] => error_response 404
    | NoMatch ms => mkResponse 405 (BErrorPage 405) ms
    | RedirectTo p => mkResponse 308 (BRedirect p) []
    | Matched r =>
        if decide (req_method req = OPTIONS) then
          mkResponse 200 BEmpty (allowed_methods rules (path_part (req_path req)))
        else finalize debug (rv <- view (rule_endpoint r) req ;; make_response rv)
    end.

(** [request.get_json(force=True)] *)
Definition get_json_force `{JsonLoads} (body : string) : PyResult PyObj :=
  py_catch_value_error (json_loads body)
    (fun _ => Raise (HTTPException 400 "Bad Request")).

(** ** Lemmas *)

Lemma finalize_ok debug resp : finalize debug (Ok resp) = resp.
Proof. reflexivity. Qed.

Lemma finalize_not_http debug e :
  is_http_exception e = false -> finalize debug (Raise e) = server_error debug e.
Proof. by destruct e. Qed.

Lemma server_error_status debug e : status (server_error debug e) = 500%Z.
Proof. by destruct debug. Qed.

Lemma get_json_force_ok `{JsonLoads} body v :
  json_loads body = Ok v -> get_json_force body = Ok v.
Proof. unfold get_json_force. by intros ->. Qed.

Lemma get_json_force_value_error `{JsonLoads} body e :
  json_loads body = Raise e -> is_value_error e = true ->
  get_json_force body = Raise (HTTPException 400 "Bad Request").
Proof. unfold get_json_force. intros -> He. simpl. by rewrite He. Qed.

(** [get_json_force] raises an HTTP exception only for 400. *)
Lemma get_json_force_http `{JsonLoads} body code name :
  get_json_force body = Raise (HTTPException code name) -> code = 400%Z.
Proof.
  unfold get_json_force, py_catch_value_error.
  destruct (json_loads body) as [v|e] eqn:E; [discriminate|].
  destruct (is_value_error e); [congruence|].
  intros [= ->]. by apply json_loads_no_http in E.
Qed.

Lemma make_response_status rv resp :
  make_response rv = Ok resp ->
  status resp = match rv with VBody _ => 200%Z | VBodyStatus _ c => c end.
Proof. destruct rv; simpl; intros H; py_inv; by subst. Qed.

#[export] Hint Resolve finalize_ok get_json_force_ok : pysvc.

Lemma strip_for_head_status m resp : status (strip_for_head m resp) = status resp.
Proof. by destruct m. Qed.

Lemma match_once_some {E} (rules : list (Rule E)) p m r h :
  match_once rules p m = (Some r, h) ->
  r ∈ rules /\ rule_path r = p /\ m ∈ rule_methods r.
Proof.
  unfold match_once.
  destruct (find _ _) as [r'|] eqn:Ef; [|discriminate]. intros [= <- _].
  apply find_some in Ef as [Hin Hm].
  apply filter_In in Hin as [Hin Hp].
  apply bool_decide_eq_true in Hp, Hm. split; [by apply list_elem_of_In | done].
Qed.

(** Whether a path has no slash at all. *)
Fixpoint no_slash (s : string) : bool :=
  match s with
  | EmptyString => true
  | String c s' => negb (bool_decide (c = "/"%char)) && no_slash s'
  end.

Lemma merge_slashes_once_no_slash s : no_slash s = true -> merge_slashes_once s = s.
Proof.
  induction s as [|c s IH]; [done|]. simpl. intros [Hc Hs]%andb_prop.
  apply negb_true_iff, bool_decide_eq_false in Hc.
  destruct (ascii_dec c "/") as [->|_]; [done|].
  destruct c as [[] [] [] [] [] [] [] []]; rewrite ?IH; done.
Qed.

(** Merging never creates or removes every slash: a merged path without a
    slash came from a path without one. *)
Lemma no_slash_merge s : no_slash (merge_slashes_once s) = true -> no_slash s = true.
Proof.
  remember (String.length s) as n eqn:En. revert s En.
  induction n as [n IH] using (well_founded_induction lt_wf). intros s En.
  destruct s as [|c s]; [done|].
  destruct (ascii_dec c "/") as [->|Hc].
  - destruct s as [|c' s']; simpl; [done|].
    destruct (ascii_dec c' "/") as [->|Hc']; simpl; [done|].
    destruct c' as [[] [] [] [] [] [] [] []]; simpl; done.
  - assert (Hm : merge_slashes_once (String c s) = String c (merge_slashes_once s)).
    { destruct c as [[] [] [] [] [] [] [] []]; try done; congruence. }
    rewrite Hm. simpl. rewrite bool_decide_eq_false_2 by done. simpl.
    apply (IH (String.length s)); [subst; simpl; lia | done].
Qed.

Lemma merge_slashes_once_slash u :
  match u with String "/" _ => False | _ => True end ->
  merge_slashes_once (String "/" u) = String "/" (merge_slashes_once u).
Proof.
  destruct u as [|c u]; [done|]. intros Hc.
  destruct c as [[] [] [] [] [] [] [] []]; done.
Qed.

Lemma lstrip_slash_head p : match lstrip_slash p with String "/" _ => False | _ => True end.
Proof.
  induction p as [|c p IH]; [done|]. simpl.
  destruct c as [[] [] [] [] [] [] [] []]; done.
Qed.

Lemma merge_slashes_once_empty s : merge_slashes_once s = EmptyString -> s = EmptyString.
Proof.
  destruct s as [|c [|c' s]]; [done| |].
  - destruct c as [[] [] [] [] [] [] [] []]; done.
  - destruct c as [[] [] [] [] [] [] [] []]; simpl; try discriminate.
    destruct c' as [[] [] [] [] [] [] [] []]; discriminate.
Qed.
