(* ===== verification/Json.v ===== *)
(** * [json.loads] on a request body

    The reference implementation of the [JsonLoads] interface: CPython's
    [json.loads(bytes)] with the C scanner ([_json.c]).
    - [py_json_loads]: [detect_encoding], decode with [surrogatepass]
      (a failure is a [UnicodeDecodeError]), then [JSONDecoder.decode]:
      skip white space, scan one value, skip white space, and refuse any
      other character ("Extra data").
    - [scan_value] / [scan_members] / [scan_elements]: [scan_once_unicode],
      [_parse_object_unicode], [_parse_array_unicode]; an object is built
      by [dict_set] key by key (a repeated key keeps its first position and
      takes the last value); entering an object or array deeper than
      [max_depth] raises [RecursionError] ([Py_EnterRecursiveCall]).
    - [scan_string]: [scanstring_unicode] with [strict=True]: control
      characters below 0x20 are refused, the eight simple escapes and
      [\uXXXX] (with surrogate pairs joined) are decoded.
    - [scan_number]: [_match_number_unicode]: an int is [int(text)] (so the
      4300-digit limit of [PyInt] applies), a float is kept as its decimal.
    The text is the UTF-8 encoding of the decoded str ([Unicode]); the
    scanner only ever looks at ASCII bytes, which is why it can run on the
    encoding.  Recursion is on a fuel argument; [scan_value_fuel] shows
    that [2 * length + 1] is always enough, so [py_json_loads] never runs out. *)

From Stdlib Require Import Ascii String ZArith Lia.
From S2P Require Import Prelude PyData Unicode PyInt Libs.

Open Scope Z_scope.

(** Errors of the scanner, turned into Python exceptions by [to_exc]. *)
Inductive ScanErr : Type :=
| DecodeErr (msg : string)
| IntErr (e : PyExc)
| DepthErr.

Definition to_exc (e : ScanErr) : PyExc :=
  match e with
  | DecodeErr msg => JSONDecodeError msg
  | IntErr _ => ValueError "Exceeds the limit (4300 digits) for integer string conversion"
  | DepthErr => RecursionError "maximum recursion depth exceeded while decoding a JSON document"
  end.

(** [Ok (v, rest)] or an error; [None] means out of fuel. *)
Definition Scan (A : Type) : Type := option (ScanErr + (A * list ascii)).

Definition err {A} (msg : string) : Scan A := Some (inl (DecodeErr msg)).

Definition is_ws (a : ascii) : bool :=
  let b := byte a in (b =? 32) || (b =? 9) || (b =? 10) || (b =? 13).

Fixpoint skip_ws (s : list ascii) : list ascii :=
  match s with
  | a :: r => if is_ws a then skip_ws r else s
  | [] => []
  end.

Definition is_digit (a : ascii) : bool := in_range 48 57 (byte a).

Fixpoint take_digits (s : list ascii) : list ascii * list ascii :=
  match s with
  | a :: r => if is_digit a then let '(ds, rest) := take_digits r in (a :: ds, rest) else ([], s)
  | [] => ([], [])
  end.

Definition hex_val (a : ascii) : option Z :=
  let b := byte a in
  if in_range 48 57 b then Some (b - 48)
  else if in_range 97 102 b then Some (b - 87)
  else if in_range 65 70 b then Some (b - 55)
  else None.

Definition hex4 (a b c d : ascii) : option Z :=
  match hex_val a, hex_val b, hex_val c, hex_val d with
  | Some x, Some y, Some z, Some w => Some (((x * 16 + y) * 16 + z) * 16 + w)
  | _, _, _, _ => None
  end.

Definition simple_escape (a : ascii) : option ascii :=
  match a with
  | "034"%char => Some "034"%char
  | "\"%char => Some "\"%char
  | "/"%char => Some "/"%char
  | "b"%char => Some (chr 8)
  | "f"%char => Some (chr 12)
  | "n"%char => Some (chr 10)
  | "r"%char => Some (chr 13)
  | "t"%char => Some (chr 9)
  | _ => None
  end.

(** The characters of a string after its opening quote, accumulated in
    reverse in [acc]; returns the UTF-8 text of the str and the rest. *)
Fixpoint scan_chars (s : list ascii) (acc : list ascii) : ScanErr + (list ascii * list ascii) :=
  match s with
  | [] => inl (DecodeErr "Unterminated string starting at")
  | a :: r =>
      if bool_decide (a = "034"%char) then inr (rev acc, r)
      else if bool_decide (a = "\"%char) then
        match r with
        | [] => inl (DecodeErr "Unterminated string starting at")
        | "u"%char :: h1 :: h2 :: h3 :: h4 :: r1 =>
            match hex4 h1 h2 h3 h4 with
            | None => inl (DecodeErr "Invalid \uXXXX escape")
            | Some c =>
                if is_high_surrogate c then
                  match r1 with
                  | "\"%char :: "u"%char :: k1 :: k2 :: k3 :: k4 :: r2 =>
                      match hex4 k1 k2 k3 k4 with
                      | None => inl (DecodeErr "Invalid \uXXXX escape")
                      | Some c2 =>
                          if is_low_surrogate c2 then
                            scan_chars r2
                              (rev (utf8_encode (0x10000 + (c - 0xD800) * 1024 + (c2 - 0xDC00)))
                                 ++ acc)
                          else scan_chars r1 (rev (utf8_encode c) ++ acc)
                      end
                  | _ => scan_chars r1 (rev (utf8_encode c) ++ acc)
                  end
                else scan_chars r1 (rev (utf8_encode c) ++ acc)
            end
        | "u"%char :: _ => inl (DecodeErr "Invalid \uXXXX escape")
        | e :: r1 =>
            match simple_escape e with
            | Some c => scan_chars r1 (c :: acc)
            | None => inl (DecodeErr "Invalid \escape")
            end
        end
      else if byte a <=? 0x1F then inl (DecodeErr "Invalid control character at")
      else scan_chars r (a :: acc)
  end.

Definition scan_string (s : list ascii) : ScanErr + (string * list ascii) :=
  match scan_chars s [] with
  | inl e => inl e
  | inr (t, rest) => inr (string_of_list_ascii t, rest)
  end.

Definition digits_of (ds : list ascii) : list Z := map (fun a => byte a - 48) ds.

(** The phases of [_match_number_unicode]: an optional minus sign, the
    integer digits (one [0], or a non-zero digit and more digits), a
    fraction (a dot followed by at least one digit, or nothing), and an
    exponent ([e] or [E], an optional sign, at least one digit; otherwise
    the scanner backs up to the [e]). *)
Definition read_minus (s : list ascii) : bool * list ascii :=
  match s with
  | "-"%char :: r => (true, r)
  | _ => (false, s)
  end.

Definition int_part (s : list ascii) : option (list ascii * list ascii) :=
  match s with
  | c :: r =>
      if bool_decide (c = "0"%char) then Some ([c], r)
      else if is_digit c then Some (let '(ds, r') := take_digits r in (c :: ds, r'))
      else None
  | [] => None
  end.

Definition frac_part (s : list ascii) : list ascii * list ascii :=
  match s with
  | "."%char :: d :: r' => if is_digit d then take_digits (d :: r') else ([], s)
  | _ => ([], s)
  end.

Definition read_exp_sign (s : list ascii) : bool * list ascii :=
  match s with
  | "-"%char :: t => (true, t)
  | "+"%char :: t => (false, t)
  | _ => (false, s)
  end.

Definition exp_part (s : list ascii) : option (Z * list ascii) :=
  match s with
  | e :: r' =>
      if bool_decide (e = "e"%char) || bool_decide (e = "E"%char) then
        let '(eneg, r'') := read_exp_sign r' in
        match take_digits r'' with
        | ([], _) => None
        | (eds, r3) => Some (if eneg then - digits_value (digits_of eds)
                             else digits_value (digits_of eds), r3)
        end
      else None
  | [] => None
  end.

(** [inl] is the [StopIteration] of a text that does not start a number. *)
Definition scan_number (s : list ascii) : ScanErr + (PyObj * list ascii) :=
  let '(neg, s1) := read_minus s in
  match int_part s1 with
  | None => inl (DecodeErr "Expecting value")
  | Some (ids, r1) =>
      let '(fds, r2) := frac_part r1 in
      match fds, exp_part r2 with
      | [], None =>
          let ds := digits_of ids in
          if max_str_digits <? Z.of_nat (length ds) then
            inl (IntErr (ValueError "Exceeds the limit (4300 digits)"))
          else inr (PInt ((if neg then -1 else 1) * digits_value ds), r2)
      | _, ex =>
          let e := match ex with Some (x, _) => x | None => 0 end in
          let rest := match ex with Some (_, r3) => r3 | None => r2 end in
          inr (PFloat (FDec neg (Z.to_N (digits_value (digits_of (ids ++ fds))))
                         (e - Z.of_nat (length fds))), rest)
      end
  end.

Definition lift {A} (r : ScanErr + (A * list ascii)) : Scan A := Some r.

(** The rest of [s] after the character [c], if [s] starts with it. *)
Definition peek (c : ascii) (s : list ascii) : option (list ascii) :=
  match s with
  | a :: r => if bool_decide (a = c) then Some r else None
  | [] => None
  end.

(** The rest of [s] after the text [p], if [s] starts with it. *)
Fixpoint strip_prefix (p s : list ascii) : option (list ascii) :=
  match p, s with
  | [], _ => Some s
  | c :: p', a :: s' => if bool_decide (a = c) then strip_prefix p' s' else None
  | _ :: _, [] => None
  end.

(** The named constants [scan_once_unicode] recognises, tried in turn. *)
Definition constants : list (string * PyObj) :=
  [("null", PNone); ("true", PBool true); ("false", PBool false);
   ("NaN", PFloat FNaN); ("Infinity", PFloat (FInf false));
   ("-Infinity", PFloat (FInf true))].

Fixpoint scan_constant (cs : list (string * PyObj)) (s : list ascii)
  : option (PyObj * list ascii) :=
  match cs with
  | [] => None
  | (name, v) :: cs' =>
      match strip_prefix (list_ascii_of_string name) s with
      | Some r => Some (v, r)
      | None => scan_constant cs' s
      end
  end.

Section Scanner.
(** The recursion budget left to the scanner when it starts: the
    interpreter's limit less the frames of the request handler. *)
Variable max_depth : nat.

Fixpoint scan_value (fuel depth : nat) (s : list ascii) {struct fuel} : Scan PyObj :=
  match fuel with
  | O => None
  | S f =>
      match s with
      | [] => err "Expecting value"
      | a :: r =>
          if bool_decide (a = "034"%char) then
            lift match scan_string r with
                 | inl e => inl e
                 | inr (k, r1) => inr (PStr k, r1)
                 end
          else if bool_decide (a = "{"%char) then
            if (max_depth <=? depth)%nat then Some (inl DepthErr)
            else match peek "}" (skip_ws r) with
                 | Some r1 => Some (inr (PDict [], r1))
                 | None => scan_members f (S depth) (skip_ws r) []
                 end
          else if bool_decide (a = "["%char) then
            if (max_depth <=? depth)%nat then Some (inl DepthErr)
            else match peek "]" (skip_ws r) with
                 | Some r1 => Some (inr (PList [], r1))
                 | None => scan_elements f (S depth) (skip_ws r) []
                 end
          else match scan_constant constants s with
               | Some (v, r1) => Some (inr (v, r1))
               | None => lift (scan_number s)
               end
      end
  end
with scan_members (fuel depth : nat) (s : list ascii) (acc : list (string * PyObj))
  {struct fuel} : Scan PyObj :=
  match fuel with
  | O => None
  | S f =>
      match peek "034"%char s with
      | Some r =>
          match scan_string r with
          | inl e => Some (inl e)
          | inr (k, r1) =>
              match peek ":" (skip_ws r1) with
              | Some r2 =>
                  match scan_value f depth (skip_ws r2) with
                  | Some (inr (v, r3)) =>
                      let acc' := dict_set k v acc in
                      match peek "}" (skip_ws r3) with
                      | Some r4 => Some (inr (PDict acc', r4))
                      | None =>
                          match peek "," (skip_ws r3) with
                          | Some r4 => scan_members f depth (skip_ws r4) acc'
                          | None => err "Expecting ',' delimiter"
                          end
                      end
                  | res => res
                  end
              | None => err "Expecting ':' delimiter"
              end
          end
      | None => err "Expecting property name enclosed in double quotes"
      end
  end
with scan_elements (fuel depth : nat) (s : list ascii) (acc : list PyObj)
  {struct fuel} : Scan PyObj :=
  match fuel with
  | O => None
  | S f =>
      match scan_value f depth s with
      | Some (inr (v, r1)) =>
          match peek "]" (skip_ws r1) with
          | Some r2 => Some (inr (PList (rev (v :: acc)), r2))
          | None =>
              match peek "," (skip_ws r1) with
              | Some r2 => scan_elements f depth (skip_ws r2) (v :: acc)
              | None => err "Expecting ',' delimiter"
              end
          end
      | res => res
      end
  end.

(** [JSONDecoder.decode] on decoded text. *)
Definition json_decode_text (text : list ascii) : PyResult PyObj :=
  match scan_value (S (2 * length text)) 0 (skip_ws text) with
  | Some (inr (v, rest)) =>
      match skip_ws rest with
      | [] => Ok v
      | _ => Raise (JSONDecodeError "Extra data")
      end
  | Some (inl e) => Raise (to_exc e)
  | None => Raise (RecursionError "out of fuel")
  end.

(** [json.loads(body)] on the bytes of a request body. *)
Definition py_json_loads (body : string) : PyResult PyObj :=
  let bs := list_ascii_of_string body in
  match decode_bytes (detect_encoding bs) bs with
  | None => Raise (UnicodeDecodeError "can't decode bytes")
  | Some cps => json_decode_text (encode_cps cps)
  end.

Lemma json_decode_text_no_http text e :
  json_decode_text text = Raise e -> is_http_exception e = false.
Proof.
  unfold json_decode_text.
  destruct (scan_value _ _ _) as [[e'|[v rest]]|].
  - intros [= <-]. by destruct e'.
  - destruct (skip_ws rest); [discriminate | by intros [= <-]].
  - by intros [= <-].
Qed.

Lemma py_json_loads_no_http body e :
  py_json_loads body = Raise e -> is_http_exception e = false.
Proof.
  unfold py_json_loads. destruct (decode_bytes _ _); [|by intros [= <-]].
  apply json_decode_text_no_http.
Qed.

Definition cpython_json : JsonLoads :=
  {| json_loads := py_json_loads; json_loads_no_http := py_json_loads_no_http |}.
End Scanner.

(** ** Termination: the fuel is always enough *)

Lemma skip_ws_length s : (length (skip_ws s) <= length s)%nat.
Proof. induction s as [|a s IH]; simpl; [lia|]. destruct (is_ws a); simpl; lia. Qed.

Lemma take_digits_length s ds r : take_digits s = (ds, r) -> (length r + length ds = length s)%nat.
Proof.
  revert ds r; induction s as [|a s IH]; intros ds r; simpl; [by intros [= <- <-]|].
  destruct (is_digit a); [|by intros [= <- <-]].
  destruct (take_digits s) as [ds' r'] eqn:E. intros [= <- <-]. simpl.
  specialize (IH _ _ eq_refl). lia.
Qed.

Lemma scan_chars_length s acc t r : scan_chars s acc = inr (t, r) -> (length r < length s)%nat.
Proof.
  remember (length s) as n eqn:En. revert s acc En.
  induction n as [n IH0] using (well_founded_induction lt_wf). intros s acc En.
  assert (IH : forall s' acc', (length s' < n)%nat ->
                 scan_chars s' acc' = inr (t, r) -> (length r < length s')%nat)
    by (intros s' acc' Hs'; eapply IH0; [exact Hs' | reflexivity]).
  clear IH0. subst n.
  destruct s as [|a s]; simpl; [discriminate|].
  case_bool_decide; [intros [= _ <-]; lia|].
  case_bool_decide.
  - destruct s as [|e s]; [discriminate|].
    repeat match goal with
           | |- context [match ?x with _ => _ end] =>
               lazymatch x with
               | scan_chars _ _ => fail
               | _ => destruct x
               end
           end;
    try discriminate;
    intros H1; apply IH in H1; simpl in *; lia.
  - destruct (byte a <=? 0x1F); [discriminate|].
    intros H1. apply IH in H1; simpl in *; lia.
Qed.

Lemma read_minus_length s : (length (read_minus s).2 <= length s)%nat.
Proof. destruct s as [|c s]; simpl; [lia|]. destruct c as [[] [] [] [] [] [] [] []]; simpl; lia. Qed.

Lemma int_part_length s ds r : int_part s = Some (ds, r) -> (length r < length s)%nat.
Proof.
  destruct s as [|c s]; simpl; [discriminate|].
  case_bool_decide; [intros [= _ <-]; lia|].
  destruct (is_digit c); [|discriminate].
  destruct (take_digits s) as [ds' r'] eqn:E. intros [= _ <-].
  apply take_digits_length in E. lia.
Qed.

Lemma frac_part_length s ds r : frac_part s = (ds, r) -> (length r <= length s)%nat.
Proof.
  unfold frac_part. intros H.
  destruct s as [|c [|d s]]; [inversion H; simpl; lia| |].
  - destruct c as [[] [] [] [] [] [] [] []]; inversion H; simpl; lia.
  - destruct c as [[] [] [] [] [] [] [] []]; try (inversion H; simpl; lia).
    destruct (is_digit d); [|inversion H; simpl; lia].
    apply take_digits_length in H. simpl in *. lia.
Qed.

Lemma exp_part_length s e r : exp_part s = Some (e, r) -> (length r < length s)%nat.
Proof.
  destruct s as [|c s]; simpl; [discriminate|].
  destruct (_ || _); [|discriminate].
  assert (Hsg : (length (read_exp_sign s).2 <= length s)%nat).
  { destruct s as [|c' s]; [simpl; lia|].
    destruct c' as [[] [] [] [] [] [] [] []]; simpl; lia. }
  destruct (read_exp_sign s) as [b t]. simpl in Hsg.
  destruct (take_digits t) as [[|d ds] r3] eqn:Et; [discriminate|].
  intros [= _ <-]. apply take_digits_length in Et. simpl in *. lia.
Qed.

Lemma scan_number_length s v r : scan_number s = inr (v, r) -> (length r < length s)%nat.
Proof.
  unfold scan_number. pose proof (read_minus_length s) as Hm.
  destruct (read_minus s) as [neg s1]. simpl in Hm.
  destruct (int_part s1) as [[ids r1]|] eqn:Ei; [|discriminate].
  apply int_part_length in Ei.
  destruct (frac_part r1) as [fds r2] eqn:Ef. apply frac_part_length in Ef.
  destruct (exp_part r2) as [[e r3]|] eqn:Ee;
    [apply exp_part_length in Ee; destruct fds|destruct fds];
    try (destruct (max_str_digits <? _); [discriminate|]);
    intros [= _ <-]; lia.
Qed.

Lemma peek_length c s r : peek c s = Some r -> (length r < length s)%nat.
Proof. destruct s as [|a s]; simpl; [done|]. case_bool_decide; [intros [= <-]; lia | done]. Qed.

Lemma strip_prefix_length p s r :
  strip_prefix p s = Some r -> (length r + length p = length s)%nat.
Proof.
  revert s; induction p as [|c p IH]; intros s H.
  - simpl in H. injection H as <-. simpl. lia.
  - destruct s as [|a s]; simpl in H; [discriminate|].
    case_bool_decide; [|discriminate]. apply IH in H. simpl. lia.
Qed.

Lemma scan_constant_length cs s v r :
  Forall (fun nv => list_ascii_of_string nv.1 <> []) cs ->
  scan_constant cs s = Some (v, r) -> (length r < length s)%nat.
Proof.
  induction 1 as [|[name w] cs Hn _ IH]; simpl; [done|].
  destruct (strip_prefix _ s) as [r'|] eqn:E; [|done].
  intros [= <- <-]. apply strip_prefix_length in E. simpl in Hn.
  destruct (list_ascii_of_string name); [done|]. simpl in E. lia.
Qed.

Lemma scan_string_length s k r : scan_string s = inr (k, r) -> (length r < length s)%nat.
Proof.
  unfold scan_string. destruct (scan_chars s []) as [|[t r']] eqn:E; [done|].
  intros [= _ <-]. by apply scan_chars_length in E.
Qed.

(** What a scan of [s] leaves: nothing when out of fuel, a strictly
    shorter rest after a value. *)
Definition scan_ok {A} (res : Scan A) (s : list ascii) : Prop :=
  match res with
  | None => False
  | Some (inl _) => True
  | Some (inr (_, r)) => (length r < length s)%nat
  end.

Section Fuel.
Variable max_depth : nat.

Lemma scan_fuel f :
  (forall d s, (2 * length s < f)%nat -> scan_ok (scan_value max_depth f d s) s) /\
  (forall d s acc, (2 * length s + 1 < f)%nat ->
     scan_ok (scan_members max_depth f d s acc) s) /\
  (forall d s acc, (2 * length s + 1 < f)%nat ->
     scan_ok (scan_elements max_depth f d s acc) s).
Proof.
  induction f as [|f (IHv & IHm & IHe)]; [repeat split; intros; lia|].
  repeat split.
  - intros d [|a r] Hf; [done|]. cbn [scan_value]. simpl in Hf.
    case_bool_decide.
    { destruct (scan_string r) as [|[k r1]] eqn:E; simpl; [done|].
      apply scan_string_length in E. lia. }
    pose proof (skip_ws_length r).
    case_bool_decide;
      [|case_bool_decide];
      [destruct (max_depth <=? d)%nat; [done|] .. |].
    + destruct (peek "}" (skip_ws r)) as [r1|] eqn:Ep.
      * apply peek_length in Ep. simpl. lia.
      * specialize (IHm (S d) (skip_ws r) [] ltac:(lia)).
        destruct (scan_members _ _ _ _ _) as [[|[v r1]]|]; simpl in *; lia || done.
    + destruct (peek "]" (skip_ws r)) as [r1|] eqn:Ep.
      * apply peek_length in Ep. simpl. lia.
      * specialize (IHe (S d) (skip_ws r) [] ltac:(lia)).
        destruct (scan_elements _ _ _ _ _) as [[|[v r1]]|]; simpl in *; lia || done.
    + destruct (scan_constant constants (a :: r)) as [[v r1]|] eqn:Ec.
      * apply scan_constant_length in Ec; [simpl in *; lia|].
        repeat constructor; discriminate.
      * destruct (scan_number (a :: r)) as [|[v r1]] eqn:En; simpl; [done|].
        by apply scan_number_length in En.
  - intros d s acc Hf. simpl.
    destruct (peek "034"%char s) as [r|] eqn:Ep; [|done]. apply peek_length in Ep.
    destruct (scan_string r) as [|[k r1]] eqn:Es; [done|]. apply scan_string_length in Es.
    destruct (peek ":" (skip_ws r1)) as [r2|] eqn:Ec; [|done].
    apply peek_length in Ec. pose proof (skip_ws_length r1). pose proof (skip_ws_length r2).
    specialize (IHv d (skip_ws r2) ltac:(lia)).
    destruct (scan_value _ _ _ _) as [[|[v r3]]|]; simpl in IHv; [done | | done].
    pose proof (skip_ws_length r3).
    destruct (peek "}" (skip_ws r3)) as [r4|] eqn:Eb.
    { apply peek_length in Eb. simpl. lia. }
    destruct (peek "," (skip_ws r3)) as [r4|] eqn:Em; [|done].
    apply peek_length in Em. pose proof (skip_ws_length r4).
    specialize (IHm d (skip_ws r4) (dict_set k v acc) ltac:(lia)).
    destruct (scan_members _ _ _ _ _) as [[|[w r5]]|]; simpl in *; lia || done.
  - intros d s acc Hf. simpl.
    specialize (IHv d s ltac:(lia)).
    destruct (scan_value _ _ _ _) as [[|[v r1]]|]; simpl in IHv; [done | | done].
    pose proof (skip_ws_length r1).
    destruct (peek "]" (skip_ws r1)) as [r2|] eqn:Eb.
    { apply peek_length in Eb. simpl. lia. }
    destruct (peek "," (skip_ws r1)) as [r2|] eqn:Em; [|done].
    apply peek_length in Em. pose proof (skip_ws_length r2).
    specialize (IHe d (skip_ws r2) (v :: acc) ltac:(lia)).
    destruct (scan_elements _ _ _ _ _) as [[|[w r3]]|]; simpl in *; lia || done.
Qed.

(** C14. Termination of the decoder: with the fuel [json_decode_text] gives
    it ([1 + 2 * len(text)]), the scanner always finishes, with a value or
    a Python error, so the out-of-fuel branch of [json_decode_text], which
    CPython does not have, is never taken. *)
Theorem json_decode_text_terminates text :
  scan_value max_depth (S (2 * length text)) 0%nat (skip_ws text) <> None.
Proof.
  pose proof (proj1 (scan_fuel (S (2 * length text))) 0%nat (skip_ws text)) as H.
  pose proof (skip_ws_length text).
  intros E. rewrite E in H. apply H. lia.
Qed.
End Fuel.

(** ** Well-formed values

    Every value the scanner returns is [py_wf]: the accumulator of an
    object goes through [dict_set], which keeps its keys distinct. *)

Lemma scan_constant_wf cs s v r :
  Forall (fun nv => py_wf nv.2 = true) cs -> scan_constant cs s = Some (v, r) -> py_wf v = true.
Proof.
  induction 1 as [|[name w] cs Hw _ IH]; simpl; [done|].
  destruct (strip_prefix _ s); [by intros [= <- _] | exact IH].
Qed.

Lemma scan_number_wf s v r : scan_number s = inr (v, r) -> py_wf v = true.
Proof.
  unfold scan_number. destruct (read_minus s) as [neg s1].
  destruct (int_part s1) as [[ids r1]|]; [|done]. destruct (frac_part r1) as [fds r2].
  repeat case_match; intros [= <- _]; reflexivity.
Qed.

Lemma forallb_rev {A} (p : A -> bool) l : forallb p (rev l) = forallb p l.
Proof.
  induction l as [|x l IH]; [done|]. simpl. rewrite forallb_app, IH. simpl.
  by rewrite andb_true_r, andb_comm.
Qed.

Section WellFormed.
Variable max_depth : nat.

Lemma scan_wf f :
  (forall d s v r, scan_value max_depth f d s = Some (inr (v, r)) -> py_wf v = true) /\
  (forall d s acc v r, NoDup (dict_keys acc) -> forallb (fun kv => py_wf kv.2) acc = true ->
     scan_members max_depth f d s acc = Some (inr (v, r)) -> py_wf v = true) /\
  (forall d s acc v r, forallb py_wf acc = true ->
     scan_elements max_depth f d s acc = Some (inr (v, r)) -> py_wf v = true).
Proof.
  induction f as [|f (IHv & IHm & IHe)]; [repeat split; discriminate|].
  repeat split.
  - intros d [|a r] v r' H; [discriminate|]. cbn [scan_value] in H.
    case_bool_decide.
    { destruct (scan_string r) as [|[k r1]]; by inversion H. }
    case_bool_decide; [|case_bool_decide].
    + destruct (max_depth <=? d)%nat; [discriminate|].
      destruct (peek "}" (skip_ws r)); [by inversion H|].
      eapply (IHm _ _ []); [apply NoDup_nil_2 | reflexivity | exact H].
    + destruct (max_depth <=? d)%nat; [discriminate|].
      destruct (peek "]" (skip_ws r)); [by inversion H|].
      eapply (IHe _ _ []); [reflexivity | exact H].
    + destruct (scan_constant constants (a :: r)) as [[w r1]|] eqn:Ec.
      * injection H as <- _. eapply scan_constant_wf; [|exact Ec]. by repeat constructor.
      * injection H as H. by apply scan_number_wf in H.
  - intros d s acc v r Hnd Hacc H. cbn [scan_members] in H.
    destruct (peek "034"%char s) as [r0|]; [|discriminate].
    destruct (scan_string r0) as [|[k r1]]; [discriminate|].
    destruct (peek ":" (skip_ws r1)) as [r2|]; [|discriminate].
    destruct (scan_value max_depth f d (skip_ws r2)) as [[|[w r3]]|] eqn:Ev; try discriminate.
    apply IHv in Ev.
    assert (Hnd' : NoDup (dict_keys (dict_set k w acc))) by (by apply dict_set_NoDup).
    assert (Hacc' : forallb (fun kv => py_wf kv.2) (dict_set k w acc) = true)
      by (by apply dict_set_forallb).
    destruct (peek "}" (skip_ws r3)).
    + injection H as <- _. simpl. rewrite Hacc', andb_true_r. by apply bool_decide_eq_true_2.
    + destruct (peek "," (skip_ws r3)); [|discriminate]. by eapply IHm.
  - intros d s acc v r Hacc H. cbn [scan_elements] in H.
    destruct (scan_value max_depth f d s) as [[|[w r1]]|] eqn:Ev; try discriminate.
    apply IHv in Ev.
    destruct (peek "]" (skip_ws r1)).
    + injection H as <- _. change (forallb py_wf (rev (w :: acc)) = true).
      rewrite forallb_rev. simpl. by rewrite Ev, Hacc.
    + destruct (peek "," (skip_ws r1)); [|discriminate].
      eapply IHe; [|exact H]. simpl. by rewrite Ev, Hacc.
Qed.

(** Type of the decoder's results: every value [json.loads] returns
    is well formed, each dict in it, at any depth, with distinct keys,
    even when the text repeats a key. *)
Theorem py_json_loads_wf body v : py_json_loads max_depth body = Ok v -> py_wf v = true.
Proof.
  unfold py_json_loads, json_decode_text. destruct (decode_bytes _ _); [|discriminate].
  destruct (scan_value _ _ _ _) as [[|[w rest]]|] eqn:E; try discriminate.
  destruct (skip_ws rest); [|discriminate]. intros [= <-].
  exact (proj1 (scan_wf _) _ _ _ _ E).
Qed.
End WellFormed.

