(* ===== verification/JsonText.v ===== *)
(** * The texts a client sends, and what [json.loads] reads from them

    A client builds the body of [/predict] with [json.dumps]: records of
    numbers printed with the default separators [", "] and [": "], one
    record per line, and the lines as one JSON string.  This file holds
    that printer for the texts the scanner of [Json] reads:
    - [NumLit], [num_text]: a number literal as written (a sign, integer
      digits, optional fraction digits), and [num_value] the value the
      scanner makes of it ([_match_number_unicode]);
    - [object_text], [array_text]: objects of such numbers under plain
      keys, and arrays of such objects, with [object_value];
    - [dumps_chars], [dumps_str]: [json.dumps] of a str.
    The lemmas show what [scan_value] reads from these texts followed by
    anything: exactly the printed value, the rest untouched, for any fuel
    at least the length of the text, so that [json_decode_text] decodes
    each text to its value. *)

From Stdlib Require Import Ascii String ZArith Lia.
From S2P Require Import Prelude PyData Unicode PyInt Libs Json.

Open Scope Z_scope.

(** ** Characters *)

Definition dq : ascii := "034"%char.
Definition nl : ascii := "010"%char.

Lemma byte_inj a b : byte a = byte b -> a = b.
Proof.
  unfold byte. intros H. apply N2Z.inj in H.
  rewrite <- (ascii_N_embedding a), <- (ascii_N_embedding b). by rewrite H.
Qed.

(** Two characters with different codes differ. *)
Lemma bool_decide_byte_ne a c : byte a <> byte c -> bool_decide (a = c) = false.
Proof. intros H. apply bool_decide_eq_false_2. intros ->. done. Qed.

Lemma is_digit_byte a : is_digit a = true -> 48 <= byte a <= 57.
Proof. unfold is_digit, in_range. intros [H1 H2]%andb_prop. lia. Qed.

(** A digit is no sign: the scanner's first test on a number. *)
Lemma read_minus_digit a r : is_digit a = true -> read_minus (a :: r) = (false, a :: r).
Proof. destruct a as [[] [] [] [] [] [] [] []]; vm_compute; congruence. Qed.

Lemma is_ws_digit a : is_digit a = true -> is_ws a = false.
Proof.
  intros Ha%is_digit_byte. unfold is_ws.
  rewrite (proj2 (Z.eqb_neq _ 32)), (proj2 (Z.eqb_neq _ 9)), (proj2 (Z.eqb_neq _ 10)),
    (proj2 (Z.eqb_neq _ 13)) by lia. done.
Qed.

(** [ltac:(digit_ne)]: a digit differs from the concrete character of
    the goal [bool_decide (a = c) = false]. *)
Ltac digit_ne :=
  match goal with
  | H : is_digit ?a = true |- @bool_decide (?a = ?c) _ = false =>
      apply bool_decide_byte_ne; apply is_digit_byte in H; vm_compute (byte c); lia
  end.

(** [decide_chars]: settle the character tests [bool_decide (x = y)] of
    the goal: between concrete characters, between characters a
    hypothesis tells apart, or between a digit and a concrete character. *)
Ltac decide_chars :=
  repeat match goal with
  | |- context [@bool_decide (?x = ?y) ?i] =>
      first [ rewrite (@bool_decide_eq_false_2 (x = y) i) by congruence
            | rewrite (@bool_decide_eq_true_2 (x = y) i) by reflexivity
            | let H := fresh in
              assert (H : @bool_decide (x = y) i = false) by digit_ne; rewrite H; clear H ]
  end.

Lemma take_digits_app ds r :
  forallb is_digit ds = true ->
  match r with a :: _ => is_digit a = false | [] => True end ->
  take_digits (ds ++ r) = (ds, r).
Proof.
  intros Hds Hr. induction ds as [|a ds IH]; simpl in *.
  - destruct r as [|a r]; [done|]. simpl. by rewrite Hr.
  - apply andb_prop in Hds as [Ha Hds]. rewrite Ha, IH by done. done.
Qed.

(** ** Numbers *)

(** A number literal as written: [-]?, integer digits, and fraction
    digits after a dot when there are any. *)
Record NumLit : Type := mkNum {
  lit_neg : bool;
  lit_int : list ascii;
  lit_frac : list ascii
}.

Definition frac_text (fs : list ascii) : list ascii :=
  match fs with [] => [] | _ => "."%char :: fs end.

Definition num_text (n : NumLit) : list ascii :=
  (if lit_neg n then ["-"%char] else []) ++ lit_int n ++ frac_text (lit_frac n).

(** What [_match_number_unicode] makes of the literal: an int without a
    fraction, a float with one. *)
Definition num_value (n : NumLit) : PyObj :=
  match lit_frac n with
  | [] => PInt ((if lit_neg n then -1 else 1) * digits_value (digits_of (lit_int n)))
  | fs => PFloat (FDec (lit_neg n) (Z.to_N (digits_value (digits_of (lit_int n ++ fs))))
                   (0 - Z.of_nat (length fs)))
  end.

(** The literals [json.loads] reads back as printed: digits only, an
    integer part without leading zero, and at most [max_str_digits]
    (4300) integer digits, beyond which the int is refused. *)
Definition lit_ok (n : NumLit) : bool :=
  forallb is_digit (lit_int n ++ lit_frac n) &&
  match lit_int n with
  | [] => false
  | c :: r => negb (bool_decide (c = "0"%char)) || bool_decide (r = [])
  end &&
  (Z.of_nat (length (lit_int n)) <=? max_str_digits).

(** The literals a client prints: at most 18 integer digits besides, so
    that an int is within ujson's range. *)
Definition num_ok (n : NumLit) : bool := lit_ok n && (length (lit_int n) <=? 18)%nat.

(** The characters that may follow a number in the texts below. *)
Definition num_end (c : ascii) : Prop :=
  c = ","%char \/ c = "}"%char \/ c = "]"%char \/ c = nl.

Lemma lit_ok_digits n :
  lit_ok n = true ->
  forallb is_digit (lit_int n) = true /\ forallb is_digit (lit_frac n) = true /\
  exists c r, lit_int n = c :: r /\ is_digit c = true /\ (c = "0"%char -> r = []) /\
              Z.of_nat (length (c :: r)) <= max_str_digits.
Proof.
  unfold lit_ok. intros [[Hd Hh]%andb_prop Hl]%andb_prop.
  rewrite forallb_app in Hd. apply andb_prop in Hd as [Hi Hf].
  destruct (lit_int n) as [|c r] eqn:Ei; [done|].
  split; [done|]. split; [done|]. exists c, r.
  simpl in Hi. apply andb_prop in Hi as [Hc _].
  split; [done|]. split; [done|]. split; [|by apply Z.leb_le].
  intros ->. apply orb_prop in Hh as [H|H]; [done|]. by apply bool_decide_eq_true in H.
Qed.

Lemma num_ok_lit n : num_ok n = true -> lit_ok n = true.
Proof. unfold num_ok. by intros [? _]%andb_prop. Qed.

Lemma num_ok_digits n :
  num_ok n = true ->
  forallb is_digit (lit_int n) = true /\ forallb is_digit (lit_frac n) = true /\
  exists c r, lit_int n = c :: r /\ is_digit c = true /\ (c = "0"%char -> r = []) /\
              (length (c :: r) <= 18)%nat.
Proof.
  unfold num_ok. intros [Hn Hl]%andb_prop.
  destruct (lit_ok_digits n Hn) as (Hi & Hf & c & r & Ei & Hc & Hz & _).
  split; [done|]. split; [done|]. exists c, r. rewrite <- Ei. by apply Nat.leb_le in Hl.
Qed.

(** A character that ends the digits and the fraction of a literal. *)
Definition num_stop (c : ascii) : Prop := is_digit c = false /\ c <> "."%char.

Lemma num_end_stop c : num_end c -> num_stop c.
Proof. intros [-> | [-> | [-> | ->]]]; split; (reflexivity || discriminate). Qed.

Lemma frac_part_num fs c t :
  forallb is_digit fs = true -> num_stop c -> frac_part (frac_text fs ++ c :: t) = (fs, c :: t).
Proof.
  intros Hfs [Hc Hdot]. destruct fs as [|d fs].
  - cbn [frac_text app frac_part]. destruct c as [[] [] [] [] [] [] [] []]; try reflexivity.
    destruct t; [reflexivity|]. by destruct Hdot.
  - simpl in Hfs. apply andb_prop in Hfs as [Hd Hfs].
    cbn [frac_part frac_text app]. rewrite Hd.
    change (d :: fs ++ c :: t) with ((d :: fs) ++ c :: t).
    by rewrite take_digits_app; [| simpl; rewrite Hd, Hfs |].
Qed.

Lemma exp_part_end c t : num_end c -> exp_part (c :: t) = None.
Proof. intros [-> | [-> | [-> | ->]]]; reflexivity. Qed.

Lemma read_minus_num n r :
  lit_ok n = true ->
  read_minus (num_text n ++ r) = (lit_neg n, lit_int n ++ frac_text (lit_frac n) ++ r).
Proof.
  intros Hn. destruct (lit_ok_digits n Hn) as (_ & _ & c0 & r0 & Ei & Hc0 & _).
  unfold num_text. rewrite <- !app_assoc.
  destruct (lit_neg n); [reflexivity|]. rewrite Ei. simpl. by apply read_minus_digit.
Qed.

Lemma int_part_num n c t :
  lit_ok n = true -> num_stop c ->
  int_part (lit_int n ++ frac_text (lit_frac n) ++ c :: t) =
  Some (lit_int n, frac_text (lit_frac n) ++ c :: t).
Proof.
  intros Hn Hc. destruct (lit_ok_digits n Hn) as (Hi & _ & c0 & r0 & Ei & Hc0 & Hz & _).
  rewrite Ei in Hi |- *. simpl in Hi. apply andb_prop in Hi as [_ Hr0]. cbn [app int_part].
  case_bool_decide as H0; [by rewrite (Hz H0)|].
  rewrite Hc0, take_digits_app; [done | done |].
  destruct (lit_frac n) as [|d fs]; [|done]. apply Hc.
Qed.

(** What the number scanner reads from a printed literal. *)
Lemma scan_number_lit n c t :
  lit_ok n = true -> num_end c ->
  scan_number (num_text n ++ c :: t) = inr (num_value n, c :: t).
Proof.
  intros Hn Hc. pose proof (lit_ok_digits n Hn) as (Hi & Hf & _).
  unfold scan_number.
  rewrite read_minus_num, int_part_num, frac_part_num by (done || by apply num_end_stop).
  unfold num_value. destruct (lit_frac n) as [|d fs].
  - rewrite exp_part_end by done.
    rewrite (proj2 (Z.ltb_ge _ _)); [done|].
    unfold digits_of, max_str_digits. rewrite length_map.
    destruct (lit_ok_digits n Hn) as (_ & _ & c0 & r0 & -> & _ & _ & Hl). unfold max_str_digits in Hl. simpl in Hl |- *. lia.
  - by rewrite exp_part_end.
Qed.

Lemma num_text_head n r :
  lit_ok n = true ->
  exists a rest, num_text n ++ r = a :: rest /\ (a = "-"%char \/ is_digit a = true).
Proof.
  intros Hn. destruct (lit_ok_digits n Hn) as (_ & _ & c0 & r0 & Ei & Hc0 & _).
  unfold num_text. rewrite Ei. destruct (lit_neg n); simpl; eauto.
Qed.

(** No named constant ([null], [true], [NaN], [-Infinity], ...) starts
    like a printed number. *)
Lemma scan_constant_num n r :
  lit_ok n = true -> scan_constant constants (num_text n ++ r) = None.
Proof.
  intros Hn. destruct (lit_ok_digits n Hn) as (_ & _ & c0 & r0 & Ei & Hc0 & _).
  unfold num_text. rewrite Ei.
  destruct (lit_neg n); cbn [app scan_constant constants list_ascii_of_string strip_prefix];
    decide_chars; reflexivity.
Qed.

(** ** Keys *)

(** The characters a key may have: printable ASCII other than a quote
    or a backslash, which [json.dumps] prints as they are. *)
Definition plain_char (a : ascii) : bool :=
  negb (bool_decide (a = dq)) && negb (bool_decide (a = "\"%char)) &&
  (32 <=? byte a) && (byte a <? 128).

Lemma plain_char_spec a :
  plain_char a = true -> a <> "034"%char /\ a <> "\"%char /\ 32 <= byte a < 128.
Proof.
  unfold plain_char. intros [[[Hq Hb]%andb_prop Hlo]%andb_prop Hhi]%andb_prop.
  apply negb_true_iff, bool_decide_eq_false in Hq, Hb.
  apply Z.leb_le in Hlo. apply Z.ltb_lt in Hhi. done.
Qed.

Lemma scan_chars_plain k t acc :
  forallb plain_char k = true -> scan_chars (k ++ dq :: t) acc = inr (rev acc ++ k, t).
Proof.
  revert acc. induction k as [|a k IH]; intros acc Hk.
  - simpl. by rewrite app_nil_r.
  - simpl in Hk. apply andb_prop in Hk as [(Hq & Hb & Hr)%plain_char_spec Hk].
    cbn [app scan_chars]. decide_chars. rewrite (proj2 (Z.leb_gt _ _)) by lia.
    rewrite IH by done. simpl. by rewrite <- app_assoc.
Qed.

(** ** Objects and arrays *)

Definition field_text (kv : list ascii * NumLit) : list ascii :=
  dq :: kv.1 ++ dq :: ":"%char :: " "%char :: num_text kv.2.

(** The members of an object, separated by [", "]. *)
Fixpoint fields_text (fs : list (list ascii * NumLit)) : list ascii :=
  match fs with
  | [] => []
  | [kv] => field_text kv
  | kv :: fs' => field_text kv ++ ","%char :: " "%char :: fields_text fs'
  end.

Definition object_text (fs : list (list ascii * NumLit)) : list ascii :=
  "{"%char :: fields_text fs ++ ["}"%char].

Definition field_value (kv : list ascii * NumLit) : string * PyObj :=
  (string_of_list_ascii kv.1, num_value kv.2).

(** The dict [json.loads] builds: the members in order, a repeated key
    keeping its first position and its last value. *)
Definition object_value (fs : list (list ascii * NumLit)) : PyObj :=
  PDict (dict_of_pairs (map field_value fs)).

Definition field_ok (kv : list ascii * NumLit) : bool := forallb plain_char kv.1 && num_ok kv.2.

(** Objects separated by commas, as [_combine_lines] joins the lines. *)
Fixpoint objects_text (objs : list (list (list ascii * NumLit))) : list ascii :=
  match objs with
  | [] => []
  | [o] => object_text o
  | o :: objs' => object_text o ++ ","%char :: objects_text objs'
  end.

Definition array_text (objs : list (list (list ascii * NumLit))) : list ascii :=
  "["%char :: objects_text objs ++ ["]"%char].

Lemma peek_same c r : peek c (c :: r) = Some r.
Proof. unfold peek. by case_bool_decide. Qed.

Lemma peek_other c a r : a <> c -> peek c (a :: r) = None.
Proof. unfold peek. by case_bool_decide. Qed.

Lemma skip_ws_other a r : is_ws a = false -> skip_ws (a :: r) = a :: r.
Proof. simpl. by intros ->. Qed.

Lemma skip_ws_space r : skip_ws (" "%char :: r) = skip_ws r.
Proof. reflexivity. Qed.

Lemma fields_text_cons kv fs :
  fields_text (kv :: fs) =
  field_text kv ++ match fs with [] => [] | _ => ","%char :: " "%char :: fields_text fs end.
Proof. destruct fs; simpl; [by rewrite app_nil_r | reflexivity]. Qed.

Lemma objects_text_cons o objs :
  objects_text (o :: objs) =
  object_text o ++ match objs with [] => [] | _ => ","%char :: objects_text objs end.
Proof. destruct objs; simpl; [by rewrite app_nil_r | reflexivity]. Qed.

Lemma object_text_app o r : object_text o ++ r = "{"%char :: fields_text o ++ "}"%char :: r.
Proof. unfold object_text. simpl. by rewrite <- app_assoc. Qed.

Lemma field_text_app kv r :
  field_text kv ++ r = dq :: kv.1 ++ dq :: ":"%char :: " "%char :: num_text kv.2 ++ r.
Proof. unfold field_text. simpl. by rewrite <- app_assoc. Qed.

Section Scan.
Variable max_depth : nat.

(** A printed literal, whatever follows it, goes to the number scanner. *)
Lemma scan_value_lit f d n r :
  lit_ok n = true ->
  scan_value max_depth (S f) d (num_text n ++ r) = lift (scan_number (num_text n ++ r)).
Proof.
  intros Hn. pose proof (scan_constant_num n r Hn) as Hsc.
  destruct (num_text_head n r Hn) as (a & rest & Eq & Ha).
  rewrite Eq in Hsc |- *. cbn [scan_value].
  destruct Ha as [-> | Ha]; decide_chars; by rewrite Hsc.
Qed.

Lemma scan_value_num f d n c t :
  lit_ok n = true -> num_end c ->
  scan_value max_depth (S f) d (num_text n ++ c :: t) = Some (inr (num_value n, c :: t)).
Proof. intros Hn Hc. by rewrite scan_value_lit, scan_number_lit. Qed.

Lemma skip_ws_num n r : lit_ok n = true -> skip_ws (num_text n ++ r) = num_text n ++ r.
Proof.
  intros Hn. destruct (num_text_head n r Hn) as (a & rest & Eq & [-> | Ha]); rewrite Eq;
    [reflexivity|]. simpl. by rewrite is_ws_digit.
Qed.

(** One member of an object: the key, the colon, the number, and what
    follows it. *)
Lemma scan_members_field f d kv c t acc :
  field_ok kv = true -> num_end c ->
  scan_members max_depth (S (S f)) d (field_text kv ++ c :: t) acc =
  let acc' := dict_set (string_of_list_ascii kv.1) (num_value kv.2) acc in
  match peek "}" (skip_ws (c :: t)) with
  | Some r4 => Some (inr (PDict acc', r4))
  | None =>
      match peek "," (skip_ws (c :: t)) with
      | Some r4 => scan_members max_depth (S f) d (skip_ws r4) acc'
      | None => err "Expecting ',' delimiter"
      end
  end.
Proof.
  destruct kv as [k n]. unfold field_ok. intros [Hk Hn%num_ok_lit]%andb_prop Hc.
  rewrite field_text_app. cbn [fst snd scan_members] in *. rewrite peek_same.
  unfold scan_string. rewrite scan_chars_plain by done. simpl rev. simpl app.
  rewrite (skip_ws_other ":"%char) by reflexivity. rewrite peek_same.
  rewrite skip_ws_space, skip_ws_num, scan_value_num by done. reflexivity.
Qed.

(** The members of a printed object, up to its closing brace. *)
Lemma scan_members_fields fs f d t acc :
  fs <> [] -> forallb field_ok fs = true ->
  (length (fields_text fs ++ "}"%char :: t) <= f)%nat ->
  scan_members max_depth f d (fields_text fs ++ "}"%char :: t) acc =
  Some (inr (PDict (fold_left (fun d kv => dict_set kv.1 kv.2 d) (map field_value fs) acc), t)).
Proof.
  revert f acc. induction fs as [|kv fs IH]; intros f acc Hne Hok Hf; [done|].
  simpl in Hok. apply andb_prop in Hok as [Hkv Hok].
  rewrite fields_text_cons in *. rewrite <- app_assoc in *.
  assert (Hlen : (2 <= length (field_text kv))%nat)
    by (unfold field_text; simpl; rewrite length_app; simpl; lia).
  rewrite length_app in Hf.
  destruct f as [|[|f]]; [lia..|].
  destruct fs as [|kv' fs].
  - cbn [app]. rewrite scan_members_field by (done || (right; left; done)).
    rewrite (skip_ws_other "}"%char) by reflexivity. rewrite peek_same. reflexivity.
  - cbn [app]. rewrite scan_members_field by (done || (left; done)).
    rewrite (skip_ws_other ","%char) by reflexivity.
    rewrite peek_other by discriminate. rewrite peek_same. rewrite skip_ws_space.
    rewrite fields_text_cons, <- app_assoc, field_text_app.
    rewrite (skip_ws_other dq) by reflexivity.
    rewrite <- field_text_app, app_assoc, <- fields_text_cons.
    rewrite IH; [done | discriminate | done |].
    rewrite !length_app in *. cbn [length] in *. lia.
Qed.

(** A printed object followed by anything, at a depth the scanner
    allows. *)
Lemma scan_value_object fs f d t :
  forallb field_ok fs = true -> (d < max_depth)%nat ->
  (length (object_text fs ++ t) <= f)%nat ->
  scan_value max_depth f d (object_text fs ++ t) = Some (inr (object_value fs, t)).
Proof.
  intros Hok Hd Hf. destruct f as [|f]; [simpl in Hf; lia|].
  unfold object_text, object_value, dict_of_pairs. simpl app. cbn [scan_value].
  decide_chars. rewrite (proj2 (Nat.leb_gt _ _) Hd).
  destruct fs as [|kv fs].
  - cbn [app fields_text]. rewrite (skip_ws_other "}"%char) by reflexivity. by rewrite peek_same.
  - assert (Hd' : exists r, fields_text (kv :: fs) ++ ["}"%char] ++ t = dq :: r).
    { destruct fs; cbn [fields_text]; [|rewrite <- app_assoc]; rewrite field_text_app;
      eexists; reflexivity. }
    destruct Hd' as [r Hr]. rewrite <- app_assoc, Hr.
    rewrite (skip_ws_other dq) by reflexivity. rewrite peek_other by discriminate.
    rewrite <- Hr. change (["}"%char] ++ t) with ("}"%char :: t).
    rewrite scan_members_fields; [done | discriminate | done |].
    simpl in Hf. rewrite <- app_assoc, length_app in Hf. rewrite length_app. simpl in *. lia.
Qed.

(** The elements of a printed array of objects, up to its closing
    bracket. *)
Lemma scan_elements_objects objs f d t acc :
  objs <> [] -> Forall (fun o => forallb field_ok o = true) objs -> (d < max_depth)%nat ->
  (length (objects_text objs ++ "]"%char :: t) < f)%nat ->
  scan_elements max_depth f d (objects_text objs ++ "]"%char :: t) acc =
  Some (inr (PList (rev acc ++ map object_value objs), t)).
Proof.
  revert f acc. induction objs as [|o objs IH]; intros f acc Hne Hok Hd Hf; [done|].
  inversion Hok as [|? ? Ho Hok']; subst.
  rewrite objects_text_cons, <- app_assoc in *. rewrite length_app in Hf.
  destruct f as [|f]; [lia|]. cbn [scan_elements].
  rewrite scan_value_object by (done || (rewrite length_app; lia)).
  destruct objs as [|o' objs].
  - cbn [app]. rewrite (skip_ws_other "]"%char) by reflexivity. rewrite peek_same. done.
  - cbn [app]. rewrite (skip_ws_other ","%char) by reflexivity.
    rewrite peek_other by discriminate. rewrite peek_same.
    rewrite objects_text_cons, <- app_assoc, object_text_app.
    rewrite (skip_ws_other "{"%char) by reflexivity.
    rewrite <- object_text_app, app_assoc, <- objects_text_cons.
    rewrite IH; [| discriminate | done | done |].
    + simpl. by rewrite <- app_assoc.
    + rewrite length_app in *. cbn [length] in *.
      assert (2 <= length (object_text o))%nat
        by (unfold object_text; simpl; rewrite length_app; simpl; lia). lia.
Qed.

(** A printed array of objects followed by anything. *)
Lemma scan_value_array objs f d t :
  Forall (fun o => forallb field_ok o = true) objs -> (S d < max_depth)%nat ->
  (length (array_text objs ++ t) < f)%nat ->
  scan_value max_depth f d (array_text objs ++ t) = Some (inr (PList (map object_value objs), t)).
Proof.
  intros Hok Hd Hf. destruct f as [|f]; [lia|].
  unfold array_text. simpl app. cbn [scan_value].
  decide_chars. rewrite (proj2 (Nat.leb_gt max_depth d)) by lia.
  destruct objs as [|o objs].
  - cbn [app objects_text]. rewrite (skip_ws_other "]"%char) by reflexivity. by rewrite peek_same.
  - rewrite <- app_assoc, objects_text_cons, <- app_assoc, object_text_app.
    rewrite (skip_ws_other "{"%char) by reflexivity. rewrite peek_other by discriminate.
    rewrite <- object_text_app, app_assoc, <- objects_text_cons.
    change (["]"%char] ++ t) with ("]"%char :: t).
    rewrite scan_elements_objects; [done | discriminate | done | lia |].
    simpl in Hf. rewrite <- app_assoc, length_app in Hf. rewrite length_app. simpl in *. lia.
Qed.

End Scan.

(** [JSONDecoder.decode] on a printed array of objects: the list of their
    dicts, when the nesting limit allows an object inside an array. *)
Lemma json_decode_text_array max_depth objs :
  Forall (fun o => forallb field_ok o = true) objs -> (2 <= max_depth)%nat ->
  json_decode_text max_depth (array_text objs) = Ok (PList (map object_value objs)).
Proof.
  intros Hok Hd. unfold json_decode_text.
  assert (Hs : skip_ws (array_text objs) = array_text objs) by reflexivity. rewrite Hs.
  rewrite <- (app_nil_r (array_text objs)) at 2.
  rewrite scan_value_array by (done || lia || (rewrite app_nil_r; lia)). reflexivity.
Qed.

(** ** Strings: [json.dumps] of a str and [json.loads] of the result *)

(** [json.dumps] of a str of printable ASCII and newlines: the text
    between quotes, with quote, backslash and newline escaped. *)
Fixpoint dumps_chars (s : list ascii) : list ascii :=
  match s with
  | [] => []
  | c :: s' =>
      (if Ascii.eqb c dq then ["\"%char; dq]
       else if Ascii.eqb c "\"%char then ["\"%char; "\"%char]
       else if Ascii.eqb c nl then ["\"%char; "n"%char]
       else [c]) ++ dumps_chars s'
  end.

Definition dumps_str (s : string) : string :=
  string_of_list_ascii (dq :: dumps_chars (list_ascii_of_string s) ++ [dq]).

(** The characters [dumps_chars] prints as they are or escapes. *)
Definition text_char (a : ascii) : bool :=
  (byte a <? 128) && ((32 <=? byte a) || bool_decide (a = nl)).

Lemma scan_chars_dumps s t acc :
  forallb text_char s = true -> scan_chars (dumps_chars s ++ dq :: t) acc = inr (rev acc ++ s, t).
Proof.
  revert acc. induction s as [|a s IH]; intros acc Hs.
  - simpl. by rewrite app_nil_r.
  - simpl in Hs. apply andb_prop in Hs as [Ha Hs]. cbn [dumps_chars].
    rewrite <- app_assoc.
    destruct (Ascii.eqb_spec a dq) as [->|Hq];
      [|destruct (Ascii.eqb_spec a "\"%char) as [->|Hb];
        [|destruct (Ascii.eqb_spec a nl) as [->|Hn]]];
      cbn [app scan_chars]; unfold dq, nl in *; decide_chars.
    + cbn [simple_escape]. rewrite IH by done. simpl. by rewrite <- app_assoc.
    + cbn [simple_escape]. rewrite IH by done. simpl. by rewrite <- app_assoc.
    + cbn [simple_escape]. rewrite IH by done. simpl. by rewrite <- app_assoc.
    + unfold text_char in Ha. apply andb_prop in Ha as [Hlo Hhi].
      rewrite bool_decide_eq_false_2 in Hhi by done. rewrite orb_false_r in Hhi.
      apply Z.leb_le in Hhi. rewrite (proj2 (Z.leb_gt _ _)) by lia.
      rewrite IH by done. simpl. by rewrite <- app_assoc.
Qed.

Lemma dumps_chars_text s : forallb text_char s = true -> Forall (fun a => 0 < byte a < 0x80) (dumps_chars s).
Proof.
  induction s as [|a s IH]; simpl; [constructor|]. intros [Ha Hs]%andb_prop.
  apply Forall_app. split; [|by apply IH].
  destruct (Ascii.eqb a dq); [repeat constructor; vm_compute; done|].
  destruct (Ascii.eqb a "\"%char); [repeat constructor; vm_compute; done|].
  destruct (Ascii.eqb a nl); [repeat constructor; vm_compute; done|].
  constructor; [|constructor]. unfold text_char in Ha.
  apply andb_prop in Ha as [Hhi Hlo]. apply Z.ltb_lt in Hhi.
  apply orb_prop in Hlo as [Hlo%Z.leb_le | Hnl%bool_decide_eq_true]; [lia|].
  subst. vm_compute. done.
Qed.

Lemma chr_byte a : chr (byte a) = a.
Proof. unfold chr, byte. rewrite N2Z.id. apply ascii_N_embedding. Qed.

Lemma encode_cps_ascii bs : Forall (fun a => byte a < 0x80) bs -> encode_cps (map byte bs) = bs.
Proof.
  induction 1 as [|a bs Ha _ IH]; [done|]. unfold encode_cps in *. simpl.
  rewrite utf8_encode_ascii by (pose proof (byte_range a); lia). simpl. by rewrite chr_byte, IH.
Qed.

(** A body that starts with a quote and has no zero byte is UTF-8 for
    [json.detect_encoding]. *)
Lemma detect_encoding_quote r :
  Forall (fun a => 0 < byte a) r -> detect_encoding (dq :: r) = Utf8.
Proof.
  intros Hr. unfold detect_encoding.
  destruct r as [|a1 [|a2 [|a3 r]]]; cbn [map]; try reflexivity;
    inversion Hr as [|? ? H1 _]; subst;
    change (byte dq) with 34; cbn -[byte];
    try rewrite (proj2 (Z.eqb_neq (byte a1) 0)) by lia; reflexivity.
Qed.

Section Strings.
Variable max_depth : nat.

(** [json.loads(json.dumps(s)) == s] for a text of printable ASCII and
    newlines. *)
Lemma py_json_loads_dumps s :
  forallb text_char (list_ascii_of_string s) = true ->
  py_json_loads max_depth (dumps_str s) = Ok (PStr s).
Proof.
  intros Hs. pose proof (dumps_chars_text _ Hs) as Hd.
  unfold py_json_loads, dumps_str. rewrite list_ascii_of_string_of_list_ascii.
  rewrite detect_encoding_quote
    by (apply Forall_app; split; [eapply Forall_impl; [exact Hd|]; simpl; lia | repeat constructor]).
  cbn [decode_bytes]. rewrite utf8_decode_ascii.
  2: { constructor; [reflexivity|]. apply Forall_app. split; [|repeat constructor].
       eapply Forall_impl; [exact Hd|]. simpl. lia. }
  rewrite encode_cps_ascii.
  2: { constructor; [reflexivity|]. apply Forall_app. split; [|repeat constructor].
       eapply Forall_impl; [exact Hd|]. simpl. lia. }
  unfold json_decode_text.
  rewrite (skip_ws_other dq) by reflexivity. cbn [scan_value]. decide_chars.
  unfold scan_string. rewrite scan_chars_dumps by done. simpl.
  by rewrite string_of_list_ascii_of_string.
Qed.

End Strings.

(** A printed object alone. *)
Lemma json_decode_text_object max_depth fs :
  forallb field_ok fs = true -> (1 <= max_depth)%nat ->
  json_decode_text max_depth (object_text fs) = Ok (object_value fs).
Proof.
  intros Hok Hd. unfold json_decode_text.
  assert (Hs : skip_ws (object_text fs) = object_text fs) by reflexivity. rewrite Hs.
  rewrite <- (app_nil_r (object_text fs)) at 2.
  rewrite scan_value_object by (done || lia || (rewrite app_nil_r; lia)). reflexivity.
Qed.

(** C19. Repeated keys: [json.loads] of an object whose members repeat
    a key gives a dict with each key once, the keys in the order of their
    first occurrence in the text, and each key bound to the last value
    the text gives it. *)
Theorem json_object_repeated_keys max_depth fs :
  forallb field_ok fs = true -> (1 <= max_depth)%nat ->
  exists d, json_decode_text max_depth (object_text fs) = Ok (PDict d) /\
    dict_keys d = first_occurrences (map (fun kv => string_of_list_ascii kv.1) fs) /\
    NoDup (dict_keys d) /\
    forall k, dict_get k d = last_value k (map field_value fs).
Proof.
  intros Hok Hd. exists (dict_of_pairs (map field_value fs)).
  split_and!; [by apply json_decode_text_object | | apply dict_of_pairs_NoDup |].
  - by rewrite dict_keys_of_pairs, map_map.
  - intros k. apply dict_get_of_pairs.
Qed.

(** [{"a": 1, "b": 2, "a": 3}] *)
Definition repeated_fields : list (list ascii * NumLit) :=
  [(["a"], mkNum false ["1"] []); (["b"], mkNum false ["2"] []); (["a"], mkNum false ["3"] [])]%char.

Lemma json_object_repeated_keys_witness :
  forallb field_ok repeated_fields = true /\
  json_decode_text 1000 (object_text repeated_fields) = Ok (PDict [("a", PInt 3); ("b", PInt 2)]).
Proof.
  split; [reflexivity|].
  destruct (json_object_repeated_keys 1000 repeated_fields) as (d & Hj & Hk & _ & Hg);
    [reflexivity | lia |].
  rewrite Hj. vm_compute in Hk. destruct d as [|[k1 v1] [|[k2 v2] [|]]]; try discriminate.
  injection Hk as -> ->. pose proof (Hg "a") as Ha. pose proof (Hg "b") as Hb.
  vm_compute in Ha, Hb. by injection Ha as ->; injection Hb as ->.
Defined.
