(* ===== verification/Pandas.v ===== *)
(** * [pandas.read_json(obj, lines=True, dtype=...)]

    The reference implementation of the [ReadJson] interface, following
    pandas 2.x ([pandas/io/json/_json.py]):
    - [source_text]: [JsonReader._get_data_from_filepath]: a str that
      names an existing file or URL is opened and read ([open_path]); a str
      ending in [.json] (or [.json] and a compression suffix) that names
      nothing raises [FileNotFoundError]; any other str is the JSON text
      itself; a value that is not a str raises [ValueError] ("Invalid file
      path or buffer object type");
    - [combine_lines]: with [lines=True], [data.split("\n")], each line
      [strip()]ped, blank lines dropped, the rest joined with commas inside
      [[...]] ([JsonReader._combine_lines]);
    - [ujson_loads]: the combined text is parsed with the scanner of
      [Json] (the grammar pandas' vendored ujson shares with [json]) and
      ujson's integer range check ("Value is too big!");
    - [frame_of_records]: [DataFrame(list_of_dicts)]: one row per record,
      one column per key in order of first appearance, a missing key read
      as NaN; a column of ints is int64, of ints, floats and NaN float64
      (ints become floats), of bools bool, anything else object;
    - [apply_dtype]: [FrameParser._try_convert_types] with the [dtype]
      mapping: each named column that exists is [astype]d, and kept as it
      was when [astype] raises ([TypeError] / [ValueError]); for float64
      every value goes through [float()] ([to_float], [py_float_of_str]).
    Frames built from lists that are not all records ([other_frame]) and
    pandas' own conversions of the columns [dtype] does not name
    ([convert_other]) are parameters of the section. *)

From Stdlib Require Import Ascii String ZArith Lia.
From S2P Require Import Prelude PyData Unicode PyInt Libs Json.

Open Scope Z_scope.

(** ** Text *)

(** [str.strip()] *)
Fixpoint drop_space (cps : list Z) : list Z :=
  match cps with
  | c :: r => if py_isspace c then drop_space r else cps
  | [] => []
  end.

Definition strip_cps (cps : list Z) : list Z := rev (drop_space (rev (drop_space cps))).

Definition py_strip (s : string) : string :=
  string_of_list_ascii (encode_cps (strip_cps (str_cps s))).

(** [str.split("\n")] on the UTF-8 text: a newline byte never occurs
    inside the encoding of another character. *)
Fixpoint split_nl (s : list ascii) (cur : list ascii) : list string :=
  match s with
  | [] => [string_of_list_ascii (rev cur)]
  | a :: r =>
      if bool_decide (byte a = 10) then string_of_list_ascii (rev cur) :: split_nl r []
      else split_nl r (a :: cur)
  end.

Definition py_split_lines (s : string) : list string := split_nl (list_ascii_of_string s) [].

(** [JsonReader._combine_lines] *)
Definition combine_lines (lines : list string) : string :=
  "[" ++ String.concat "," (List.filter (fun l => negb (String.eqb l EmptyString)) (map py_strip lines))
      ++ "]".

(** [str.lower().endswith((".json", ".json.gz", ...))] on the suffixes
    pandas builds from its compression extensions. *)
Definition json_suffixes : list string :=
  [".json"; ".json.tar"; ".json.tar.gz"; ".json.tar.xz"; ".json.tar.bz2"; ".json.gz";
   ".json.bz2"; ".json.zip"; ".json.xz"; ".json.zst"].

Definition ascii_lower (a : ascii) : ascii :=
  if in_range 65 90 (byte a) then chr (byte a + 32) else a.

Definition ends_with (suffix s : list ascii) : bool :=
  let n := length s in let k := length suffix in
  (k <=? n)%nat && bool_decide (drop (n - k) s = suffix).

Definition looks_like_json_file (s : string) : bool :=
  let low := map ascii_lower (list_ascii_of_string s) in
  existsb (fun suf => ends_with (list_ascii_of_string suf) low) json_suffixes.

(** ** [float()] on a str

    [PyFloat_FromString]: the text goes through [transform_cps] (as for
    [int()]); if it has underscores, each must sit between two digits
    and is then dropped ([_Py_string_to_number_with_underscores]); ASCII
    white space is stripped at both ends ([float_from_string_inner]); and
    [_PyOS_ascii_strtod] must read the whole rest: an optional sign, then
    [inf], [infinity] or [nan] in any case, or digits with an optional
    dot and at least one digit, and an exponent that is only taken when it
    has a digit. *)
Fixpoint underscores_ok (prev : Z) (cps : list Z) : bool :=
  match cps with
  | c :: r =>
      (if c =? 95 then in_range 48 57 prev else negb (prev =? 95) || in_range 48 57 c)
      && underscores_ok c r
  | [] => negb (prev =? 95)
  end.

Definition c_strip (cps : list Z) : list Z := rev (skip_cspace (rev (skip_cspace cps))).

Fixpoint take_dig (cps : list Z) : list Z * list Z :=
  match cps with
  | c :: r => if in_range 48 57 c then let '(ds, r') := take_dig r in ((c - 48) :: ds, r')
              else ([], cps)
  | [] => ([], [])
  end.

Definition read_sign_cp (cps : list Z) : bool * list Z :=
  match cps with
  | c :: r => if c =? 45 then (true, r) else if c =? 43 then (false, r) else (false, cps)
  | [] => (false, cps)
  end.

Definition lower_cp (c : Z) : Z := if in_range 65 90 c then c + 32 else c.

Definition cps_of (s : string) : list Z := map byte (list_ascii_of_string s).

Definition exponent_part (r2 : list Z) : Z * list Z :=
  match r2 with
  | c :: r4 =>
      if (c =? 101) || (c =? 69) then
        let '(eneg, r5) := read_sign_cp r4 in
        match take_dig r5 with
        | ([], _) => (0, r2)
        | (eds, r6) => (if eneg then - digits_value eds else digits_value eds, r6)
        end
      else (0, r2)
  | [] => (0, r2)
  end.

Definition strtod (cps : list Z) : option PyFloat :=
  let '(neg, r) := read_sign_cp cps in
  let low := map lower_cp r in
  if bool_decide (low = cps_of "inf") || bool_decide (low = cps_of "infinity") then
    Some (FInf neg)
  else if bool_decide (low = cps_of "nan") then Some FNaN
  else
    let '(ids, r1) := take_dig r in
    let '(fds, r2) := match r1 with
                      | c :: r4 => if c =? 46 then take_dig r4 else ([], r1)
                      | [] => ([], r1)
                      end in
    if bool_decide (ids ++ fds = []) then None
    else
      let '(e, r3) := exponent_part r2 in
      match r3 with
      | [] => Some (FDec neg (Z.to_N (digits_value (ids ++ fds))) (e - Z.of_nat (length fds)))
      | _ => None
      end.

Definition py_float_of_str (s : string) : PyResult PyFloat :=
  let t := transform_cps (str_cps s) in
  let ok := if existsb (fun c => c =? 95) t then underscores_ok 0 t else true in
  match (if ok then strtod (c_strip (List.filter (fun c => negb (c =? 95)) t)) else None) with
  | Some f => Ok f
  | None => Raise (ValueError "could not convert string to float")
  end.

(** [float(x)] on one value of an object column, as numpy's cast does it. *)
Definition to_float (v : PyObj) : PyResult PyFloat :=
  match v with
  | PInt z => Ok (FDec (z <? 0) (Z.to_N (Z.abs z)) 0)
  | PFloat f => Ok f
  | PBool b => Ok (FDec false (if b then 1 else 0) 0)
  | PNone => Ok FNaN
  | PStr s => py_float_of_str s
  | PList _ | PDict _ => Raise (TypeError "float() argument must be a string or a real number")
  end.

(** ** Frames *)

Definition is_int (v : PyObj) : bool := match v with PInt _ => true | _ => false end.
Definition is_num (v : PyObj) : bool :=
  match v with PInt _ | PFloat _ => true | _ => false end.
Definition is_bool (v : PyObj) : bool := match v with PBool _ => true | _ => false end.

(** The column pandas infers for a list of values: ints are int64;
    numbers mixed with floats or with None are float64 (None and missing
    values as NaN, ints as floats); bools are bool; anything else object. *)
Definition is_num_or_none (v : PyObj) : bool :=
  match v with PInt _ | PFloat _ | PNone => true | _ => false end.

Definition as_float64 (v : PyObj) : PyObj :=
  match v with
  | PInt z => PFloat (FDec (z <? 0) (Z.to_N (Z.abs z)) 0)
  | PNone => PFloat FNaN
  | _ => v
  end.

Definition infer_column (label : PyObj) (vals : list PyObj) : Column :=
  if forallb is_int vals then mkColumn label DInt64 vals
  else if forallb is_num_or_none vals && existsb is_num vals then
    mkColumn label DFloat64 (map as_float64 vals)
  else if forallb is_bool vals then mkColumn label DBool vals
  else mkColumn label DObject vals.

(** The keys of the records in order of first appearance. *)
Definition record_keys (recs : list (list (string * PyObj))) : list string :=
  fold_left (fun ks d => ks ++ List.filter (fun k => negb (existsb (String.eqb k) ks))
                                   (remove_dups (dict_keys d))) recs [].

Definition frame_of_records (recs : list (list (string * PyObj))) : DataFrame :=
  mkFrame (length recs)
    (map (fun k => infer_column (PStr k)
                     (map (fun d => default (PFloat FNaN) (dict_get k d)) recs))
         (record_keys recs)).

(** [Series.astype(float)], or the column unchanged when it raises. *)
Definition astype_float (c : Column) : Column :=
  match py_mapM (fun v => py_map PFloat (to_float v)) (col_values c) with
  | Ok vs => mkColumn (col_label c) DFloat64 vs
  | Raise _ => c
  end.

Fixpoint ints_in_range (v : PyObj) : bool :=
  match v with
  | PInt z => (-(2 ^ 63) <=? z) && (z <? 2 ^ 64)
  | PList l => forallb ints_in_range l
  | PDict d => forallb (fun kv => ints_in_range kv.2) d
  | _ => true
  end.

Definition as_record (v : PyObj) : option (list (string * PyObj)) :=
  match v with PDict d => Some d | _ => None end.

Section ReadJson.
(** The files and URLs the server can open: the text behind a path. *)
Variable open_path : string -> option string.
(** ujson's nesting limit. *)
Variable ujson_depth : nat.
(** [DataFrame(data)] for a list that is not a list of records, and the
    text pandas reads without [lines=True]: not modelled. *)
Variable other_frame : list PyObj -> PyResult DataFrame.
Variable read_plain : string -> PyResult DataFrame.
(** Pandas' own conversion of a column [dtype] does not name. *)
Variable convert_other : Column -> Column.

Hypothesis other_frame_ok : forall l df, other_frame l = Ok df -> df_wf df.
Hypothesis other_frame_no_http : forall l e, other_frame l = Raise e -> is_http_exception e = false.
Hypothesis read_plain_ok : forall t df, read_plain t = Ok df -> df_wf df.
Hypothesis read_plain_no_http : forall t e, read_plain t = Raise e -> is_http_exception e = false.
Hypothesis convert_other_length :
  forall c, length (col_values (convert_other c)) = length (col_values c).

Definition source_text (s : string) : PyResult string :=
  match open_path s with
  | Some text => Ok text
  | None =>
      if looks_like_json_file s then Raise (FileNotFoundError ("File " ++ s ++ " does not exist"))
      else Ok s
  end.

Definition ujson_loads (text : string) : PyResult PyObj :=
  v <- json_decode_text ujson_depth (list_ascii_of_string text) ;;
  if ints_in_range v then Ok v else Raise (ValueError "Value is too big!").

(** [DataFrame(data)] for the list the combined lines decode to. *)
Definition frame_of (v : PyObj) : PyResult DataFrame :=
  match v with
  | PList items =>
      match mapM as_record items with
      | Some recs => Ok (frame_of_records recs)
      | None =>
          match items with
          | PDict _ :: _ => Raise (AttributeError "object has no attribute 'keys'")
          | _ => other_frame items
          end
      end
  | _ => Raise (ValueError "DataFrame constructor not properly called!")
  end.

Definition convert_column (dtype : list (string * DType)) (c : Column) : Column :=
  match c with
  | mkColumn (PStr name) _ _ =>
      match find (fun nt => String.eqb nt.1 name) dtype with
      | Some (_, DFloat64) => astype_float c
      | Some _ => c
      | None => convert_other c
      end
  | _ => convert_other c
  end.

Definition apply_dtype (dtype : list (string * DType)) (df : DataFrame) : DataFrame :=
  mkFrame (df_nrows df) (map (convert_column dtype) (df_cols df)).

Definition pandas_read_json (v : PyObj) (lines : bool) (dtype : list (string * DType))
  : PyResult DataFrame :=
  match v with
  | PStr s =>
      text <- source_text s ;;
      if lines then
        data <- ujson_loads (combine_lines (py_split_lines text)) ;;
        df <- frame_of data ;;
        Ok (apply_dtype dtype df)
      else df <- read_plain text ;; Ok (apply_dtype dtype df)
  | _ => Raise (ValueError "Invalid file path or buffer object type")
  end.
(** ** The laws of [ReadJson] *)

Lemma infer_column_length label vals : length (col_values (infer_column label vals)) = length vals.
Proof.
  unfold infer_column. repeat case_match; simpl; rewrite ?length_map; done.
Qed.

Lemma frame_of_records_wf recs : df_wf (frame_of_records recs).
Proof.
  unfold df_wf, frame_of_records. simpl. apply Forall_map, Forall_forall.
  intros k _. simpl. by rewrite infer_column_length, length_map.
Qed.

Lemma astype_float_length c : length (col_values (astype_float c)) = length (col_values c).
Proof.
  unfold astype_float. destruct (py_mapM _ _) eqn:E; [|done]. simpl.
  by apply py_mapM_length in E.
Qed.

Lemma convert_column_length dtype c :
  length (col_values (convert_column dtype c)) = length (col_values c).
Proof.
  destruct c as [[] ty vals]; simpl; try apply convert_other_length.
  repeat case_match; subst; try done; try apply convert_other_length.
  apply astype_float_length.
Qed.

Lemma apply_dtype_wf dtype df : df_wf df -> df_wf (apply_dtype dtype df).
Proof.
  unfold df_wf, apply_dtype. simpl. intros Hwf. apply Forall_map.
  eapply Forall_impl; [exact Hwf|]. intros c Hc. simpl. by rewrite convert_column_length.
Qed.

Lemma frame_of_wf v df : frame_of v = Ok df -> df_wf df.
Proof.
  unfold frame_of. destruct v; try discriminate.
  destruct (mapM as_record l) eqn:E; [intros [= <-]; apply frame_of_records_wf|].
  destruct l as [|[] l]; try discriminate; apply other_frame_ok.
Qed.

Lemma pandas_read_json_wf v lines dtype df :
  pandas_read_json v lines dtype = Ok df -> df_wf df.
Proof.
  unfold pandas_read_json. destruct v; try discriminate.
  intros H. py_inv. destruct lines; py_inv; subst; apply apply_dtype_wf.
  - by eapply frame_of_wf.
  - by eapply read_plain_ok.
Qed.

Lemma pandas_read_json_no_http v lines dtype e :
  pandas_read_json v lines dtype = Raise e -> is_http_exception e = false.
Proof.
  unfold pandas_read_json. destruct v; try (intros [= <-]; done).
  intros H. apply py_bind_Raise_inv in H as [H | (text & Hs & H)].
  - unfold source_text in H. destruct (open_path s); [discriminate|].
    destruct (looks_like_json_file s); [by injection H as <- | discriminate].
  - destruct lines.
    + apply py_bind_Raise_inv in H as [H | (data & Hd & H)].
      * unfold ujson_loads in H.
        apply py_bind_Raise_inv in H as [H | (w & Hw & H)]; [by eapply json_decode_text_no_http|].
        destruct (ints_in_range w); [discriminate | by injection H as <-].
      * apply py_bind_Raise_inv in H as [H | (df & Hf & H)]; [|discriminate].
        unfold frame_of in H. destruct data; try (injection H as <-; done).
        destruct (mapM as_record l); [discriminate|].
        destruct l as [|[] l]; try (by eapply other_frame_no_http). by injection H as <-.
    + apply py_bind_Raise_inv in H as [H | (df & Hf & H)]; [by eapply read_plain_no_http | discriminate].
Qed.

Lemma pandas_read_json_not_str v lines dtype :
  (forall s, v <> PStr s) ->
  exists msg, pandas_read_json v lines dtype = Raise (ValueError msg).
Proof.
  intros Hv. destruct v; try by eexists. by destruct (Hv s).
Qed.

Definition pandas_reference : ReadJson :=
  {| read_json := pandas_read_json;
     read_json_no_http := pandas_read_json_no_http;
     read_json_not_str := pandas_read_json_not_str;
     read_json_wf := pandas_read_json_wf |}.

End ReadJson.
