(* ===== verification/Mlflow.v ===== *)
(** * An mlflow pyfunc model

    The reference implementation of [PyFuncModel] and [ModelLoader]
    (mlflow 2.x):
    - [pyfunc_predict]: [PyFuncModel.predict]: when the model has an input
      signature, [_validate_prediction_input] runs [_enforce_schema] and
      wraps what it raises ([MlflowMissingInputs],
      [MlflowIncompatibleInput]).  [_enforce_schema] first lists every
      required input that is not a column ([enforce_schema], in the
      signature's order), then [_enforce_named_col_schema] converts each
      input column with [_enforce_mlflow_datatype] ([enforce_datatype]):
      an object column is first re-inferred ([infer_objects]), a column
      whose dtype is the signature's (or a safe upcast of it; the dtypes
      of [DType] have none between them) is converted, and any other is
      refused; the frame passed on has exactly the signature's columns in
      its order.  Then the wrapped estimator predicts the rows
      ([pf_estimator], which may raise, as scikit-learn's input
      validation does on NaN), and the result is a 1-d numpy array;
    - [load_pyfunc]: [mlflow.pyfunc.load_model]: the model stored under
      the path, or [MlflowException] when there is none ([artifacts]).
    A signature's [double], [long], [boolean] and [string] inputs are the
    dtypes [DFloat64], [DInt64], [DBool] and [DObject]; every input is
    required. *)

From Stdlib Require Import Ascii String ZArith Lia.
From S2P Require Import Prelude PyData Libs.

Record PyfuncModel : Type := mkPyfuncModel {
  pf_schema : option (list (string * DType));
  pf_estimator : list (PyObj * PyObj) -> PyResult PyObj;
  pf_estimator_no_http r e : pf_estimator r = Raise e -> is_http_exception e = false
}.

(** A model whose estimator predicts every row. *)
Definition mkPyfunc (schema : option (list (string * DType))) (f : list (PyObj * PyObj) -> PyObj)
  : PyfuncModel :=
  mkPyfuncModel schema (fun r => Ok (f r)) (fun r e H => match H with eq_refl => I end).

(** [str(values.dtype)] *)
Definition dtype_name (d : DType) : string :=
  match d with
  | DFloat64 => "float64"
  | DInt64 => "int64"
  | DBool => "bool"
  | DObject => "object"
  end.

(** [str(t.to_numpy())] for the signature's type: a [string] input's
    numpy type is [np.dtype("str")]. *)
Definition numpy_name (t : DType) : string :=
  match t with
  | DObject => "<U0"
  | _ => dtype_name t
  end.

(** [Series.infer_objects()] on an object column: numbers (with [None]
    as NaN) become float64, or int64 when all are ints; bools become
    bool; anything else stays object. *)
Definition infer_objects (vals : list PyObj) : DType :=
  let is_num v := match v with PInt _ | PFloat _ => true | _ => false end in
  let is_int v := match v with PInt _ => true | _ => false end in
  let is_null v := match v with PNone => true | _ => false end in
  let is_bool v := match v with PBool _ => true | _ => false end in
  if bool_decide (vals = []) then DObject
  else if forallb is_int vals then DInt64
  else if forallb (fun v => is_num v || is_null v) vals && existsb is_num vals then DFloat64
  else if forallb is_bool vals then DBool
  else DObject.

Definition float_integral (f : PyFloat) : bool :=
  match f with
  | FDec _ m e => (0 <=? e)%Z || (N.modulo m (10 ^ Z.to_N (- e)) =? 0)%N
  | FNaN => true
  | FInf _ => false
  end.

(** The condition of mlflow's hint: a float64 column with NaN whose other
    values are whole numbers, for an integer input. *)
Definition int_hint (vals : list PyObj) (t : DType) : bool :=
  bool_decide (t = DInt64)
  && existsb (fun v => bool_decide (v = PFloat FNaN)) vals
  && forallb (fun v => match v with PFloat f => float_integral f | _ => false end) vals.

(** [_enforce_mlflow_datatype(name, values, t)] *)
Definition enforce_datatype (name : string) (c : Column) (t : DType) : PyResult Column :=
  let d := if bool_decide (col_dtype c = DObject) && negb (bool_decide (t = DObject))
           then infer_objects (col_values c) else col_dtype c in
  if bool_decide (d = t) then Ok (mkColumn (PStr name) t (col_values c))
  else Raise (MlflowIncompatibleInput name (dtype_name d) (numpy_name t)
                (bool_decide (d = DFloat64) && int_hint (col_values c) t)).

Definition has_column (df : DataFrame) (name : string) : bool :=
  existsb (fun c => bool_decide (col_label c = PStr name)) (df_cols df).

(** [_enforce_schema]: the missing inputs, then each input's column. *)
Definition enforce_schema (schema : list (string * DType)) (df : DataFrame) : PyResult DataFrame :=
  let names := map fst schema in
  let missing := List.filter (fun n => negb (has_column df n)) names in
  let extra := existsb (fun c => negb (bool_decide (col_label c ∈ map PStr names))) (df_cols df) in
  if bool_decide (missing = []) then
    cols <- py_mapM (fun nt => match df_column df (PStr nt.1) with
                               | Some c => enforce_datatype nt.1 c nt.2
                               | None => Raise (MlflowMissingInputs [nt.1] false) (* checked above *)
                               end) schema ;;
    Ok (mkFrame (df_nrows df) cols)
  else Raise (MlflowMissingInputs missing extra).

Definition pyfunc_predict (m : PyfuncModel) (df : DataFrame) : PyResult PredOut :=
  df' <- match pf_schema m with
         | Some schema => enforce_schema schema df
         | None => Ok df
         end ;;
  preds <- py_mapM (pf_estimator m) (df_rows df') ;;
  Ok (NdArray preds).

Lemma enforce_datatype_no_http name c t e :
  enforce_datatype name c t = Raise e -> is_http_exception e = false.
Proof. unfold enforce_datatype. case_bool_decide; [discriminate|]. by intros [= <-]. Qed.

Lemma py_mapM_raise_from {A B} (f : A -> PyResult B) l e :
  py_mapM f l = Raise e -> exists x, x ∈ l /\ f x = Raise e.
Proof.
  induction l as [|x l IH]; simpl; [discriminate|].
  destruct (f x) as [y|e'] eqn:Ef; simpl.
  - destruct (py_mapM f l); simpl; [discriminate|]. intros H.
    destruct (IH H) as (x' & Hin & Hx). exists x'. split; [by right|done].
  - intros [= <-]. exists x. split; [by left|done].
Qed.

Lemma enforce_schema_no_http schema df e :
  enforce_schema schema df = Raise e -> is_http_exception e = false.
Proof.
  unfold enforce_schema. case_bool_decide; [|by intros [= <-]].
  destruct (py_mapM _ schema) as [cols|e'] eqn:E; simpl; [discriminate|].
  intros [= <-]. destruct (py_mapM_raise_from _ _ _ E) as (nt & _ & Hnt).
  destruct (df_column df (PStr nt.1)); [by eapply enforce_datatype_no_http | by injection Hnt as <-].
Qed.

Lemma pyfunc_predict_no_http m df e : pyfunc_predict m df = Raise e -> is_http_exception e = false.
Proof.
  unfold pyfunc_predict.
  destruct (match pf_schema m with Some schema => enforce_schema schema df | None => Ok df end)
    as [df'|e'] eqn:E; simpl.
  - destruct (py_mapM (pf_estimator m) (df_rows df')) as [ps|e'] eqn:Ep; simpl; [discriminate|].
    intros [= <-]. destruct (py_mapM_raise_from _ _ _ Ep) as (r & _ & Hr).
    exact (pf_estimator_no_http m r e' Hr).
  - intros [= <-]. destruct (pf_schema m); [|discriminate]. by eapply enforce_schema_no_http.
Qed.

#[export] Instance pyfunc_model : PyFuncModel PyfuncModel :=
  {| predict := pyfunc_predict; predict_no_http := pyfunc_predict_no_http |}.

(** A model without a signature hands every frame to the estimator. *)
Lemma pyfunc_predict_no_schema f df :
  pyfunc_predict (mkPyfunc None f) df = Ok (NdArray (map f (df_rows df))).
Proof. unfold pyfunc_predict. simpl. by rewrite (py_mapM_total _ f). Qed.

Section Loader.
(** The models stored on disk, by path. *)
Variable artifacts : string -> option PyfuncModel.

Definition load_pyfunc (uri : string) : PyResult PyfuncModel :=
  match artifacts uri with
  | Some m => Ok m
  | None => Raise (MlflowException ("No such file or directory: '" ++ uri ++ "/MLmodel'"))
  end.

Definition pyfunc_loader : ModelLoader PyfuncModel := {| load_model := load_pyfunc |}.
End Loader.
