(* ===== verification/Inference.v ===== *)
(** * The service: [src/.ipynb_checkpoints/inference-checkpoint.py]

    The source file, statement by statement, over the library interfaces
    of [Libs] and the Flask layer of [Flask]:
    - [source_imports], [exec_import], [run_module]: the imports of
      lines 1-4, then [startup];
    - [model_uri], [startup]: module import (lines 7-10) and the
      [__main__] block (lines 37-41): load the model, evaluate
      [int(os.environ.get("PORT", 8080))], and [api.run] on 0.0.0.0 with
      [debug=True], which binds the port;
    - [home] (lines 14-17) and [make_predictions] (lines 21-33), the two
      view functions, with [df_schema] (line 27);
    - [routes]: the two [@api.route] decorators (lines 14 and 21);
    - [handle]: a request served by the running process, through Flask's
      dispatch, with the model loaded at start-up as the only state; under
      [debug] an exception of the view is rendered by the debugger
      ([Flask.server_error]), whose other routes are in [Debugger].
    The section [Service] states the theorems for every implementation of
    the interfaces; the laws it uses are the ones [Libs] declares.  After
    it, the deployed libraries ([json_stdlib], [pandas_lines]) fix the
    configuration the spec's example is run in (the bodies
    [spec_body_lines] and [spec_body_string], built with a client's
    [json.dumps]), and the witnesses apply each theorem to a concrete
    server, body and environment. *)

From Stdlib Require Import Ascii String ZArith Lia.
From S2P Require Import Prelude PyData Unicode PyInt Libs Flask Json JsonText Pandas Mlflow.

Open Scope string_scope.

(** line 10: [mlflow.pyfunc.load_model(model_uri="./best_estimator")] *)
Definition model_uri : string := "./best_estimator".

(** line 27 *)
Definition df_schema : list (string * DType) := [("gre", DFloat64); ("gpa", DFloat64)].

(** The view functions of the two rules. *)
Inductive Endpoint : Type := EHome | EPredict.

#[export] Instance Endpoint_eq_dec : EqDecision Endpoint.
Proof. solve_decision. Defined.

(** lines 14 and 21: [@api.route('/')] and
    [@api.route('/predict', methods = ['POST'])] *)
Definition routes : list (Rule Endpoint) :=
  [flask_rule "/" [GET] EHome; flask_rule "/predict" [POST] EPredict].

(** lines 14-17 *)
Definition home : PyResult ViewResult :=
  Ok (VBodyStatus (PDict [("message", PStr "Hi there!"); ("success", PBool true)]) 200).

(** The machine the server binds on: whether the process runs as root,
    the first port an unprivileged process may bind
    ([net.ipv4.ip_unprivileged_port_start]: 1024 by default, 0 in
    Docker's containers), and the port the kernel picks for port 0. *)
Class SocketOS : Type := {
  os_root : bool;
  os_unprivileged_start : Z;
  os_ephemeral : Z;
  os_unprivileged_start_range : (0 <= os_unprivileged_start <= 1024)%Z;
  os_ephemeral_range : (1024 <= os_ephemeral <= 65535)%Z
}.

Section Service.
Context {M : Type} {JL : JsonLoads} {RJ : ReadJson} {PM : PyFuncModel M} {ML : ModelLoader M}.
Context {SO : SocketOS}.

(** lines 21-33 *)
Definition make_predictions (model : M) (req : Request) : PyResult ViewResult :=
  user_input <- get_json_force (req_body req) ;;
  user_input_df <- read_json user_input true df_schema ;;
  out <- predict model user_input_df ;;
  predictions <- tolist out ;;
  Ok (VBody (PDict [("predictions", predictions)])).

Definition view (model : M) (ep : Endpoint) (req : Request) : PyResult ViewResult :=
  match ep with
  | EHome => home
  | EPredict => make_predictions model req
  end.

(** The running process: the model loaded at import, and the
    arguments [api.run] was given. *)
Record Server : Type := mkServer {
  srv_model : M;
  srv_host : string;
  srv_port : Z;
  srv_debug : bool
}.

Definition handle (srv : Server) (req : Request) : Response :=
  flask_dispatch (srv_debug srv) routes (view (srv_model srv)) req.

(** line 40: [os.environ.get("PORT", 8080)], then [int(...)] *)
Definition environ_get_port (env : string -> option string) : PyObj :=
  match env "PORT" with
  | Some s => PStr s
  | None => PInt 8080
  end.

Definition port_of_env (env : string -> option string) : PyResult Z :=
  py_int (environ_get_port env).

(** The socket bind inside [api.run] ([BaseWSGIServer.__init__]):
    [socket.bind] refuses a port outside 0..65535 with [OverflowError],
    which werkzeug lets through; port 0 gets the kernel's ephemeral
    port; a port below the unprivileged start raises [PermissionError]
    for a process that is not root, and werkzeug answers any [OSError]
    by printing it and [sys.exit(1)].  A port another program holds
    ([EADDRINUSE], the same exit) is not modelled. *)
Definition bind_port (p : Z) : PyResult Z :=
  if negb ((0 <=? p)%Z && (p <=? 65535)%Z) then Raise (OverflowError "bind(): port must be 0-65535.")
  else if (p =? 0)%Z then Ok os_ephemeral
  else if (p <? os_unprivileged_start)%Z && negb os_root then Raise (SystemExit 1)
  else Ok p.

(** What starting the program does: importing the module loads the
    model (or dies); run as a script it also computes the port and
    calls [api.run], which does nothing when launched by the [flask]
    command line ([FLASK_RUN_FROM_CLI=true]) and otherwise binds. *)
Inductive Startup : Type :=
| Serving (srv : Server)
| ImportedOnly (model : M)
| Crashed (e : PyExc).

Definition startup (as_main : bool) (env : string -> option string) : Startup :=
  match load_model model_uri with
  | Raise e => Crashed e
  | Ok m =>
      if negb as_main then ImportedOnly m
      else match port_of_env env with
           | Raise e => Crashed e
           | Ok p =>
               if bool_decide (env "FLASK_RUN_FROM_CLI" = Some "true") then ImportedOnly m
               else match bind_port p with
                    | Raise e => Crashed e
                    | Ok p' => Serving (mkServer m "0.0.0.0" p' true)
                    end
           end
  end.

(** ** The imports (lines 1-4)

    [from m import a, b] imports [m], then takes each name from it,
    importing the submodule [m.a] when [m] has no attribute [a]
    ([_handle_fromlist]); [import m.sub] (also [import m as x]) imports
    [m], then [m.sub].  [installed] says what the interpreter finds: the
    names a module defines, or [None] when no module of that name is on
    the path.  The path CPython appends to the [ImportError] message and
    the top-level code of the imported modules are not modelled. *)
Inductive ImportStmt : Type :=
| ImportFrom (module : string) (names : list string)
| ImportModule (dotted : string).

Definition source_imports : list ImportStmt :=
  [ImportFrom "flask" ["Flask"; "request"];
   ImportModule "pandas";
   ImportModule "os";
   ImportModule "mlflow.pyfunc"].

(** The prefixes [a], [a.b], [a.b.c] of a dotted name, in import order. *)
Definition dotted_prefixes (dotted : string) : list string :=
  let parts := split_dots dotted in
  map (fun n => String.concat "." (firstn n parts)) (seq 1 (length parts)).

Definition find_module (installed : string -> option (list string)) (m : string)
  : PyResult (list string) :=
  match installed m with
  | Some names => Ok names
  | None => Raise (ModuleNotFoundError ("No module named '" ++ m ++ "'"))
  end.

Definition import_module (installed : string -> option (list string)) (dotted : string)
  : PyResult (list string) :=
  fold_left (fun acc m => _ <- acc ;; find_module installed m)
    (dotted_prefixes dotted) (Ok []).

Definition from_name (installed : string -> option (list string)) (m : string)
  (names : list string) (a : string) : PyResult unit :=
  if bool_decide (a ∈ names) then Ok tt
  else match installed (m ++ "." ++ a) with
       | Some _ => Ok tt
       | None => Raise (ImportError ("cannot import name '" ++ a ++ "' from '" ++ m ++ "'"))
       end.

Definition exec_import (installed : string -> option (list string)) (st : ImportStmt)
  : PyResult unit :=
  match st with
  | ImportFrom m as_ =>
      names <- import_module installed m ;;
      _ <- py_mapM (from_name installed m names) as_ ;; Ok tt
  | ImportModule d => _ <- import_module installed d ;; Ok tt
  end.

(** Running the module: its imports, then [startup] (line 7 on). *)
Definition run_module (installed : string -> option (list string)) (as_main : bool)
  (env : string -> option string) : Startup :=
  match py_mapM (exec_import installed) source_imports with
  | Raise e => Crashed e
  | Ok _ => startup as_main env
  end.

(** ** Lemmas *)

Definition predict_req (body : string) : Request := mkRequest POST "/predict" body.

(** A POST to [/predict] runs [make_predictions] and finalises. *)
Lemma handle_predict srv body :
  handle srv (predict_req body) =
  finalize (srv_debug srv) (rv <- make_predictions (srv_model srv) (predict_req body) ;; make_response rv).
Proof. reflexivity. Qed.

(** [make_predictions] raises no HTTP error other than 400. *)
Lemma make_predictions_http m req code name :
  make_predictions m req = Raise (HTTPException code name) -> code = 400%Z.
Proof.
  unfold make_predictions. intros H. raise_cases H;
    first [by eapply get_json_force_http | lib_no_http H; discriminate H].
Qed.

(** Once the body has decoded, nothing the view raises is an HTTP
    exception. *)
Lemma make_predictions_raise_after_json m body v e :
  json_loads body = Ok v ->
  make_predictions m (predict_req body) = Raise e -> is_http_exception e = false.
Proof.
  unfold make_predictions. intros Hj H. cbn [req_body predict_req] in H. raise_cases H;
    first [ lib_no_http H; exact H
          | rewrite (get_json_force_ok _ _ Hj) in H; discriminate H
          | congruence ].
Qed.

(** The view on a body that decodes into a frame, a prediction and its
    list. *)
Lemma make_predictions_ok m body v df out l :
  json_loads body = Ok v -> read_json v true df_schema = Ok df ->
  predict m df = Ok out -> tolist out = Ok l ->
  make_predictions m (predict_req body) = Ok (VBody (PDict [("predictions", l)])).
Proof.
  intros Hj Hr Hp Ht. unfold make_predictions. simpl.
  rewrite (get_json_force_ok _ _ Hj); simpl. rewrite Hr; simpl.
  rewrite Hp; simpl. by rewrite Ht.
Qed.

(** The response to such a body. *)
Lemma handle_predict_ok srv body v df out l :
  json_loads body = Ok v -> read_json v true df_schema = Ok df ->
  predict (srv_model srv) df = Ok out -> tolist out = Ok l ->
  handle srv (predict_req body) = mkResponse 200 (BJson (PDict [("predictions", l)])) [].
Proof.
  intros Hj Hr Hp Ht. rewrite handle_predict, (make_predictions_ok _ _ v df out l) by done.
  reflexivity.
Qed.

(** The view on a body [json.loads] refuses. *)
Lemma make_predictions_bad_json m body e :
  json_loads body = Raise e -> is_value_error e = true ->
  make_predictions m (predict_req body) = Raise (HTTPException 400 "Bad Request").
Proof.
  intros Hj He. unfold make_predictions. simpl.
  by rewrite (get_json_force_value_error _ _ Hj He).
Qed.

(** ** Theorems: the prediction route *)

(** C1. A request whose body decodes, whose frame pandas builds, which
    the model predicts and whose prediction has a [tolist] is answered
    200 with [{"predictions": prediction.tolist()}]. *)
Theorem predict_success srv body v df out l :
  json_loads body = Ok v ->
  read_json v true df_schema = Ok df ->
  predict (srv_model srv) df = Ok out ->
  tolist out = Ok l ->
  handle srv (predict_req body) = mkResponse 200 (BJson (PDict [("predictions", l)])) [].
Proof. apply handle_predict_ok. Qed.

(** C2. A body [json.loads] rejects with a [ValueError] (not JSON, not
    one document, bad encoding) is answered 400. *)
Theorem predict_bad_body_400 srv body e :
  json_loads body = Raise e -> is_value_error e = true ->
  handle srv (predict_req body) = error_response 400.
Proof.
  intros Hj He. rewrite handle_predict, (make_predictions_bad_json _ _ e) by done.
  reflexivity.
Qed.

(** C3. Once the body is one JSON document, every failure of the rest
    of the view (pandas refusing the value, the model raising, a result
    without [tolist]) is answered 500 with the exception the view raised,
    whose traceback page the debugger of the [debug=True] server sends:
    there is no client error for well-formed JSON. *)
Theorem predict_failure_after_json_500 srv body v :
  json_loads body = Ok v ->
  is_ok (make_predictions (srv_model srv) (predict_req body)) = false ->
  exists e, make_predictions (srv_model srv) (predict_req body) = Raise e /\
    handle srv (predict_req body) = server_error (srv_debug srv) e.
Proof.
  intros Hj Hfail.
  destruct (make_predictions (srv_model srv) (predict_req body)) as [rv|e] eqn:E;
    [discriminate|]. exists e. split; [done|].
  rewrite handle_predict, E. apply finalize_not_http.
  eapply make_predictions_raise_after_json; eauto.
Qed.

(** A failure of the view that is not an HTTP exception is a 500. *)
Lemma handle_predict_not_http srv body e :
  make_predictions (srv_model srv) (predict_req body) = Raise e -> is_http_exception e = false ->
  handle srv (predict_req body) = server_error (srv_debug srv) e.
Proof. intros Hm He. rewrite handle_predict, Hm. by apply finalize_not_http. Qed.

(** C4. The JSON value of the body must be a str: any other JSON value
    (an object, an array, a number) is refused by pandas with a
    [ValueError] and answered 500. *)
Theorem predict_json_not_string_500 srv body v :
  json_loads body = Ok v -> (forall s, v <> PStr s) ->
  exists msg, handle srv (predict_req body) = server_error (srv_debug srv) (ValueError msg).
Proof.
  intros Hj Hv. destruct (read_json_not_str v true df_schema Hv) as [msg Hr].
  exists msg. apply (handle_predict_not_http _ _ (ValueError msg)); [|done].
  unfold make_predictions. simpl. rewrite (get_json_force_ok _ _ Hj). simpl. by rewrite Hr.
Qed.

(** ** Theorems: routing and status codes *)

(** C5. The health check: [GET /] answers 200 with
    [{"message": "Hi there!", "success": true}] whatever the body, and
    [HEAD /] answers 200 without a body.  The answer is a JSON object,
    not the simple string the comment of line 16 announces. *)
Theorem home_health_check srv body :
  handle srv (mkRequest GET "/" body) =
    mkResponse 200 (BJson (PDict [("message", PStr "Hi there!"); ("success", PBool true)])) [] /\
  handle srv (mkRequest HEAD "/" body) = mkResponse 200 BEmpty [].
Proof. split; reflexivity. Qed.

(** C7. [/predict] only accepts POST (and OPTIONS): any other method is
    answered 405 with [Allow: POST, OPTIONS]. *)
Theorem predict_wrong_method_405 srv m body :
  m <> POST -> m <> OPTIONS ->
  handle srv (mkRequest m "/predict" body) =
    strip_for_head m (mkResponse 405 (BErrorPage 405) [POST; OPTIONS]).
Proof. intros Hp Ho. destruct m; try congruence; reflexivity. Qed.

Lemma routes_paths r : r ∈ routes -> rule_path r = "/" \/ rule_path r = "/predict".
Proof.
  unfold routes. rewrite !elem_of_cons, elem_of_nil.
  intros [-> | [-> | []]]; [left | right]; done.
Qed.

Lemma routes_endpoints r : r ∈ routes -> rule_endpoint r = EHome \/ rule_endpoint r = EPredict.
Proof.
  unfold routes. rewrite !elem_of_cons, elem_of_nil.
  intros [-> | [-> | []]]; [left | right]; done.
Qed.

(** A merged path that names one of the two rules was already merged. *)
Lemma merge_route_path pi :
  merge_slashes_once (path_part pi) = "/" \/ merge_slashes_once (path_part pi) = "/predict" ->
  merge_slashes_once (path_part pi) = path_part pi.
Proof.
  destruct pi as [|c pi]; [simpl; intros [? | ?]; discriminate|].
  unfold path_part. rewrite merge_slashes_once_slash by apply lstrip_slash_head.
  set (u := lstrip_slash (String c pi)). intros [Hu | Hu]; injection Hu as Hu.
  - by rewrite (merge_slashes_once_empty _ Hu).
  - rewrite merge_slashes_once_no_slash; [done|]. apply no_slash_merge. by rewrite Hu.
Qed.

Lemma app_slash_get q s : q ++ "/" = s -> String.get (String.length q) s = Some "/"%char.
Proof.
  intros <-. rewrite <- (Nat.add_0_l (String.length q)), <- append_correct2. reflexivity.
Qed.

Lemma length_zero_empty q : String.length q = 0%nat -> q = EmptyString.
Proof. by destruct q. Qed.

(** Only the empty path is one slash short of a rule: the rule ["/"]. *)
Lemma slash_required_routes q m : slash_required routes q m = true -> q = EmptyString.
Proof.
  unfold slash_required. cbn [existsb routes flask_rule rule_path rule_methods].
  rewrite orb_false_r. intros [H|H]%orb_true_iff; apply andb_true_iff in H as [H _];
    apply bool_decide_eq_true in H; apply length_zero_empty;
    pose proof (app_slash_get q _ (eq_sym H)) as Hg;
    destruct (String.length q) as [|[|[|[|[|[|[|[|n]]]]]]]]; try done; discriminate.
Qed.

Lemma path_part_empty p : path_part p = EmptyString -> p = EmptyString.
Proof. by destruct p. Qed.

(** The application answers with a redirect only for an empty path:
    its rule paths have no inner slashes, and only ["/"] ends with one. *)
Lemma routes_no_redirect pi m p : pi <> EmptyString -> werkzeug_match routes pi m <> RedirectTo p.
Proof.
  intros Hpi. unfold werkzeug_match. cbv zeta.
  destruct (match_once routes (path_part pi) m) as [[r|] h1] eqn:E1; [discriminate|].
  destruct (slash_required routes (path_part pi) m) eqn:Es1.
  { by apply slash_required_routes, path_part_empty in Es1. }
  destruct (match_once routes (merge_slashes_once (path_part pi)) m) as [[r|] h2] eqn:E2.
  - apply match_once_some in E2 as E2'. destruct E2' as (Hin & Hp & _).
    rewrite merge_route_path in E2 by (rewrite <- Hp; by apply routes_paths).
    congruence.
  - destruct (slash_required routes (merge_slashes_once (path_part pi)) m) eqn:Es2; [|discriminate].
    by apply slash_required_routes, merge_slashes_once_empty, path_part_empty in Es2.
Qed.

(** An empty path: GET, HEAD and OPTIONS are redirected to ["/"], the
    other methods find nothing. *)
Lemma werkzeug_match_empty m :
  werkzeug_match routes EmptyString m =
  if decide (m ∈ [GET; HEAD; OPTIONS]) then RedirectTo "/" else NoMatch [].
Proof. destruct m; reflexivity. Qed.

Lemma werkzeug_match_matched {E} (rules : list (Rule E)) pi m r :
  werkzeug_match rules pi m = Matched r -> r ∈ rules.
Proof.
  unfold werkzeug_match. cbv zeta.
  destruct (match_once rules (path_part pi) m) as [[r'|] h1] eqn:E1.
  - intros [= <-]. by apply match_once_some in E1 as [? _].
  - case_match; [discriminate|].
    destruct (match_once rules (merge_slashes_once (path_part pi)) m) as [[?|] ?];
      [discriminate|]. case_match; discriminate.
Qed.

Lemma make_predictions_ok_shape m req rv :
  make_predictions m req = Ok rv -> exists l, rv = VBody (PDict [("predictions", l)]).
Proof. unfold make_predictions. intros Hm. py_inv. subst. eauto. Qed.

(** C6. Every request is answered 200, 400, 404, 405 or 500, except
    one: a GET, HEAD or OPTIONS with an empty path, which werkzeug's
    strict slashes redirect (308) to ["/"].  No other redirect and no
    other status. *)
Theorem handle_status srv req :
  In (status (handle srv req)) [200; 400; 404; 405; 500]%Z \/
  (req_path req = EmptyString /\ req_method req ∈ [GET; HEAD; OPTIONS] /\
   handle srv req = strip_for_head (req_method req) (mkResponse 308 (BRedirect "/") [])).
Proof.
  destruct (decide (req_path req = EmptyString)) as [He|Hne].
  { unfold handle, flask_dispatch. rewrite He, werkzeug_match_empty.
    case_decide as Hm; [right; done|left]. rewrite strip_for_head_status. simpl. tauto. }
  left. unfold handle, flask_dispatch. rewrite strip_for_head_status.
  destruct (werkzeug_match routes (req_path req) (req_method req)) as [r|p|[|m ms]] eqn:Em;
    simpl; try tauto.
  - case_decide; [simpl; tauto|].
    apply werkzeug_match_matched, routes_endpoints in Em as [-> | ->]; [simpl; tauto|].
    simpl. destruct (make_predictions (srv_model srv) req) as [rv|e] eqn:Ep; simpl.
    + destruct (make_predictions_ok_shape _ _ _ Ep) as [l ->]. simpl. tauto.
    + destruct e; cbn [finalize]; try (rewrite server_error_status; simpl; tauto).
      apply make_predictions_http in Ep as ->. simpl. tauto.
  - exfalso. by apply (routes_no_redirect _ (req_method req) p Hne).
Qed.

Lemma match_once_other_path q m :
  q <> "/" -> q <> "/predict" -> match_once routes q m = (None, []).
Proof.
  intros H1 H2. unfold match_once. simpl.
  rewrite !bool_decide_eq_false_2 by congruence. done.
Qed.

(** C8. A non-empty path that is neither [/] nor [/predict] once its
    leading slashes are collapsed is answered 404, whatever the method
    (the empty path is C6's redirect). *)
Theorem handle_unknown_path_404 srv m p body :
  p <> EmptyString -> path_part p <> "/" -> path_part p <> "/predict" ->
  status (handle srv (mkRequest m p body)) = 404%Z.
Proof.
  intros H0 H1 H2. unfold handle, flask_dispatch. rewrite strip_for_head_status. simpl.
  unfold werkzeug_match. rewrite match_once_other_path by done.
  destruct (slash_required routes (path_part p) m) eqn:Es1.
  { by apply slash_required_routes, path_part_empty in Es1. }
  cbv zeta. destruct (slash_required routes (merge_slashes_once (path_part p)) m) eqn:Es2.
  { by apply slash_required_routes, merge_slashes_once_empty, path_part_empty in Es2. }
  rewrite match_once_other_path; [done| |];
    intros Hm; [apply H1 | apply H2]; rewrite <- Hm; symmetry;
    apply merge_route_path; rewrite Hm; auto.
Qed.

(** C9. werkzeug strips the leading slashes of a path before matching:
    two requests whose paths agree once their leading slashes are
    collapsed (["//predict"] and ["/predict"]) are answered alike. *)
Theorem handle_leading_slashes srv m p p' body :
  path_part p = path_part p' ->
  handle srv (mkRequest m p body) = handle srv (mkRequest m p' body).
Proof.
  intros Hp. unfold handle, flask_dispatch, werkzeug_match. cbn [req_path req_method].
  rewrite Hp. repeat case_match; reflexivity.
Qed.

(** ** Theorems: start-up *)

Definition launched_by_cli (env : string -> option string) : Prop :=
  env "FLASK_RUN_FROM_CLI" = Some "true".

Lemma startup_main m env p :
  load_model model_uri = Ok m -> port_of_env env = Ok p -> ~ launched_by_cli env ->
  startup true env = match bind_port p with
                     | Raise e => Crashed e
                     | Ok p' => Serving (mkServer m "0.0.0.0" p' true)
                     end.
Proof.
  intros Hl Hp Hcli. unfold startup. rewrite Hl, Hp. simpl.
  by rewrite bool_decide_eq_false_2.
Qed.

(** An unprivileged port a process may always bind. *)
Lemma bind_port_high p : (1024 <= p <= 65535)%Z -> bind_port p = Ok p.
Proof.
  intros Hp. pose proof os_unprivileged_start_range. unfold bind_port.
  rewrite (proj2 (Z.leb_le 0 p)), (proj2 (Z.leb_le p 65535)), (proj2 (Z.eqb_neq p 0)),
    (proj2 (Z.ltb_ge p _)) by lia. done.
Qed.

(** C10. With [PORT] unset the server listens on 0.0.0.0:8080 in debug
    mode, once the model has loaded. *)
Theorem startup_default_port m env :
  load_model model_uri = Ok m -> env "PORT" = None -> ~ launched_by_cli env ->
  startup true env = Serving (mkServer m "0.0.0.0" 8080 true).
Proof.
  intros Hl He Hcli. rewrite (startup_main m env 8080) by
    (try done; unfold port_of_env, environ_get_port; by rewrite He).
  by rewrite bind_port_high by lia.
Qed.

(** C11. [PORT] set to the decimal text of a port number [n] (what
    [str(n)] prints) is the port the server binds: it listens on [n]
    when the process may bind [n], on the kernel's ephemeral port when
    [n] is 0, and stops with exit status 1 (werkzeug's answer to the
    [PermissionError]) when [n] is below the unprivileged start and the
    process is not root. *)
Theorem startup_port_from_env m env n :
  load_model model_uri = Ok m -> env "PORT" = Some (py_str_of_Z n) ->
  (0 <= n <= 65535)%Z -> ~ launched_by_cli env ->
  startup true env =
    if (n =? 0)%Z then Serving (mkServer m "0.0.0.0" os_ephemeral true)
    else if (n <? os_unprivileged_start)%Z && negb os_root then Crashed (SystemExit 1)
    else Serving (mkServer m "0.0.0.0" n true).
Proof.
  intros Hl He Hn Hcli. rewrite (startup_main m env n); try done.
  - unfold bind_port. rewrite (proj2 (Z.leb_le 0 n)), (proj2 (Z.leb_le n 65535)) by lia.
    cbn [negb andb]. by destruct (n =? 0)%Z, ((n <? os_unprivileged_start)%Z && negb os_root).
  - unfold port_of_env, environ_get_port. rewrite He. simpl.
    apply py_int_of_str_of_Z. unfold max_str_digits.
    apply (Z.le_lt_trans _ 65535); [lia|]. apply (Z.lt_le_trans _ (10 ^ 5)); [lia|].
    apply Z.pow_le_mono_r; lia.
Qed.

(** Once the imports have run, the module is [startup]. *)
Lemma run_module_imports_ok installed as_main env u :
  py_mapM (exec_import installed) source_imports = Ok u ->
  run_module installed as_main env = startup as_main env.
Proof. unfold run_module. by intros ->. Qed.

(** With flask, pandas and os found and no [mlflow] package, line 4
    raises before the model is loaded. *)
Lemma run_module_no_mlflow installed names as_main env :
  installed "flask" = Some names -> "Flask" ∈ names -> "request" ∈ names ->
  installed "pandas" <> None -> installed "os" <> None -> installed "mlflow" = None ->
  run_module installed as_main env = Crashed (ModuleNotFoundError "No module named 'mlflow'").
Proof.
  intros Hf H1 H2 Hp Ho Hm. unfold run_module. cbn.
  unfold find_module. rewrite Hf. cbn.
  unfold from_name. rewrite !bool_decide_eq_true_2 by done. cbn.
  destruct (installed "pandas"); [|congruence]. destruct (installed "os"); [|congruence].
  cbn. by rewrite Hm.
Qed.

(** C12. Start-up stops with an exception and never serves: a package
    the imports of lines 1-4 need that is not installed stops the module
    at its import, before line 10 loads anything (for mlflow, a
    [ModuleNotFoundError]); after the imports, a model that does not load
    stops it at line 10 with that exception, and a [PORT] that [int()]
    refuses stops it at line 40. *)
Theorem startup_crashes installed env :
  (forall names, installed "flask" = Some names -> "Flask" ∈ names -> "request" ∈ names ->
     installed "pandas" <> None -> installed "os" <> None -> installed "mlflow" = None ->
     run_module installed true env = Crashed (ModuleNotFoundError "No module named 'mlflow'")) /\
  (forall u e, py_mapM (exec_import installed) source_imports = Ok u ->
     load_model model_uri = Raise e -> run_module installed true env = Crashed e) /\
  (forall u m e, py_mapM (exec_import installed) source_imports = Ok u ->
     load_model model_uri = Ok m -> port_of_env env = Raise e ->
     run_module installed true env = Crashed e).
Proof.
  split_and!; [intros names; apply run_module_no_mlflow| |];
    intros u *; intros Hi; rewrite (run_module_imports_ok _ _ _ u Hi); unfold startup.
  - intros Hl. by rewrite Hl.
  - intros Hl Hp. by rewrite Hl, Hp.
Qed.

End Service.

Arguments Server M : clear implicits.

(** ** The spec's example request

    Section 8 of the spec sends the two records [{"gre": 320, "gpa": 3.8}]
    and [{"gre": 300, "gpa": 3.2}] as JSON lines.  [spec_body_lines] is that
    body; [spec_body_string] is the body the code accepts: one JSON string
    whose text is those two lines. *)
Definition newline : string := String (Ascii.ascii_of_nat 10) EmptyString.
Definition quote : string := String (Ascii.ascii_of_nat 34) EmptyString.

Definition json_key (k : string) : string := quote ++ k ++ quote.

Definition spec_record_1 : string := "{" ++ json_key "gre" ++ ": 320, " ++ json_key "gpa" ++ ": 3.8}".
Definition spec_record_2 : string := "{" ++ json_key "gre" ++ ": 300, " ++ json_key "gpa" ++ ": 3.2}".

Definition spec_body_lines : string := spec_record_1 ++ newline ++ spec_record_2.

Definition spec_body_string : string := dumps_str spec_body_lines.

(** ** The deployed libraries

    CPython's [json] with the interpreter's default recursion limit
    (1000), and the reference pandas with ujson's nesting limit (1024) on
    a server where no file or URL is named by a request body.  The shapes
    of [read_json] the service never reaches with [lines=True] and a list
    of records raise. *)
Definition json_stdlib : JsonLoads := cpython_json 1000.

Definition no_files : string -> option string := fun _ => None.
Definition frame_not_modelled (l : list PyObj) : PyResult DataFrame :=
  Raise (ValueError "DataFrame constructor not properly called!").
Definition text_not_modelled (t : string) : PyResult DataFrame :=
  Raise (ValueError "Expected object or value").

Definition pandas_lines : ReadJson :=
  pandas_reference no_files 1024 frame_not_modelled text_not_modelled (fun c => c)
    ltac:(discriminate) ltac:(intros l e [= <-]; done) ltac:(discriminate)
    ltac:(intros l e [= <-]; done) ltac:(done).

(** ** Witnesses: the theorems at the deployed configuration

    A model with the service's signature whose estimator returns the
    [gpa] feature, stored under [model_uri], and a model without a
    signature. *)
#[local] Existing Instances json_stdlib pandas_lines.

(** A Linux host with the default settings, the server run by a user. *)
Definition linux_user : SocketOS :=
  {| os_root := false; os_unprivileged_start := 1024; os_ephemeral := 40000;
     os_unprivileged_start_range := ltac:(lia); os_ephemeral_range := ltac:(lia) |}.
#[local] Existing Instance linux_user.

Definition second_feature (row : list (PyObj * PyObj)) : PyObj :=
  match row with _ :: (_, v) :: _ => v | _ => PNone end.

Definition model_gpa : PyfuncModel := mkPyfunc (Some df_schema) second_feature.
Definition srv_gpa : Server PyfuncModel := mkServer model_gpa "0.0.0.0" 8080 true.

Definition stored_models (uri : string) : option PyfuncModel :=
  if String.eqb uri model_uri then Some model_gpa else None.
#[local] Instance stored_loader : ModelLoader PyfuncModel := pyfunc_loader stored_models.

Definition spec_frame : DataFrame :=
  mkFrame 2 [mkColumn (PStr "gre") DFloat64 [PFloat (FDec false 320 0); PFloat (FDec false 300 0)];
             mkColumn (PStr "gpa") DFloat64 [PFloat (FDec false 38 (-1)); PFloat (FDec false 32 (-1))]].
Definition spec_gpas : list PyObj := [PFloat (FDec false 38 (-1)); PFloat (FDec false 32 (-1))].

Definition bad_record : string := "{" ++ json_key "gre" ++ ": " ++ json_key "abc" ++ ", " ++ json_key "gpa" ++ ": 3.8}".

Definition env_with (k v : string) : string -> option string :=
  fun k' => if String.eqb k' k then Some v else None.
Definition env_empty : string -> option string := fun _ => None.

(** The packages the service needs, installed. *)
Definition site_packages (m : string) : option (list string) :=
  if String.eqb m "flask" then Some ["Flask"; "request"]
  else if bool_decide (m ∈ ["pandas"; "os"; "mlflow"; "mlflow.pyfunc"]) then Some []
  else None.

Lemma predict_success_witness :
  json_loads spec_body_string = Ok (PStr spec_body_lines) /\
  read_json (PStr spec_body_lines) true df_schema = Ok spec_frame /\
  predict model_gpa spec_frame = Ok (NdArray spec_gpas) /\
  tolist (NdArray spec_gpas) = Ok (PList spec_gpas) /\
  handle srv_gpa (predict_req spec_body_string) =
    mkResponse 200 (BJson (PDict [("predictions", PList spec_gpas)])) [].
Proof.
  split_and!; [vm_compute; reflexivity ..|].
  apply (predict_success srv_gpa _ (PStr spec_body_lines) spec_frame (NdArray spec_gpas));
    vm_compute; reflexivity.
Defined.

Lemma predict_bad_body_400_witness :
  json_loads spec_body_lines = Raise (JSONDecodeError "Extra data") /\
  is_value_error (JSONDecodeError "Extra data") = true /\
  handle srv_gpa (predict_req spec_body_lines) = error_response 400.
Proof.
  split_and!; [vm_compute; reflexivity ..|].
  apply (predict_bad_body_400 srv_gpa _ (JSONDecodeError "Extra data")); vm_compute; reflexivity.
Defined.

Lemma predict_failure_after_json_500_witness :
  json_loads (dumps_str bad_record) = Ok (PStr bad_record) /\
  is_ok (make_predictions model_gpa (predict_req (dumps_str bad_record))) = false /\
  exists e, make_predictions model_gpa (predict_req (dumps_str bad_record)) = Raise e /\
    handle srv_gpa (predict_req (dumps_str bad_record)) = server_error true e.
Proof.
  split_and!; [vm_compute; reflexivity ..|].
  apply (predict_failure_after_json_500 srv_gpa _ (PStr bad_record)); vm_compute; reflexivity.
Defined.

Lemma predict_json_not_string_500_witness :
  json_loads "[1]" = Ok (PList [PInt 1]) /\ (forall s, PList [PInt 1] <> PStr s) /\
  exists msg, handle srv_gpa (predict_req "[1]") = server_error true (ValueError msg).
Proof.
  split_and!; [vm_compute; reflexivity | discriminate |].
  apply (predict_json_not_string_500 srv_gpa _ (PList [PInt 1])); [vm_compute; reflexivity | discriminate].
Defined.

Lemma predict_wrong_method_405_witness :
  GET <> POST /\ GET <> OPTIONS /\
  handle srv_gpa (mkRequest GET "/predict" "") =
    strip_for_head GET (mkResponse 405 (BErrorPage 405) [POST; OPTIONS]).
Proof.
  split_and!; [discriminate ..|].
  apply predict_wrong_method_405; discriminate.
Defined.

Lemma handle_unknown_path_404_witness :
  path_part "/models" <> "/" /\ path_part "/models" <> "/predict" /\
  status (handle srv_gpa (mkRequest GET "/models" "")) = 404%Z.
Proof.
  split_and!; [vm_compute; discriminate ..|].
  apply handle_unknown_path_404; vm_compute; discriminate.
Defined.

Lemma handle_leading_slashes_witness :
  path_part "///predict" = path_part "/predict" /\
  handle srv_gpa (mkRequest POST "///predict" spec_body_string) =
    handle srv_gpa (mkRequest POST "/predict" spec_body_string).
Proof.
  split; [reflexivity|]. apply handle_leading_slashes. reflexivity.
Defined.

Lemma startup_default_port_witness :
  load_model model_uri = Ok model_gpa /\ env_empty "PORT" = None /\ ~ launched_by_cli env_empty /\
  startup true env_empty = Serving srv_gpa.
Proof.
  assert (Hl : load_model model_uri = Ok model_gpa) by reflexivity.
  assert (Hc : ~ launched_by_cli env_empty) by discriminate.
  split_and!; [done ..|].
  apply (startup_default_port model_gpa env_empty Hl); [reflexivity | exact Hc].
Defined.

Lemma startup_port_from_env_witness :
  load_model model_uri = Ok model_gpa /\ env_with "PORT" "5000" "PORT" = Some (py_str_of_Z 5000) /\
  (0 <= 5000 <= 65535)%Z /\ ~ launched_by_cli (env_with "PORT" "5000") /\
  startup true (env_with "PORT" "5000") = Serving (mkServer model_gpa "0.0.0.0" 5000 true) /\
  startup true (env_with "PORT" "80") = Crashed (SystemExit 1).
Proof.
  assert (Hl : load_model model_uri = Ok model_gpa) by reflexivity.
  assert (Hc : ~ launched_by_cli (env_with "PORT" "5000")) by discriminate.
  assert (Hc' : ~ launched_by_cli (env_with "PORT" "80")) by discriminate.
  assert (He : env_with "PORT" "5000" "PORT" = Some (py_str_of_Z 5000)) by (vm_compute; reflexivity).
  assert (He' : env_with "PORT" "80" "PORT" = Some (py_str_of_Z 80)) by (vm_compute; reflexivity).
  split_and!; [done | done | lia | lia | done | |].
  - rewrite (startup_port_from_env model_gpa _ 5000 Hl He); [reflexivity | lia | exact Hc].
  - rewrite (startup_port_from_env model_gpa _ 80 Hl He'); [reflexivity | lia | exact Hc'].
Defined.

Definition no_mlflow (m : string) : option (list string) :=
  if String.prefix "mlflow" m then None else site_packages m.

Lemma startup_crashes_witness :
  run_module no_mlflow true env_empty = Crashed (ModuleNotFoundError "No module named 'mlflow'") /\
  (exists e, load_model (ModelLoader := pyfunc_loader (fun _ => None)) model_uri = Raise e /\
     run_module (ML := pyfunc_loader (fun _ => None)) site_packages true env_empty = Crashed e) /\
  (exists e, port_of_env (env_with "PORT" "http") = Raise e /\
     run_module site_packages true (env_with "PORT" "http") = Crashed e).
Proof.
  split_and!; [|eexists; split; [reflexivity|] ..].
  - apply (proj1 (startup_crashes no_mlflow env_empty) ["Flask"; "request"]);
      [reflexivity | by left | by right; left | discriminate ..| reflexivity].
  - apply (proj1 (proj2 (startup_crashes (ML := pyfunc_loader (fun _ => None)) site_packages env_empty))
             [tt; tt; tt; tt]); reflexivity.
  - apply (proj2 (proj2 (startup_crashes site_packages (env_with "PORT" "http"))) [tt; tt; tt; tt] model_gpa);
      [reflexivity | reflexivity |]. vm_compute. reflexivity.
Defined.
