(* ===== verification/Debugger.v ===== *)
(** * werkzeug's debugger around the served app ([debug=True], line 39)

    [api.run(debug=True)] sets [app.debug] and passes [use_debugger=True]
    and [use_evalex=True] to werkzeug's [run_simple], which wraps the
    Flask app in [DebuggedApplication(app, evalex=True)] (werkzeug 3.0.3
    and later, the releases with the trusted-host check).  What
    [DebuggedApplication.__call__] does with a request:
    - a request with [__debugger__=yes] in its query string is a command
      of the debugger (resources, PIN authentication, code execution);
      query strings are not part of [Request] and these commands are not
      modelled;
    - a request whose [request.path] is [/console] is answered by
      [display_console]: the console page when [check_host_trust] accepts
      the [Host] header, [SecurityError] (400) otherwise ([debugged_app]);
    - any other request goes to the app; an exception the app lets out,
      which Flask does in debug mode, becomes the 500 traceback page of
      [debug_application] ([Flask.server_error]).
    [check_host_trust] is [host_is_trusted(environ.get("HTTP_HOST"),
    [".localhost", "127.0.0.1", hostname])], [hostname] being the host
    the server was started on ([run_simple] appends it): the part of the
    header before the first colon, through the [idna] codec, must be
    [127.0.0.1], [localhost], end with [.localhost], or be that host
    ([host_is_trusted]).  The
    header is written by the client.  [serve] is the process started as a
    script: the debugger around [Inference.handle] when [debug] is set.

    The [Host] header is the latin-1 text of its bytes, one [ascii] per
    byte.  Python's [idna] codec keeps a name of ASCII characters as it is
    and refuses it when a label other than the last is empty or a label
    has 64 characters or more ([idna_ascii]); names with other characters
    go through nameprep and punycode, which is the section parameter
    [idna_other].  A refused name counts as untrusted, as werkzeug's
    [except UnicodeEncodeError] makes it on Python releases whose codec
    raises that class. *)

From Stdlib Require Import Ascii String ZArith Lia.
From S2P Require Import Prelude PyData Libs Flask Json JsonText Pandas Mlflow Inference.

Open Scope string_scope.

(** ** The [Host] check *)

(** [s.partition(":")[0]] *)
Fixpoint partition_colon (s : string) : string :=
  match s with
  | EmptyString => EmptyString
  | String ":" _ => EmptyString
  | String c s' => String c (partition_colon s')
  end.

Definition is_ascii_text (s : string) : bool :=
  forallb (fun c => (nat_of_ascii c <? 128)%nat) (list_ascii_of_string s).

(** The ASCII fast path of [encodings.idna.Codec.encode]. *)
Definition idna_ascii (s : string) : option string :=
  let labels := split_dots s in
  if forallb (fun l => (0 <? String.length l)%nat && (String.length l <? 64)%nat) (List.removelast labels)
     && (String.length (List.last labels EmptyString) <? 64)%nat
  then Some s else None.

Section Debugger.
Context {M : Type} {JL : JsonLoads} {RJ : ReadJson} {PM : PyFuncModel M} {ML : ModelLoader M}.
Context {SO : SocketOS}.

(** [str.encode("idna")] on a name with a non-ASCII character. *)
Variable idna_other : string -> option string.

Definition idna_encode (s : string) : option string :=
  if is_ascii_text s then idna_ascii s else idna_other s.

(** [DebuggedApplication.trusted_hosts], to which [run_simple] appends
    the host name the server was started on
    ([application.trusted_hosts.append(hostname)]). *)
Definition trusted_hosts (hostname : string) : list string := [".localhost"; "127.0.0.1"; hostname].

(** One reference of the loop of [host_is_trusted]: [None] when its
    name is refused by the codec (the function returns [False]). *)
Definition ref_matches (hostname ref : string) : option bool :=
  let '(name, suffix_match) :=
    match ref with
    | String "." r => (r, true)
    | _ => (ref, false)
    end in
  match idna_encode (partition_colon name) with
  | None => None
  | Some r =>
      Some (String.eqb r hostname
            || suffix_match && ends_with (list_ascii_of_string (String "." r))
                                         (list_ascii_of_string hostname))
  end.

Fixpoint trusted_loop (hostname : string) (refs : list string) : bool :=
  match refs with
  | [] => false
  | ref :: refs' =>
      match ref_matches hostname ref with
      | None => false
      | Some true => true
      | Some false => trusted_loop hostname refs'
      end
  end.

(** [werkzeug.sansio.utils.host_is_trusted(host, trusted_hosts)] for a
    server started on [run_host]. *)
Definition host_is_trusted (run_host : string) (host : option string) : bool :=
  match host with
  | None | Some EmptyString => false
  | Some h =>
      match idna_encode (partition_colon h) with
      | None => false
      | Some hostname => trusted_loop hostname (trusted_hosts run_host)
      end
  end.

(** ** The wrapper *)

(** [DebuggedApplication.console_path] *)
Definition console_path : string := "/console".

(** [request.path]: PATH_INFO with its leading slashes replaced by one. *)
Definition request_path (path_info : string) : string := String "/" (lstrip_slash path_info).

(** [display_console]: the console page, or [SecurityError] (400) for an
    untrusted host. *)
Definition display_console (run_host : string) (host : option string) : Response :=
  if host_is_trusted run_host host then mkResponse 200 BConsole [] else error_response 400.

(** [DebuggedApplication.__call__] around the served app, for a request
    without [__debugger__] in its query string.  A HEAD response has no
    body ([Response.get_app_iter]). *)
Definition debugged_app (srv : Server M) (host : option string) (req : Request) : Response :=
  if bool_decide (request_path (req_path req) = console_path)
  then strip_for_head (req_method req) (display_console (srv_host srv) host)
  else handle srv req.

(** The process of [api.run]: the debugger is there when [debug] is. *)
Definition serve (srv : Server M) (host : option string) (req : Request) : Response :=
  if srv_debug srv then debugged_app srv host req else handle srv req.

(** The names [host_is_trusted] accepts on a server started on
    0.0.0.0, said directly: [localhost], [127.0.0.1], a name ending in
    [.localhost], or [0.0.0.0]. *)
Definition local_name (n : string) : bool :=
  String.eqb n "localhost" || String.eqb n "127.0.0.1"
  || ends_with (list_ascii_of_string ".localhost") (list_ascii_of_string n)
  || String.eqb n "0.0.0.0".

(** ** Lemmas *)

(** The process [startup] leaves serving has [debug] set. *)
Lemma startup_serving_debug env srv : startup true env = Serving srv -> srv_debug srv = true.
Proof.
  unfold startup.
  destruct (load_model model_uri) as [m|e]; [|discriminate]. cbn [negb].
  destruct (port_of_env env) as [p|e]; [|discriminate].
  case_bool_decide; [discriminate|].
  destruct (bind_port p) as [p'|e]; [|discriminate]. by intros [= <-].
Qed.

(** Away from [/console] the wrapper is the app. *)
Lemma serve_app srv host req :
  request_path (req_path req) <> console_path -> serve srv host req = handle srv req.
Proof.
  intros Hp. unfold serve, debugged_app. rewrite bool_decide_eq_false_2 by done.
  by destruct (srv_debug srv).
Qed.

Lemma serve_console srv host req :
  srv_debug srv = true -> request_path (req_path req) = console_path ->
  serve srv host req = strip_for_head (req_method req) (display_console (srv_host srv) host).
Proof.
  intros Hd Hp. unfold serve, debugged_app. rewrite Hd. by rewrite bool_decide_eq_true_2.
Qed.

Lemma idna_encode_ascii n :
  is_ascii_text n = true -> idna_ascii n = Some n -> idna_encode n = Some n.
Proof. unfold idna_encode. by intros -> ->. Qed.

(** On an ASCII name the codec keeps, werkzeug's loop over the trusted
    hosts of a server started on 0.0.0.0 is [local_name]. *)
Lemma host_is_trusted_local h :
  is_ascii_text (partition_colon h) = true ->
  idna_ascii (partition_colon h) = Some (partition_colon h) ->
  host_is_trusted "0.0.0.0" (Some h) = local_name (partition_colon h).
Proof.
  intros Ha Hi. unfold host_is_trusted.
  assert (Hh : match h with EmptyString => false | _ =>
                 match idna_encode (partition_colon h) with
                 | None => false | Some n => trusted_loop n (trusted_hosts "0.0.0.0") end end =
               trusted_loop (partition_colon h) (trusted_hosts "0.0.0.0")).
  { rewrite (idna_encode_ascii _ Ha Hi). by destruct h. }
  destruct h as [|c h]; [reflexivity|]. rewrite Hh.
  unfold local_name. set (n := partition_colon (String c h)).
  cbn [trusted_loop trusted_hosts]. unfold ref_matches.
  change (idna_encode (partition_colon "localhost")) with (Some "localhost").
  change (idna_encode (partition_colon "127.0.0.1")) with (Some "127.0.0.1").
  change (idna_encode (partition_colon "0.0.0.0")) with (Some "0.0.0.0").
  cbv iota beta. rewrite (String.eqb_sym "localhost" n), (String.eqb_sym "127.0.0.1" n),
    (String.eqb_sym "0.0.0.0" n).
  destruct (String.eqb n "localhost"), (ends_with _ _), (String.eqb n "127.0.0.1"),
    (String.eqb n "0.0.0.0"); reflexivity.
Qed.

(** The process [startup] leaves serving listens on 0.0.0.0. *)
Lemma startup_serving_host env srv : startup true env = Serving srv -> srv_host srv = "0.0.0.0".
Proof.
  unfold startup.
  destruct (load_model model_uri) as [m|e]; [|discriminate]. cbn [negb].
  destruct (port_of_env env) as [p|e]; [|discriminate].
  case_bool_decide; [discriminate|].
  destruct (bind_port p) as [p'|e]; [|discriminate]. by intros [= <-].
Qed.

(** ** Theorems *)

(** C27. The process started as a script ([debug=True]) answers a
    request to [/predict] whose body is valid JSON and whose view then
    raises [e] (pandas, the signature check, the model or [tolist]) with
    500 and the debugger's traceback page of [e], for every client and
    every [Host] header: the exception and the code around it reach the
    client. *)
Theorem served_failure_traceback env srv host body v e :
  startup true env = Serving srv ->
  json_loads body = Ok v ->
  make_predictions (srv_model srv) (predict_req body) = Raise e ->
  serve srv host (predict_req body) = mkResponse 500 (BTraceback e) [].
Proof.
  intros Hs Hj Hm. rewrite serve_app by discriminate.
  rewrite (handle_predict_not_http _ _ e Hm) by (eapply make_predictions_raise_after_json; eauto).
  by rewrite (startup_serving_debug _ _ Hs).
Qed.

(** C28. On the process started as a script, a request of any method
    whose path is [/console] once its leading slashes are collapsed is
    answered by the debugger's console page exactly when the name part
    of its [Host] header is [localhost], [127.0.0.1], ends with
    [.localhost], or is [0.0.0.0], the host [run_simple] adds to the
    trusted ones (any port), and with 400 otherwise, for ASCII names the
    [idna] codec accepts.  The header is the client's: a client of the
    0.0.0.0 socket that sends [Host: localhost] gets the console. *)
Theorem console_host_check env srv h m p b :
  startup true env = Serving srv ->
  request_path p = console_path ->
  is_ascii_text (partition_colon h) = true ->
  idna_ascii (partition_colon h) = Some (partition_colon h) ->
  serve srv (Some h) (mkRequest m p b) =
  strip_for_head m (if local_name (partition_colon h) then mkResponse 200 BConsole []
                    else error_response 400).
Proof.
  intros Hs Hp Ha Hi. rewrite serve_console by (done || by apply (startup_serving_debug env)).
  unfold display_console. by rewrite (startup_serving_host env srv Hs), host_is_trusted_local.
Qed.

End Debugger.

(** ** Witnesses

    The server of [Inference]'s examples, started with [PORT] unset, and
    a codec that refuses every non-ASCII name. *)
#[local] Existing Instances json_stdlib pandas_lines stored_loader linux_user.

Definition no_idna : string -> option string := fun _ => None.

Lemma served_failure_traceback_witness :
  startup true env_empty = Serving srv_gpa /\
  json_loads (dumps_str bad_record) = Ok (PStr bad_record) /\
  make_predictions model_gpa (predict_req (dumps_str bad_record)) =
    Raise (MlflowIncompatibleInput "gre" "object" "float64" false) /\
  serve no_idna srv_gpa (Some "203.0.113.7:8080") (predict_req (dumps_str bad_record)) =
    mkResponse 500 (BTraceback (MlflowIncompatibleInput "gre" "object" "float64" false)) [].
Proof.
  split_and!; [vm_compute; reflexivity .. |].
  apply (served_failure_traceback no_idna env_empty srv_gpa _ _ (PStr bad_record));
    vm_compute; reflexivity.
Defined.

Lemma console_host_check_witness :
  startup true env_empty = Serving srv_gpa /\
  request_path "//console" = console_path /\
  is_ascii_text (partition_colon "localhost:8080") = true /\
  idna_ascii (partition_colon "localhost:8080") = Some (partition_colon "localhost:8080") /\
  serve no_idna srv_gpa (Some "localhost:8080") (mkRequest POST "//console" "") =
    mkResponse 200 BConsole [].
Proof.
  split_and!; [vm_compute; reflexivity .. |].
  apply (console_host_check no_idna env_empty srv_gpa "localhost:8080" POST "//console" "");
    vm_compute; reflexivity.
Defined.
