(* ===== verification/Reloader.v ===== *)
(** * werkzeug's reloader ([debug=True], line 39)

    [api.run(debug=True)] passes [use_reloader=True] to [run_simple], and
    the script becomes a tree of processes:
    - the parent runs the module (the imports of lines 1-4, then line 10
      loads the model), line 40, and
      [run_simple], which binds the socket ([make_server]), puts its file
      descriptor in [WERKZEUG_SERVER_FD], and calls [run_with_reloader];
      not being a child, it runs [restart_with_reloader]: start the script
      again with [WERKZEUG_RUN_MAIN=true], wait for it, and start it again
      while its exit code is 3, returning any other code ([launch],
      [rstep]);
    - each child runs the module again (the imports, and line 10 loads
      the model anew),
      line 40 and [run_simple], which takes the parent's socket instead of
      binding; it serves in a thread while the reloader loop watches the
      source files, and exits with code 3 when one changes
      ([trigger_reload]).  An exception at import ends it with code 1
      ([child_start]).
    Import [0] is the parent's and import [k + 1] child [k]'s; the
    artefact under [./best_estimator] can change between two imports, so
    each import has its own [ModelLoader] ([loader_at]).  [supervise] runs
    the loop for a given number of file changes.  Signals and Ctrl-C,
    which end both processes, are not modelled. *)

From Stdlib Require Import Ascii String ZArith Lia.
From stdpp Require Import base relations.
From S2P Require Import Prelude PyData Libs Flask Json Pandas Mlflow Inference.

Open Scope string_scope.
Local Open Scope nat_scope.

Section Reloader.
Context {M : Type} {JL : JsonLoads} {RJ : ReadJson} {PM : PyFuncModel M} {SO : SocketOS}.

(** The model loader import [k] of the module sees. *)
Variable loader_at : nat -> ModelLoader M.
(** The modules the interpreter finds, and the environment the script is
    started in; children inherit both. *)
Variable installed : string -> option (list string).
Variable env : string -> option string.

(** The process tree: the parent about to start child [k], child [k]
    serving while the parent waits, or the script ended with a code. *)
Inductive Proc : Type :=
| Spawning (parent : Server M) (k : nat)
| Running (parent : Server M) (k : nat) (child : Server M)
| Exited (code : Z).

(** [python inference.py]: the parent.  An uncaught exception ends the
    script with code 1; [app.run] returning under the [flask] command
    line ends it with 0. *)
Definition launch : Proc :=
  match run_module (ML := loader_at 0) installed true env with
  | Serving srv => Spawning srv 0
  | ImportedOnly _ => Exited 0
  | Crashed _ => Exited 1
  end.

(** Child [k], up to the point where it serves on the parent's socket. *)
Definition child_start (parent : Server M) (k : nat) : Proc :=
  match py_mapM (exec_import installed) source_imports with
  | Raise _ => Exited 1
  | Ok _ =>
      match load_model (ModelLoader := loader_at (S k)) model_uri with
      | Raise _ => Exited 1
      | Ok m =>
          match port_of_env env with
          | Raise _ => Exited 1
          | Ok _ =>
              if bool_decide (env "FLASK_RUN_FROM_CLI" = Some "true") then Exited 0
              else Running parent k (mkServer m (srv_host parent) (srv_port parent) true)
          end
      end
  end.

(** [restart_with_reloader]: the parent starts child [k]; a serving child
    exits with 3 when a watched file changes, and the parent starts the
    next one. *)
Inductive rstep : Proc -> Proc -> Prop :=
| rstep_spawn parent k : rstep (Spawning parent k) (child_start parent k)
| rstep_reload parent k child : rstep (Running parent k child) (Spawning parent (S k)).

(** The loop for [changes] file changes, from child [k] on. *)
Fixpoint supervise (parent : Server M) (k changes : nat) : Proc :=
  match child_start parent k with
  | Running _ _ _ as p =>
      match changes with
      | O => p
      | S c => supervise parent (S k) c
      end
  | p => p
  end.

(** The script after [changes] file changes. *)
Definition run_script (changes : nat) : Proc :=
  match launch with
  | Spawning parent k => supervise parent k changes
  | p => p
  end.

(** Child [k] of [parent] serves on the parent's socket, in debug mode,
    with the model its own import loaded. *)
Definition child_of (parent : Server M) (k : nat) (child : Server M) : Prop :=
  load_model (ModelLoader := loader_at (S k)) model_uri = Ok (srv_model child) /\
  srv_host child = srv_host parent /\ srv_port child = srv_port parent /\
  srv_debug child = true.

(** What holds of every state of the tree started by [launch]. *)
Definition proc_inv (p : Proc) : Prop :=
  match p with
  | Spawning parent _ => run_module (ML := loader_at 0) installed true env = Serving parent
  | Running parent k child =>
      run_module (ML := loader_at 0) installed true env = Serving parent /\ child_of parent k child
  | Exited code => code = 0%Z \/ code = 1%Z
  end.

(** Child [k + j] is the first whose start fails or all of children [k]
    to [k + c] serve. *)
Definition starts (parent : Server M) (k : nat) : Prop :=
  exists child, child_start parent k = Running parent k child.

(** ** Lemmas *)

Lemma child_start_cases parent k :
  (exists child, child_start parent k = Running parent k child /\ child_of parent k child) \/
  child_start parent k = Exited 0 \/ child_start parent k = Exited 1.
Proof.
  unfold child_start.
  destruct (py_mapM _ source_imports); [|by right; right].
  destruct (load_model model_uri) as [m|e] eqn:Hl; [|by right; right].
  destruct (port_of_env env) as [q|e]; [|by right; right].
  case_bool_decide; [by right; left|].
  left. eexists. split; [reflexivity|]. by repeat split.
Qed.

Lemma child_start_inv parent k :
  run_module (ML := loader_at 0) installed true env = Serving parent -> proc_inv (child_start parent k).
Proof.
  intros Hs. destruct (child_start_cases parent k) as [(child & -> & Hc) | [-> | ->]]; simpl; auto.
Qed.

Lemma rstep_inv p q : proc_inv p -> rstep p q -> proc_inv q.
Proof.
  intros Hp Hs. destruct Hs as [parent k|parent k child]; cbn [proc_inv] in Hp |- *.
  - by apply child_start_inv.
  - by destruct Hp.
Qed.

Lemma launch_inv : proc_inv launch.
Proof. unfold launch. destruct (run_module (ML := loader_at 0) installed true env) eqn:E; cbn [proc_inv]; auto. Qed.

(** The tree does one thing at a time. *)
Lemma rstep_det p q q' : rstep p q -> rstep p q' -> q = q'.
Proof. intros [] H; by inversion H. Qed.

Lemma exited_final code q : ~ rstep (Exited code) q.
Proof. inversion 1. Qed.

(** The loop is a run of [rstep]. *)
Lemma supervise_rtc parent k c : rtc rstep (Spawning parent k) (supervise parent k c).
Proof.
  revert k. induction c as [|c IH]; intros k; simpl;
    destruct (child_start parent k) as [? ?|? ? ?|?] eqn:E;
    try (apply rtc_once; rewrite <- E; constructor).
  eapply rtc_l; [constructor|]. rewrite E. eapply rtc_l; [|apply IH].
  pose proof (child_start_cases parent k) as [(ch & Hc & _) | [Hc | Hc]]; rewrite E in Hc;
    try discriminate. injection Hc as -> -> ->. constructor.
Qed.

Lemma child_start_not_running parent k :
  ~ starts parent k -> forall q k' c, child_start parent k <> Running q k' c.
Proof.
  intros Hn q k' c Hc. apply Hn.
  destruct (child_start_cases parent k) as [(ch & Hc' & _) | [Hc' | Hc']]; rewrite Hc' in Hc;
    try discriminate. by exists ch.
Qed.

(** While children [k] to [k + c] all start, the loop ends with child
    [k + c] serving. *)
Lemma supervise_all parent k c :
  (forall j, j <= c -> starts parent (k + j))%nat ->
  exists child, supervise parent k c = Running parent (k + c) child /\ child_of parent (k + c) child.
Proof.
  revert k. induction c as [|c IH]; intros k Hall.
  - destruct (child_start_cases parent k) as [(ch & Hc & Hch) | [Hc | Hc]];
      [| exfalso; destruct (Hall 0 ltac:(lia)) as [? H]; rewrite Nat.add_0_r in H; congruence ..].
    exists ch. rewrite Nat.add_0_r. simpl. by rewrite Hc.
  - destruct (Hall 0 ltac:(lia)) as [ch Hc]. rewrite Nat.add_0_r in Hc.
    destruct (IH (S k)) as (ch' & Hs & Hch'); [intros j Hj; replace (S k + j) with (k + S j) by lia; apply Hall; lia|].
    exists ch'. simpl. rewrite Hc, Hs. by replace (S k + c) with (k + S c) in * by lia.
Qed.

(** The first child that does not start ends the loop with its own
    outcome, whatever the later changes. *)
Lemma supervise_first_failure parent k c j :
  (forall i, i < j -> starts parent (k + i))%nat -> (j <= c)%nat -> ~ starts parent (k + j) ->
  supervise parent k c = child_start parent (k + j).
Proof.
  revert k c. induction j as [|j IH]; intros k c Hbefore Hj Hn.
  - rewrite Nat.add_0_r in Hn |- *. destruct c; simpl;
      destruct (child_start parent k) eqn:E; try done;
      exfalso; by eapply child_start_not_running.
  - destruct c as [|c]; [lia|]. destruct (Hbefore 0 ltac:(lia)) as [ch Hc].
    rewrite Nat.add_0_r in Hc. simpl. rewrite Hc.
    replace (k + S j) with (S k + j) in * by lia. apply IH; [|lia|done].
    intros i Hi. replace (S k + i) with (k + S i) by lia. apply Hbefore. lia.
Qed.

Lemma child_start_load_fail parent k :
  is_ok (load_model (ModelLoader := loader_at (S k)) model_uri) = false ->
  child_start parent k = Exited 1.
Proof. unfold child_start. destruct (py_mapM _ source_imports); [|done]. by destruct (load_model model_uri). Qed.

Lemma launch_serving parent :
  run_module (ML := loader_at 0) installed true env = Serving parent -> launch = Spawning parent 0.
Proof. unfold launch. by intros ->. Qed.

(** Whether import [j] of the module loads the model. *)
Definition loads (j : nat) : bool := is_ok (load_model (ModelLoader := loader_at j) model_uri).

(** A parent that serves read its port and was not started by the
    [flask] command line; its children see the same environment. *)
Lemma startup_serving_env parent :
  run_module (ML := loader_at 0) installed true env = Serving parent ->
  (exists u, py_mapM (exec_import installed) source_imports = Ok u) /\
  (exists q, port_of_env env = Ok q) /\ env "FLASK_RUN_FROM_CLI" <> Some "true".
Proof.
  unfold run_module, startup.
  destruct (py_mapM _ source_imports) as [u|e]; [|discriminate].
  destruct (load_model model_uri); [|discriminate]. cbn [negb].
  destruct (port_of_env env) as [q|e]; [|discriminate].
  case_bool_decide; [discriminate|]. eauto.
Qed.

Lemma loads_starts parent j :
  run_module (ML := loader_at 0) installed true env = Serving parent -> loads (S j) = true -> starts parent j.
Proof.
  intros Hs Hl. destruct (startup_serving_env _ Hs) as ([u Hu] & [q Hq] & Hcli).
  unfold starts, child_start. unfold loads in Hl. rewrite Hu.
  destruct (load_model model_uri) as [m|e]; [|discriminate].
  rewrite Hq, bool_decide_eq_false_2 by done. eauto.
Qed.

(** [run_script] is a run of the relation. *)
Lemma run_script_rtc c : rtc rstep launch (run_script c).
Proof. unfold run_script. destruct launch; [apply supervise_rtc | apply rtc_refl ..]. Qed.

Lemma rtc_inv p q : rtc rstep p q -> proc_inv p -> proc_inv q.
Proof. induction 1; eauto using rstep_inv. Qed.

(** ** Theorems *)

(** C13. Every state of the process tree the script starts is one of:
    the parent, which loaded the model at its own import and bound the
    socket, about to start a child; child [k] serving on the parent's
    socket (same host and port), in debug mode, with the model its own
    import [k + 1] loaded, while the parent still holds the model of
    import 0; or the script ended with code 0 or 1.  While a child serves,
    two loaded models are resident, not the spec's single instance. *)
Theorem reloader_invariant p : rtc rstep launch p -> proc_inv p.
Proof. intros Hr. exact (rtc_inv _ _ Hr launch_inv). Qed.

(** C15. After [c] changes of the watched files, a script whose parent
    serves has child [c] serving, with the model of import [c + 1], when
    every import up to [c + 1] loads the model; when import [j + 1]
    ([j <= c]) is the first that does not, the whole script has ended
    with code 1 and later changes start nothing: the reloader does not
    retry.  Either state is one [rstep] reaches. *)
Theorem run_script_reloads parent c :
  run_module (ML := loader_at 0) installed true env = Serving parent ->
  rtc rstep launch (run_script c) /\
  ((forall j, j <= c -> loads (S j) = true) ->
     exists child, run_script c = Running parent c child /\ child_of parent c child) /\
  (forall j, j <= c -> (forall i, i < j -> loads (S i) = true) -> loads (S j) = false ->
     run_script c = Exited 1).
Proof.
  intros Hs. unfold run_script. rewrite (launch_serving _ Hs).
  split_and!; [apply supervise_rtc | |].
  - intros Hall. apply (supervise_all parent 0 c).
    intros j Hj. by apply (loads_starts parent j Hs), Hall.
  - intros j Hj Hbefore Hf. rewrite (supervise_first_failure parent 0 c j).
    + by apply child_start_load_fail.
    + intros i Hi. by apply (loads_starts parent i Hs), Hbefore.
    + done.
    + intros [ch Hc]. cbn [Nat.add] in Hc. by rewrite (child_start_load_fail parent j Hf) in Hc.
Qed.

End Reloader.

(** ** Witnesses

    Each import loads a model retrained in between: import [k] predicts
    [k] for every row.  [fails_after n] loses the artefact after import
    [n]. *)
#[local] Existing Instances json_stdlib pandas_lines linux_user.

Definition retrained_model (k : nat) : PyfuncModel :=
  mkPyfunc (Some df_schema) (fun _ => PInt (Z.of_nat k)).

Definition retrained (k : nat) : ModelLoader PyfuncModel :=
  pyfunc_loader (fun uri => if String.eqb uri model_uri then Some (retrained_model k) else None).

Definition fails_after (n k : nat) : ModelLoader PyfuncModel :=
  if (k <=? n)%nat then retrained k else pyfunc_loader (fun _ => None).

Definition first_parent : Server PyfuncModel := mkServer (retrained_model 0) "0.0.0.0" 8080 true.

Lemma reloader_invariant_witness :
  rtc (rstep retrained site_packages env_empty) (launch retrained site_packages env_empty) (run_script retrained site_packages env_empty 2) /\
  proc_inv retrained site_packages env_empty (run_script retrained site_packages env_empty 2) /\
  run_script retrained site_packages env_empty 2 =
    Running first_parent 2 (mkServer (retrained_model 3) "0.0.0.0" 8080 true).
Proof.
  pose proof (run_script_rtc retrained site_packages env_empty 2) as H.
  split_and!; [exact H | exact (reloader_invariant _ _ _ _ H) | reflexivity].
Defined.

Lemma run_script_reloads_witness :
  run_module (ML := fails_after 1 0) site_packages true env_empty = Serving first_parent /\
  run_script (fails_after 1) site_packages env_empty 3 = Exited 1.
Proof.
  assert (Hs : run_module (ML := fails_after 1 0) site_packages true env_empty = Serving first_parent)
    by reflexivity.
  split; [exact Hs|].
  apply (proj2 (proj2 (run_script_reloads (fails_after 1) site_packages env_empty first_parent 3 Hs)) 1);
    [lia | intros [|i] Hi; [reflexivity | lia] | reflexivity].
Defined.
