(* ===== verification/Concurrency.v ===== *)
(** * Concurrent requests on the threaded development server

    [api.run] (line 38) starts werkzeug's development server with
    [threaded=True] (Flask's default since 1.0): every connection is
    handled by a thread of its own, and the threads share the module's
    globals, of which the view reads one, [model] (line 10), and never
    writes it.  Each thread runs the statements of [make_predictions] one
    at a time:
    - [Received]: the request has arrived; routing, OPTIONS and [home] are
      answered in one step, [/predict] runs line 24
      ([request.get_json(force=True)]);
    - [Decoded]: line 28, [pd.read_json(...)];
    - [Framed]: line 31, [model.predict(...)] on the shared model;
    - [Predicted]: line 31, [.tolist()];
    - [Listed]: line 33, the response dict through [make_response];
    - [Responded]: the response is sent.
    An exception at a step ends the thread with Flask's error response.

    [step] is the server as a transition system over the list of its
    threads: a connection arrives ([step_accept]), or any unfinished
    thread takes its next step ([step_run]), in any order; [exec] runs a
    schedule of such actions.  The theorem shows that interleaving never
    mixes requests up: every thread that has answered answered
    [handle srv req] for its own request, the answer of the sequential
    model of [Inference]. *)

From Stdlib Require Import Ascii String ZArith Lia.
From stdpp Require Import base list relations.
From S2P Require Import Prelude PyData Libs Flask Json Pandas Mlflow Inference.
Local Open Scope nat_scope.

Section Threads.
Context {M : Type} {JL : JsonLoads} {RJ : ReadJson} {PM : PyFuncModel M}.

(** The running server, with the model every thread reads. *)
Variable srv : Server M.

Inductive Phase : Type :=
| Received
| Decoded (user_input : PyObj)
| Framed (user_input_df : DataFrame)
| Predicted (out : PredOut)
| Listed (predictions : PyObj)
| Responded (resp : Response).

Record Thread : Type := mkThread {
  th_req : Request;
  th_phase : Phase
}.

(** The response Flask sends for the view's outcome [r]. *)
Definition respond (req : Request) (r : PyResult Response) : Phase :=
  Responded (strip_for_head (req_method req) (finalize (srv_debug srv) r)).

(** The first step of a thread: routing, and line 24 for [/predict]. *)
Definition dispatch_step (req : Request) : Phase :=
  match werkzeug_match routes (req_path req) (req_method req) with
  | Matched r =>
      if decide (req_method req = OPTIONS) then Responded (handle srv req)
      else match rule_endpoint r with
           | EHome => Responded (handle srv req)
           | EPredict =>
               match get_json_force (req_body req) with
               | Ok v => Decoded v
               | Raise e => respond req (Raise e)
               end
           end
  | _ => Responded (handle srv req)
  end.

Definition thread_step (req : Request) (ph : Phase) : Phase :=
  match ph with
  | Received => dispatch_step req
  | Decoded v =>
      match read_json v true df_schema with
      | Ok df => Framed df
      | Raise e => respond req (Raise e)
      end
  | Framed df =>
      match predict (srv_model srv) df with
      | Ok out => Predicted out
      | Raise e => respond req (Raise e)
      end
  | Predicted out =>
      match tolist out with
      | Ok l => Listed l
      | Raise e => respond req (Raise e)
      end
  | Listed l => respond req (make_response (VBody (PDict [("predictions", l)])))
  | Responded resp => Responded resp
  end.

Definition finished (ph : Phase) : bool :=
  match ph with Responded _ => true | _ => false end.

Fixpoint run_thread (n : nat) (req : Request) (ph : Phase) : Phase :=
  match n with
  | O => ph
  | S n' => run_thread n' req (thread_step req ph)
  end.

(** The phases a thread of request [req] goes through. *)
Definition reached (req : Request) (ph : Phase) : Prop :=
  exists k, ph = run_thread k req Received.

Definition advance (t : Thread) : Thread :=
  mkThread (th_req t) (thread_step (th_req t) (th_phase t)).

Inductive step : list Thread -> list Thread -> Prop :=
| step_accept ts req : step ts (ts ++ [mkThread req Received])
| step_run ts i t :
    ts !! i = Some t -> finished (th_phase t) = false -> step ts (<[i := advance t]> ts).

(** A schedule, as the server's log would record it: a connection
    arriving, or thread [i] taking its next step. *)
Inductive Action : Type :=
| Accept (req : Request)
| Run (i : nat).

Definition act (ts : list Thread) (a : Action) : option (list Thread) :=
  match a with
  | Accept req => Some (ts ++ [mkThread req Received])%list
  | Run i =>
      match ts !! i with
      | Some t => if finished (th_phase t) then None else Some (<[i := advance t]> ts)
      | None => None
      end
  end.

Fixpoint exec (ts : list Thread) (acts : list Action) : option (list Thread) :=
  match acts with
  | [] => Some ts
  | a :: acts' => match act ts a with Some ts' => exec ts' acts' | None => None end
  end.

(** ** One thread *)

Lemma run_thread_responded n req resp : run_thread n req (Responded resp) = Responded resp.
Proof. induction n; simpl; auto. Qed.

Lemma run_thread_add a b req ph :
  run_thread (a + b) req ph = run_thread b req (run_thread a req ph).
Proof. revert ph; induction a; simpl; auto. Qed.

(** The five steps of a thread compose to the sequential handler. *)
Lemma run_thread_handle req : run_thread 5 req Received = Responded (handle srv req).
Proof.
  change (run_thread 5 req Received) with (run_thread 4 req (dispatch_step req)).
  unfold dispatch_step.
  destruct (werkzeug_match routes (req_path req) (req_method req)) as [r|p|ms] eqn:Em;
    [|by rewrite run_thread_responded ..].
  case_decide as Ho; [by rewrite run_thread_responded|].
  destruct (rule_endpoint r) eqn:Ee; [by rewrite run_thread_responded|].
  unfold handle, flask_dispatch. rewrite Em, decide_False by done. rewrite Ee.
  cbn [view]. unfold make_predictions.
  destruct (get_json_force (req_body req)) as [v|e]; simpl; [|done].
  destruct (read_json v true df_schema) as [df|e]; simpl; [|done].
  destruct (predict (srv_model srv) df) as [out|e]; simpl; [|done].
  destruct (tolist out) as [l|e]; simpl; done.
Qed.

(** A thread that has answered answered [handle srv req]. *)
Lemma reached_responded req resp : reached req (Responded resp) -> resp = handle srv req.
Proof.
  intros [k Hk].
  destruct (Nat.le_gt_cases k 5) as [Hle|Hgt].
  - pose proof (run_thread_handle req) as H.
    replace 5 with (k + (5 - k)) in H by lia.
    rewrite run_thread_add, <- Hk, run_thread_responded in H. congruence.
  - replace k with (5 + (k - 5)) in Hk by lia.
    rewrite run_thread_add, run_thread_handle, run_thread_responded in Hk. congruence.
Qed.

Lemma reached_step req ph : reached req ph -> reached req (thread_step req ph).
Proof.
  intros [k ->]. exists (S k).
  replace (S k) with (k + 1) by lia. rewrite run_thread_add. reflexivity.
Qed.

(** ** The server *)

Definition threads_ok (ts : list Thread) : Prop :=
  Forall (fun t => reached (th_req t) (th_phase t)) ts.

Lemma threads_ok_step ts ts' : threads_ok ts -> step ts ts' -> threads_ok ts'.
Proof.
  intros Hok Hs. destruct Hs as [ts req|ts i t Hi _].
  - apply Forall_app. split; [done|]. constructor; [|done]. by exists 0.
  - apply Forall_insert; [done|].
    apply (Forall_lookup_1 _ _ _ _ Hok) in Hi. by apply reached_step.
Qed.

Lemma threads_ok_reachable ts : rtc step [] ts -> threads_ok ts.
Proof.
  intros Hr. remember [] as ts0 eqn:E.
  assert (H0 : threads_ok ts0) by (subst; constructor).
  clear E. induction Hr as [ts|ts1 ts2 ts3 H12 _ IH]; [done|].
  apply IH. by eapply threads_ok_step.
Qed.

Lemma act_step ts a ts' : act ts a = Some ts' -> step ts ts'.
Proof.
  destruct a as [req|i]; simpl; [intros [= <-]; constructor|].
  destruct (ts !! i) as [t|] eqn:Hi; [|discriminate].
  destruct (finished (th_phase t)) eqn:Hf; [discriminate|]. intros [= <-]. by econstructor.
Qed.

(** Every schedule [exec] accepts is a run of the server. *)
Lemma exec_rtc ts acts ts' : exec ts acts = Some ts' -> rtc step ts ts'.
Proof.
  revert ts. induction acts as [|a acts IH]; intros ts; simpl; [by intros [= ->]|].
  destruct (act ts a) as [ts1|] eqn:Ha; [|discriminate].
  intros H. eapply rtc_l; [exact (act_step _ _ _ Ha) | by apply IH].
Qed.

(** C16. Interleaving never mixes requests up: in every state the
    threaded server can reach, whatever the order in which connections
    arrived and threads ran, a thread that has answered answered exactly
    what the sequential handler answers for its own request. *)
Theorem concurrent_responses ts i req resp :
  rtc step [] ts -> ts !! i = Some (mkThread req (Responded resp)) -> resp = handle srv req.
Proof.
  intros Hr Hi. apply threads_ok_reachable in Hr.
  apply (Forall_lookup_1 _ _ _ _ Hr) in Hi. by apply reached_responded.
Qed.

End Threads.

(** ** Witnesses: two requests interleaved

    A prediction with the spec's example and a health check arrive; the
    prediction decodes its body, the health check answers, and the
    prediction finishes. *)
#[local] Existing Instances json_stdlib pandas_lines.

Definition two_clients : list Action :=
  [Accept (predict_req spec_body_string); Accept (mkRequest GET "/" EmptyString);
   Run 0; Run 1; Run 0; Run 0; Run 0; Run 0].

Definition two_clients_state : list Thread :=
  Eval vm_compute in
    match exec srv_gpa [] two_clients with Some ts => ts | None => [] end.

Definition two_clients_answer : Response :=
  mkResponse 200 (BJson (PDict [("predictions", PList spec_gpas)])) [].

Lemma concurrent_responses_witness :
  rtc (step srv_gpa) [] two_clients_state /\
  two_clients_state !! 0 = Some (mkThread (predict_req spec_body_string) (Responded two_clients_answer)) /\
  two_clients_answer = handle srv_gpa (predict_req spec_body_string).
Proof.
  assert (Hr : rtc (step srv_gpa) [] two_clients_state)
    by (apply (exec_rtc srv_gpa [] two_clients); vm_compute; reflexivity).
  assert (Hl : two_clients_state !! 0 =
               Some (mkThread (predict_req spec_body_string) (Responded two_clients_answer)))
    by (vm_compute; reflexivity).
  split_and!; [exact Hr | exact Hl |].
  exact (concurrent_responses srv_gpa _ 0 _ _ Hr Hl).
Defined.

