(* ===== verification/JsonLines.v ===== *)
(** * JSON lines through pandas, and the prediction route end to end

    What [make_predictions] (lines 21-33) does with the body a client
    builds as the spec describes it, one record per line, sent as one
    JSON string (the only form [get_json] lets through, see C4):
    - [jsonl_text]: the records printed by [JsonText.object_text], joined
      with newlines; [jsonl_body]: that text as a JSON string;
    - the lemmas follow the text through [pd.read_json(lines=True)]
      ([Pandas]): [split("\n")] gives back the printed lines, [strip()]
      leaves them alone, [_combine_lines] makes the JSON array
      [JsonText.array_text] of them, ujson reads it as the list of their
      dicts, and [DataFrame] builds one row per record;
    - for the service's two features [gre] and [gpa], [dtype=float]
      turns every number into a float, mlflow's schema accepts the
      frame, and the route answers one prediction per record, in order;
    - [Rec] is a record whose [gpa] may be missing: [DataFrame] fills it
      with NaN when another record has it, and leaves the column out
      when none has;
    - blank bodies: every line is dropped and pandas reads [[]]. *)

From Stdlib Require Import Ascii String ZArith Lia.
From stdpp Require Import base list.
From S2P Require Import Prelude PyData Unicode PyInt Libs Flask Json JsonText Pandas Mlflow Inference.

Open Scope Z_scope.
Open Scope list_scope.

(** ** Lines *)

(** Lines joined with a separator, as [sep.join(lines)]. *)
Fixpoint join (sep : ascii) (ls : list (list ascii)) : list ascii :=
  match ls with
  | [] => []
  | [l] => l
  | l :: ls' => l ++ sep :: join sep ls'
  end.

Definition jsonl_text (objs : list (list (list ascii * NumLit))) : list ascii :=
  join nl (map object_text objs).

Definition jsonl_body (objs : list (list (list ascii * NumLit))) : string :=
  dumps_str (string_of_list_ascii (jsonl_text objs)).

(** Printable ASCII: what [object_text] prints. *)
Definition printable (a : ascii) : bool := (32 <=? byte a) && (byte a <? 128).

Lemma objects_text_join objs : objects_text objs = join ","%char (map object_text objs).
Proof. induction objs as [|o [|o' objs] IH]; simpl in *; try done. by rewrite IH. Qed.

Lemma list_ascii_of_string_app s1 s2 :
  list_ascii_of_string (s1 ++ s2) = (list_ascii_of_string s1 ++ list_ascii_of_string s2)%list.
Proof. induction s1 as [|a s1 IH]; simpl; [done|]. by rewrite IH. Qed.

(** [String.concat] of one-character separator is [join]. *)
Lemma concat_join c ls :
  list_ascii_of_string (String.concat (String c EmptyString) (map string_of_list_ascii ls)) =
  join c ls.
Proof.
  induction ls as [|l ls IH]; [done|]. destruct ls as [|l' ls].
  { apply list_ascii_of_string_of_list_ascii. }
  change (String.concat _ (map _ (l :: l' :: ls))) with
    (string_of_list_ascii l ++ String c EmptyString ++
       String.concat (String c EmptyString) (map string_of_list_ascii (l' :: ls)))%string.
  rewrite !list_ascii_of_string_app, list_ascii_of_string_of_list_ascii, IH. reflexivity.
Qed.

Abbreviation printable_text l := (Forall (fun a => printable a = true) l).

Lemma printable_bounds a : printable a = true -> 32 <= byte a < 128.
Proof. unfold printable. intros [H1 H2]%andb_prop. apply Z.leb_le in H1. apply Z.ltb_lt in H2. lia. Qed.

Lemma split_nl_line l r cur :
  printable_text l -> split_nl (l ++ r) cur = split_nl r (rev l ++ cur).
Proof.
  intros Hl. revert cur. induction Hl as [|a l Ha _ IH]; intros cur; [done|].
  apply printable_bounds in Ha.
  simpl. rewrite bool_decide_eq_false_2 by lia. rewrite IH. simpl. by rewrite <- app_assoc.
Qed.

(** [text.split("\n")] gives back the lines. *)
Lemma split_nl_join ls :
  ls <> [] -> Forall (fun l => printable_text l) ls ->
  split_nl (join nl ls) [] = map string_of_list_ascii ls.
Proof.
  induction ls as [|l [|l' ls] IH]; intros Hne Hok; [done| |].
  - inversion Hok; subst. simpl. rewrite <- (app_nil_r l) at 1.
    rewrite split_nl_line by done. simpl. by rewrite app_nil_r, rev_involutive.
  - inversion Hok as [|? ? Hl Hok']; subst. cbn [join].
    rewrite split_nl_line by done. simpl.
    rewrite app_nil_r, rev_involutive. f_equal. by apply IH.
Qed.

Lemma printable_text_char a : printable a = true -> text_char a = true.
Proof.
  unfold printable, text_char. intros [H1 H2]%andb_prop. by rewrite H1, H2.
Qed.

Lemma printable_ascii l : printable_text l -> Forall (fun a => byte a < 0x80) l.
Proof. intros H. eapply Forall_impl; [exact H|]. intros a Ha%printable_bounds. lia. Qed.

(** [line.strip()] leaves a line alone that starts with [{] and ends with
    [}]. *)
Lemma py_strip_braces m :
  printable_text m ->
  py_strip (string_of_list_ascii ("{"%char :: m ++ ["}"%char])) =
  string_of_list_ascii ("{"%char :: m ++ ["}"%char]).
Proof.
  intros Hm. set (l := "{"%char :: m ++ ["}"%char]).
  assert (Hl : Forall (fun a => byte a < 0x80) l).
  { apply printable_ascii. unfold l. repeat constructor. apply Forall_app. by repeat constructor. }
  unfold py_strip, str_cps. rewrite list_ascii_of_string_of_list_ascii, utf8_decode_ascii by done.
  simpl default. unfold strip_cps. unfold l. cbn [map drop_space]. change (byte "{"%char) with 123.
  rewrite map_app. simpl map. change (byte "}"%char) with 125.
  assert (H1 : py_isspace 123 = false) by reflexivity.
  assert (H2 : py_isspace 125 = false) by reflexivity.
  rewrite H1. change (123 :: map byte m ++ [125]) with ((123 :: map byte m) ++ [125]).
  rewrite rev_app_distr. cbn [app rev drop_space]. rewrite H2.
  assert (E : rev (125 :: rev (map byte m) ++ [123]) = map byte l).
  { unfold l. simpl. rewrite rev_app_distr, rev_involutive, map_app. reflexivity. }
  by rewrite E, encode_cps_ascii.
Qed.

(** ** What the client prints is printable *)

Lemma digit_printable a : is_digit a = true -> printable a = true.
Proof.
  intros H%is_digit_byte. unfold printable. apply andb_true_intro.
  split; [apply Z.leb_le | apply Z.ltb_lt]; lia.
Qed.

Lemma plain_printable a : plain_char a = true -> printable a = true.
Proof.
  intros (_ & _ & H)%plain_char_spec. unfold printable. apply andb_true_intro.
  split; [apply Z.leb_le | apply Z.ltb_lt]; lia.
Qed.

Lemma forallb_printable (p : ascii -> bool) l :
  (forall a, p a = true -> printable a = true) -> forallb p l = true -> printable_text l.
Proof.
  intros Hp Hl. apply List.Forall_forall. intros a Ha. apply Hp.
  exact (proj1 (forallb_forall _ _) Hl a Ha).
Qed.

Ltac printable_auto :=
  repeat match goal with H : Forall _ (_ :: _) |- _ => apply Forall_cons_1 in H as [? ?] end;
  repeat first [ assumption | reflexivity
               | apply Forall_app_2 | apply Forall_cons_2 | apply Forall_nil_2 ].

Lemma num_text_printable n : num_ok n = true -> printable_text (num_text n).
Proof.
  intros (Hi & Hf & _)%num_ok_digits.
  apply (forallb_printable _ _ digit_printable) in Hi, Hf.
  unfold num_text, frac_text. destruct (lit_neg n), (lit_frac n); printable_auto.
Qed.

Lemma fields_text_printable o : forallb field_ok o = true -> printable_text (fields_text o).
Proof.
  induction o as [|[k v] o IH]; intros Ho; [constructor|].
  simpl in Ho. apply andb_prop in Ho as [Hkv Ho]. unfold field_ok in Hkv. simpl in Hkv.
  apply andb_prop in Hkv as [Hk Hv].
  apply (forallb_printable _ _ plain_printable) in Hk. apply num_text_printable in Hv.
  apply IH in Ho. rewrite fields_text_cons. unfold field_text. simpl.
  destruct o; printable_auto.
Qed.

Lemma object_text_printable o : forallb field_ok o = true -> printable_text (object_text o).
Proof. intros Ho%fields_text_printable. unfold object_text. printable_auto. Qed.

(** ** [_combine_lines] *)

Lemma py_strip_object o :
  forallb field_ok o = true ->
  py_strip (string_of_list_ascii (object_text o)) = string_of_list_ascii (object_text o).
Proof. intros Ho. apply py_strip_braces, fields_text_printable, Ho. Qed.

(** Each line, stripped, is the printed object, and none is blank. *)
Lemma strip_lines objs :
  Forall (fun o => forallb field_ok o = true) objs ->
  List.filter (fun l => negb (String.eqb l EmptyString))
    (map py_strip (map string_of_list_ascii (map object_text objs))) =
  map string_of_list_ascii (map object_text objs).
Proof.
  induction 1 as [|o objs Ho _ IH]; [done|]. cbn [map].
  rewrite py_strip_object by done. cbn [List.filter].
  assert (E : String.eqb (string_of_list_ascii (object_text o)) EmptyString = false)
    by reflexivity.
  by rewrite E, IH.
Qed.

(** Read with [lines=True], the client's text becomes the JSON array of
    its records. *)
Lemma combine_jsonl objs :
  objs <> [] -> Forall (fun o => forallb field_ok o = true) objs ->
  combine_lines (py_split_lines (string_of_list_ascii (jsonl_text objs))) =
  string_of_list_ascii (array_text objs).
Proof.
  intros Hne Hok. unfold py_split_lines, jsonl_text.
  rewrite list_ascii_of_string_of_list_ascii, split_nl_join.
  2: { by destruct objs. }
  2: { apply Forall_map. eapply Forall_impl; [exact Hok|]. apply object_text_printable. }
  unfold combine_lines. rewrite strip_lines by done.
  rewrite <- (string_of_list_ascii_of_string (_ ++ _)). f_equal.
  rewrite list_ascii_of_string_app. simpl. rewrite list_ascii_of_string_app, concat_join.
  unfold array_text. by rewrite objects_text_join.
Qed.

(** ** [read_json] on the client's text *)

Lemma join_braces sep ls :
  ls <> [] -> Forall (fun l => exists m, l = "{"%char :: m ++ ["}"%char]) ls ->
  exists m, join sep ls = "{"%char :: m ++ ["}"%char].
Proof.
  induction 2 as [|l ls [m ->] Hls IH]; [done|]. destruct ls as [|l' ls]; [by exists m|].
  destruct IH as [m' Hm']; [done|]. exists (m ++ "}"%char :: sep :: "{"%char :: m').
  change (join sep (("{"%char :: m ++ ["}"%char]) :: l' :: ls)) with
    (("{"%char :: m ++ ["}"%char]) ++ sep :: join sep (l' :: ls)).
  rewrite Hm'. simpl. by rewrite <- !app_assoc.
Qed.

Lemma object_texts_braces objs :
  Forall (fun l => exists m, l = "{"%char :: m ++ ["}"%char]) (map object_text objs).
Proof. apply Forall_map, List.Forall_forall. intros o _. by exists (fields_text o). Qed.

Lemma jsonl_text_snoc objs : objs <> [] -> exists m, jsonl_text objs = m ++ ["}"%char].
Proof.
  intros Hne. destruct (join_braces nl (map object_text objs)) as [m Hm];
    [by destruct objs | apply object_texts_braces |].
  exists ("{"%char :: m). exact Hm.
Qed.

Lemma join_printable sep ls :
  printable sep = true -> Forall (fun l => printable_text l) ls -> printable_text (join sep ls).
Proof.
  intros Hs. induction 1 as [|l ls Hl Hls IH]; [constructor|].
  destruct ls as [|l' ls]; [done|].
  change (join sep (l :: l' :: ls)) with (l ++ sep :: join sep (l' :: ls)). printable_auto.
Qed.

(** The records on one line, separated by commas, are read as the same
    array: [_combine_lines] joins the lines with commas. *)
Lemma combine_one_line objs :
  objs <> [] -> Forall (fun o => forallb field_ok o = true) objs ->
  combine_lines (py_split_lines (string_of_list_ascii (objects_text objs))) =
  string_of_list_ascii (array_text objs).
Proof.
  intros Hne Hok.
  assert (Hp : printable_text (objects_text objs)).
  { rewrite objects_text_join. apply join_printable; [reflexivity|].
    apply Forall_map. eapply Forall_impl; [exact Hok|]. apply object_text_printable. }
  destruct (join_braces ","%char (map object_text objs)) as [m Hm];
    [by destruct objs | apply object_texts_braces |].
  rewrite <- objects_text_join in Hm.
  unfold py_split_lines, combine_lines, array_text.
  rewrite list_ascii_of_string_of_list_ascii, <- (app_nil_r (objects_text objs)) at 1.
  rewrite split_nl_line by done. cbn [split_nl map]. rewrite app_nil_r, rev_involutive, Hm.
  rewrite Hm in Hp. apply Forall_cons_1 in Hp as [_ Hp]. apply Forall_app in Hp as [Hp _].
  rewrite py_strip_braces by done. cbn [List.filter String.eqb string_of_list_ascii negb].
  rewrite <- (string_of_list_ascii_of_string (_ ++ _)). f_equal.
  rewrite list_ascii_of_string_app. simpl. rewrite list_ascii_of_string_app.
  simpl. by rewrite list_ascii_of_string_of_list_ascii.
Qed.

Lemma ends_with_last suf m c :
  suf <> [] -> last suf <> Some c -> ends_with suf (m ++ [c]) = false.
Proof.
  intros Hne Hl. unfold ends_with. destruct (Nat.leb_spec (length suf) (length (m ++ [c])));
    [|done].
  apply andb_false_intro2, bool_decide_eq_false_2. intros Hd. apply Hl.
  destruct suf as [|a suf]; [done|]. rewrite length_app in *. simpl length in *.
  rewrite drop_app_le in Hd by lia. by rewrite <- Hd, last_snoc.
Qed.

(** The last characters of pandas' JSON file suffixes. *)
Definition suffix_end (c : ascii) : bool :=
  existsb (fun suf => bool_decide (last (list_ascii_of_string suf) = Some c)) json_suffixes.

(** A text whose last character ends no [.json] suffix is never taken
    for the path of a file. *)
Lemma looks_like_json_file_last m c :
  ascii_lower c = c -> suffix_end c = false ->
  looks_like_json_file (string_of_list_ascii (m ++ [c])) = false.
Proof.
  intros Hc Hs. unfold looks_like_json_file. rewrite list_ascii_of_string_of_list_ascii, map_app.
  cbn [map]. rewrite Hc. apply not_true_iff_false. rewrite existsb_exists. intros (suf & Hin & H).
  rewrite ends_with_last in H; [discriminate| |].
  - intros E. apply (f_equal string_of_list_ascii) in E.
    rewrite string_of_list_ascii_of_string in E. subst suf.
    repeat destruct Hin as [Hin | Hin]; try discriminate Hin; done.
  - intros E. apply not_true_iff_false in Hs. apply Hs, existsb_exists.
    exists suf. split; [done|]. by apply bool_decide_eq_true_2.
Qed.

Lemma looks_like_json_file_brace m :
  looks_like_json_file (string_of_list_ascii (m ++ ["}"%char])) = false.
Proof. by apply looks_like_json_file_last. Qed.

(** The ints a client prints are within ujson's range. *)
Lemma num_value_in_range n : num_ok n = true -> ints_in_range (num_value n) = true.
Proof.
  intros Hn. pose proof (num_ok_digits n Hn) as (Hi & _ & c & r & Ec & _ & _ & Hlen).
  unfold num_value. destruct (lit_frac n); [|reflexivity].
  assert (Hd : Forall (fun d => 0 <= d < 10) (digits_of (lit_int n))).
  { apply Forall_map, List.Forall_forall. intros a Ha.
    pose proof (is_digit_byte a (proj1 (forallb_forall _ _) Hi a Ha)). lia. }
  apply digits_value_bound in Hd. unfold digits_of in Hd. rewrite length_map, Ec in Hd.
  assert (Hp : 10 ^ Z.of_nat (length (c :: r)) <= 1000000000000000000).
  { transitivity (10 ^ 18); [apply Z.pow_le_mono_r; lia | apply Z.le_refl]. }
  cbn [ints_in_range]. change (2 ^ 63) with 9223372036854775808.
  change (2 ^ 64) with 18446744073709551616. apply andb_true_intro. rewrite Z.leb_le, Z.ltb_lt. rewrite Ec.
  change (map (fun a => byte a - 48) (c :: r)) with (digits_of (c :: r)) in Hd.
  destruct (lit_neg n); lia.
Qed.

Lemma object_value_in_range o :
  forallb field_ok o = true -> ints_in_range (object_value o) = true.
Proof.
  intros Ho. unfold object_value, dict_of_pairs. simpl.
  enough (forall d : list (string * PyObj), forallb (fun kv => ints_in_range kv.2) d = true ->
    forallb (fun kv => ints_in_range kv.2)
      (fold_left (fun d kv => dict_set kv.1 kv.2 d) (map field_value o) d) = true)
    by (apply H; reflexivity).
  induction o as [|kv o IH]; intros d Hd; [done|]. simpl in Ho |- *.
  apply andb_prop in Ho as [Hkv Ho]. apply IH; [done|].
  apply dict_set_forallb; [done|]. simpl.
  apply num_value_in_range. by apply andb_prop in Hkv as [_ ?].
Qed.

(** ujson reads the array of the client's records as the list of their
    dicts. *)
Lemma ujson_loads_array objs :
  Forall (fun o => forallb field_ok o = true) objs ->
  ujson_loads 1024 (string_of_list_ascii (array_text objs)) = Ok (PList (map object_value objs)).
Proof.
  intros Hok. unfold ujson_loads. rewrite list_ascii_of_string_of_list_ascii.
  rewrite json_decode_text_array by (done || lia). simpl.
  assert (E : forallb ints_in_range (map object_value objs) = true).
  { apply forallb_forall. intros v (o & <- & Ho)%in_map_iff.
    apply object_value_in_range. exact (proj1 (List.Forall_forall _ _) Hok o Ho). }
  by rewrite E.
Qed.

(** ** The service's records

    A record as the spec describes it: the two features [gre] and [gpa]
    of [df_schema], each a number literal.  [Rec] also covers a record
    that lacks [gpa]. *)
Definition gre_key : list ascii := ["g"; "r"; "e"]%char.
Definition gpa_key : list ascii := ["g"; "p"; "a"]%char.

Definition Rec : Type := NumLit * option NumLit.

Definition rec_fields (r : Rec) : list (list ascii * NumLit) :=
  (gre_key, r.1) :: match r.2 with Some p => [(gpa_key, p)] | None => [] end.

Definition rec_ok (r : Rec) : bool :=
  num_ok r.1 && match r.2 with Some p => num_ok p | None => true end.

Definition has_gpa (r : Rec) : bool := match r.2 with Some _ => true | None => false end.

(** The dict ujson makes of a record, and the value [DataFrame] puts in
    its [gpa] cell: NaN for a record without [gpa]. *)
Definition rec_dict (r : Rec) : list (string * PyObj) :=
  ("gre", num_value r.1) :: match r.2 with Some p => [("gpa", num_value p)] | None => [] end.

Definition rec_gpa (r : Rec) : PyObj :=
  match r.2 with Some p => num_value p | None => PFloat FNaN end.

(** [float()] of a number. *)
Definition float_of (v : PyObj) : PyFloat :=
  match to_float v with Ok x => x | Raise _ => FNaN end.

(** The row the estimator sees for a record. *)
Definition rec_row (r : Rec) : list (PyObj * PyObj) :=
  [(PStr "gre", PFloat (float_of (num_value r.1))); (PStr "gpa", PFloat (float_of (rec_gpa r)))].

(** The records with both features, as the spec has them. *)
Definition full (s : NumLit * NumLit) : Rec := (s.1, Some s.2).

Definition sample_fields (s : NumLit * NumLit) : list (list ascii * NumLit) :=
  [(gre_key, s.1); (gpa_key, s.2)].

Definition sample_ok (s : NumLit * NumLit) : bool := num_ok s.1 && num_ok s.2.

(** The request body: the records one per line, as a JSON string. *)
Definition samples_body (samples : list (NumLit * NumLit)) : string :=
  jsonl_body (map sample_fields samples).

Definition num_float (n : NumLit) : PyFloat := float_of (num_value n).

Definition sample_row (s : NumLit * NumLit) : list (PyObj * PyObj) :=
  [(PStr "gre", PFloat (num_float s.1)); (PStr "gpa", PFloat (num_float s.2))].

Lemma rec_fields_ok r : rec_ok r = true -> forallb field_ok (rec_fields r) = true.
Proof.
  destruct r as [g [p|]]; unfold rec_ok, rec_fields, field_ok; simpl;
    intros [H1 H2]%andb_prop; by rewrite H1, ?H2.
Qed.

Lemma recs_fields_ok recs :
  forallb rec_ok recs = true -> Forall (fun o => forallb field_ok o = true) (map rec_fields recs).
Proof.
  intros H. apply Forall_map, List.Forall_forall. intros r Hr.
  apply rec_fields_ok. exact (proj1 (forallb_forall _ _) H r Hr).
Qed.

Lemma recs_printable recs :
  forallb rec_ok recs = true -> Forall (fun l => printable_text l) (map object_text (map rec_fields recs)).
Proof.
  intros Hok. apply Forall_map.
  eapply Forall_impl; [apply (recs_fields_ok _ Hok)|]. apply object_text_printable.
Qed.

Lemma samples_recs samples : map sample_fields samples = map rec_fields (map full samples).
Proof. rewrite map_map. reflexivity. Qed.

Lemma forallb_full samples : forallb rec_ok (map full samples) = forallb sample_ok samples.
Proof. induction samples as [|s samples IH]; simpl; [done|]. by rewrite IH. Qed.

Lemma samples_fields_ok samples :
  forallb sample_ok samples = true ->
  Forall (fun o => forallb field_ok o = true) (map sample_fields samples).
Proof. intros H. rewrite samples_recs. apply recs_fields_ok. by rewrite forallb_full. Qed.

Lemma samples_printable samples :
  forallb sample_ok samples = true ->
  Forall (fun l => printable_text l) (map object_text (map sample_fields samples)).
Proof. intros H. rewrite samples_recs. apply recs_printable. by rewrite forallb_full. Qed.

(** ** The frame *)

Lemma object_value_rec r : object_value (rec_fields r) = PDict (rec_dict r).
Proof. by destruct r as [g [p|]]. Qed.

Lemma mapM_as_record ds : mapM as_record (map PDict ds) = Some ds.
Proof. induction ds as [|d ds IH]; [done|]. simpl. by rewrite IH. Qed.

Lemma fold_left_fixed {A B} (F : A -> B -> A) (a : A) l :
  (forall x, In x l -> F a x = a) -> fold_left F l a = a.
Proof.
  induction l as [|x l IH]; intros H; [done|]. simpl. rewrite H by (by left).
  apply IH. intros y Hy. apply H. by right.
Qed.

(** A fold that moves from [k1] to the fixed point [k2] at the first
    element that satisfies [g]. *)
Lemma fold_keys {A B C} (F : B -> C -> B) (h : A -> C) (g : A -> bool) k1 k2 l :
  (forall x, F k2 (h x) = k2) -> (forall x, F k1 (h x) = if g x then k2 else k1) ->
  fold_left F (map h l) k1 = if existsb g l then k2 else k1.
Proof.
  intros H2 H1. induction l as [|x l IH]; [done|]. simpl. rewrite H1.
  destruct (g x); simpl; [|exact IH].
  apply fold_left_fixed. intros y (z & <- & _)%in_map_iff. apply H2.
Qed.

(** The columns of the records, in order of first appearance: [gre],
    and [gpa] when some record has it. *)
Lemma record_keys_recs recs :
  recs <> [] ->
  record_keys (map rec_dict recs) = if existsb has_gpa recs then ["gre"; "gpa"] else ["gre"].
Proof.
  destruct recs as [|[g [p|]] recs]; intros Hne; [done| |]; unfold record_keys; cbn [map fold_left].
  - match goal with |- fold_left ?F _ ?k = _ =>
      assert (Hk : k = ["gre"; "gpa"]) by reflexivity; rewrite Hk;
      rewrite (fold_keys F rec_dict has_gpa ["gre"; "gpa"] ["gre"; "gpa"]);
        [by destruct (existsb _ _) | intros [? [?|]]; reflexivity ..] end.
  - match goal with |- fold_left ?F _ ?k = _ =>
      assert (Hk : k = ["gre"]) by reflexivity; rewrite Hk;
      rewrite (fold_keys F rec_dict has_gpa ["gre"] ["gre"; "gpa"]);
        [reflexivity | intros [? [?|]]; reflexivity ..] end.
Qed.

Lemma convert_infer_float co dtype name n' vals :
  find (fun nt => String.eqb nt.1 name) dtype = Some (n', DFloat64) ->
  convert_column co dtype (infer_column (PStr name) vals) =
  astype_float (infer_column (PStr name) vals).
Proof.
  intros Hf. assert (E : forall ty vs, convert_column co dtype (mkColumn (PStr name) ty vs) =
                                      astype_float (mkColumn (PStr name) ty vs))
    by (intros; simpl; by rewrite Hf).
  unfold infer_column. repeat case_match; apply E.
Qed.

Lemma to_float_num v : is_num v = true -> to_float v = Ok (float_of v).
Proof. by destruct v. Qed.

Lemma is_num_value n : is_num (num_value n) = true.
Proof. unfold num_value. by destruct (lit_frac n). Qed.

Lemma astype_numeric lbl ty vals :
  forallb is_num vals = true ->
  astype_float (mkColumn lbl ty vals) = mkColumn lbl DFloat64 (map (fun v => PFloat (float_of v)) vals).
Proof.
  intros Hv. unfold astype_float. cbn [col_values col_label].
  enough (E : py_mapM (fun v => py_map PFloat (to_float v)) vals =
              Ok (map (fun v => PFloat (float_of v)) vals)) by (by rewrite E).
  induction vals as [|v vals IH]; [done|]. simpl in Hv |- *.
  apply andb_prop in Hv as [Hv Hvs]. rewrite to_float_num by done. simpl. by rewrite IH.
Qed.

(** [DataFrame] infers int64 or float64 for a column of numbers, and
    [astype(float)] makes it the floats of the numbers. *)
Lemma astype_infer_numeric lbl vals :
  forallb is_num vals = true ->
  astype_float (infer_column lbl vals) = mkColumn lbl DFloat64 (map (fun v => PFloat (float_of v)) vals).
Proof.
  intros Hv. unfold infer_column.
  destruct (forallb is_int _); [by apply astype_numeric|].
  destruct (_ && _); [|destruct (forallb is_bool _)]; try by apply astype_numeric.
  rewrite astype_numeric, map_map.
  - f_equal. apply map_ext_in. intros v Hin.
    pose proof (proj1 (forallb_forall _ _) Hv v Hin). by destruct v.
  - apply forallb_forall. intros w (v & <- & Hin)%in_map_iff.
    pose proof (proj1 (forallb_forall _ _) Hv v Hin). by destruct v.
Qed.

(** One row per record, the cells of its two columns. *)
Lemma df_rows_two {A} (g h : A -> PyObj) lg lh tg th (l : list A) :
  df_rows (mkFrame (length l) [mkColumn lg tg (map g l); mkColumn lh th (map h l)]) =
  map (fun x => [(lg, g x); (lh, h x)]) l.
Proof.
  unfold df_rows, df_row. cbn [df_nrows df_cols map col_label col_values].
  induction l as [|x l IH]; [done|]. cbn [length seq map]. rewrite <- seq_shift, map_map.
  cbn [nth]. f_equal. exact IH.
Qed.

Lemma printable_text_chars l : printable_text l -> forallb text_char l = true.
Proof.
  intros H. apply forallb_forall. intros a Ha.
  apply printable_text_char. exact (proj1 (List.Forall_forall _ _) H a Ha).
Qed.

Lemma join_text_chars ls :
  Forall (fun l => printable_text l) ls -> forallb text_char (join nl ls) = true.
Proof.
  pose proof printable_text_chars as Hl.
  induction 1 as [|l ls Hp Hls IH]; [done|].
  destruct ls as [|l' ls]; [by apply Hl|].
  change (join nl (l :: l' :: ls)) with (l ++ nl :: join nl (l' :: ls)).
  rewrite forallb_app, Hl by done. simpl. exact IH.
Qed.

(** [pd.read_json(text, lines=True, dtype=...)] on a text that names no
    file and whose lines combine into the array of the client's records:
    the frame of their dicts, with [dtype] applied. *)
Lemma read_json_dicts recs t :
  forallb rec_ok recs = true -> looks_like_json_file t = false ->
  combine_lines (py_split_lines t) = string_of_list_ascii (array_text (map rec_fields recs)) ->
  @read_json pandas_lines (PStr t) true df_schema =
  Ok (apply_dtype (fun c => c) df_schema (frame_of_records (map rec_dict recs))).
Proof.
  intros Hok Hfile Hcomb. pose proof (recs_fields_ok _ Hok) as Hf.
  cbn [read_json pandas_lines pandas_reference]. unfold pandas_read_json, source_text, no_files.
  rewrite Hfile. cbn [py_bind]. rewrite Hcomb, ujson_loads_array by done. cbn [py_bind].
  replace (map object_value (map rec_fields recs)) with (map PDict (map rec_dict recs))
    by (rewrite !map_map; apply map_ext; intros r; by rewrite object_value_rec).
  unfold frame_of. by rewrite mapM_as_record.
Qed.

(** The frame [read_json] builds from records of which some have
    [gpa], after [dtype=float]. *)
Definition recs_frame (recs : list Rec) : DataFrame :=
  mkFrame (length recs)
    [mkColumn (PStr "gre") DFloat64 (map (fun r => PFloat (float_of (num_value r.1))) recs);
     mkColumn (PStr "gpa") DFloat64 (map (fun r => PFloat (float_of (rec_gpa r))) recs)].

Lemma apply_dtype_recs recs :
  existsb has_gpa recs = true ->
  apply_dtype (fun c => c) df_schema (frame_of_records (map rec_dict recs)) = recs_frame recs.
Proof.
  intros Hg. assert (Hne : recs <> []) by (by destruct recs).
  unfold frame_of_records. rewrite record_keys_recs, Hg, length_map by done.
  unfold apply_dtype. cbn [df_nrows df_cols map].
  rewrite (convert_infer_float _ df_schema "gre" "gre"), (convert_infer_float _ df_schema "gpa" "gpa")
    by reflexivity.
  rewrite !astype_infer_numeric, !map_map.
  1: { rewrite (map_ext (fun x : Rec =>
                  PFloat (float_of (default (PFloat FNaN) (dict_get "gpa" (rec_dict x)))))
                (fun r => PFloat (float_of (rec_gpa r)))) by (by intros [g [p|]]).
       reflexivity. }
  all: rewrite map_map; apply forallb_forall; intros v (r & <- & _)%in_map_iff.
  all: destruct r as [g [p|]]; simpl; by rewrite ?is_num_value.
Qed.

Lemma recs_frame_rows recs : df_rows (recs_frame recs) = map rec_row recs.
Proof. unfold recs_frame. by rewrite df_rows_two. Qed.

(** The signature accepts the frame, and the estimator sees one row per
    record. *)
Lemma predict_recs m recs :
  pf_schema m = Some df_schema ->
  pyfunc_predict m (recs_frame recs) =
  py_bind (py_mapM (pf_estimator m) (map rec_row recs)) (fun preds => Ok (NdArray preds)).
Proof.
  intros Hs. unfold pyfunc_predict. rewrite Hs.
  assert (E : enforce_schema df_schema (recs_frame recs) = Ok (recs_frame recs)) by reflexivity.
  rewrite E. cbn [py_bind]. by rewrite recs_frame_rows.
Qed.

(** The route on a body that is a JSON string whose text pandas reads
    as the client's records, for a model with the service's signature:
    the estimator's answer on the records' rows. *)
Lemma handle_recs_est m host port dbg recs t :
  pf_schema m = Some df_schema ->
  existsb has_gpa recs = true -> forallb rec_ok recs = true ->
  forallb text_char (list_ascii_of_string t) = true ->
  looks_like_json_file t = false ->
  combine_lines (py_split_lines t) = string_of_list_ascii (array_text (map rec_fields recs)) ->
  @handle PyfuncModel json_stdlib pandas_lines pyfunc_model
    (mkServer m host port dbg) (predict_req (dumps_str t)) =
  match py_mapM (pf_estimator m) (map rec_row recs) with
  | Ok preds => mkResponse 200 (BJson (PDict [("predictions", PList preds)])) []
  | Raise e => server_error dbg e
  end.
Proof.
  intros Hs Hg Hok Ht Hfile Hcomb. rewrite handle_predict. unfold make_predictions.
  cbn [req_body predict_req].
  rewrite (@get_json_force_ok json_stdlib _ _ (py_json_loads_dumps 1000 _ Ht)). cbn [py_bind].
  rewrite (read_json_dicts _ _ Hok Hfile Hcomb), apply_dtype_recs by done. cbn [py_bind].
  change (@predict _ pyfunc_model m (recs_frame recs)) with (pyfunc_predict m (recs_frame recs)).
  rewrite predict_recs by done.
  cbn [srv_model srv_debug]. destruct (py_mapM (pf_estimator m) (map rec_row recs)) as [preds|e] eqn:E; [reflexivity|].
  apply finalize_not_http. destruct (py_mapM_raise_from _ _ _ E) as (r & _ & Hr).
  exact (pf_estimator_no_http m r e Hr).
Qed.

Lemma handle_recs_text f host port dbg recs t :
  existsb has_gpa recs = true -> forallb rec_ok recs = true ->
  forallb text_char (list_ascii_of_string t) = true ->
  looks_like_json_file t = false ->
  combine_lines (py_split_lines t) = string_of_list_ascii (array_text (map rec_fields recs)) ->
  @handle PyfuncModel json_stdlib pandas_lines pyfunc_model
    (mkServer (mkPyfunc (Some df_schema) f) host port dbg) (predict_req (dumps_str t)) =
  mkResponse 200 (BJson (PDict [("predictions", PList (map (fun r => f (rec_row r)) recs))])) [].
Proof.
  intros Hg Hok Ht Hfile Hcomb. rewrite (handle_recs_est _ _ _ _ recs t) by done.
  cbn [pf_estimator mkPyfunc]. rewrite (py_mapM_total _ f), map_map by done. reflexivity.
Qed.

Lemma handle_samples_text f host port dbg samples t :
  samples <> [] -> forallb sample_ok samples = true ->
  forallb text_char (list_ascii_of_string t) = true ->
  looks_like_json_file t = false ->
  combine_lines (py_split_lines t) = string_of_list_ascii (array_text (map sample_fields samples)) ->
  @handle PyfuncModel json_stdlib pandas_lines pyfunc_model
    (mkServer (mkPyfunc (Some df_schema) f) host port dbg) (predict_req (dumps_str t)) =
  mkResponse 200 (BJson (PDict [("predictions", PList (map (fun s => f (sample_row s)) samples))]))
    [].
Proof.
  intros Hne Hok Ht Hfile Hcomb. rewrite samples_recs in Hcomb.
  replace (map (fun s => f (sample_row s)) samples) with (map (fun r => f (rec_row r)) (map full samples))
    by (rewrite map_map; reflexivity).
  apply handle_recs_text; try done.
  - by destruct samples.
  - by rewrite forallb_full.
Qed.

(** The client's JSON-lines text passes [json.loads(json.dumps(...))],
    names no file, and its lines combine into the array of its records. *)
Lemma jsonl_text_recs recs :
  recs <> [] -> forallb rec_ok recs = true ->
  let t := string_of_list_ascii (jsonl_text (map rec_fields recs)) in
  forallb text_char (list_ascii_of_string t) = true /\ looks_like_json_file t = false /\
  combine_lines (py_split_lines t) = string_of_list_ascii (array_text (map rec_fields recs)).
Proof.
  intros Hne Hok t. assert (Hne' : map rec_fields recs <> []) by (by destruct recs).
  split_and!.
  - unfold t. rewrite list_ascii_of_string_of_list_ascii. by apply join_text_chars, recs_printable.
  - unfold t. destruct (jsonl_text_snoc _ Hne') as [m ->]. apply looks_like_json_file_brace.
  - apply combine_jsonl; [done | by apply recs_fields_ok].
Qed.

(** Without any [gpa], the frame has the single column [gre]. *)
Lemma apply_dtype_no_gpa recs :
  recs <> [] -> existsb has_gpa recs = false ->
  apply_dtype (fun c => c) df_schema (frame_of_records (map rec_dict recs)) =
  mkFrame (length recs) [mkColumn (PStr "gre") DFloat64 (map (fun r => PFloat (float_of (num_value r.1))) recs)].
Proof.
  intros Hne Hg. unfold frame_of_records. rewrite record_keys_recs, Hg, length_map by done.
  unfold apply_dtype. cbn [df_nrows df_cols map].
  rewrite (convert_infer_float _ df_schema "gre" "gre") by reflexivity.
  rewrite astype_infer_numeric, !map_map; [reflexivity|].
  rewrite map_map. apply forallb_forall. intros v (r & <- & _)%in_map_iff. apply is_num_value.
Qed.

(** ** Blank bodies *)

(** The blank characters a client may send: spaces and newlines. *)
Definition blank (a : ascii) : Prop := a = " "%char \/ a = nl.

Lemma split_nl_blank l cur :
  Forall blank l -> Forall blank cur ->
  Forall (fun s => Forall blank (list_ascii_of_string s)) (split_nl l cur).
Proof.
  intros Hl. revert cur. induction Hl as [|a l Ha Hl IH]; intros cur Hc; simpl.
  - constructor; [|done]. rewrite list_ascii_of_string_of_list_ascii. by apply Forall_rev.
  - case_bool_decide.
    + constructor; [|by apply IH]. rewrite list_ascii_of_string_of_list_ascii.
      by apply Forall_rev.
    + apply IH. by constructor.
Qed.

Lemma drop_space_all cps : Forall (fun c => py_isspace c = true) cps -> drop_space cps = [].
Proof. induction 1 as [|c cps Hc _ IH]; simpl; [done|]. by rewrite Hc. Qed.

(** [line.strip()] of a blank line is empty. *)
Lemma py_strip_blank s : Forall blank (list_ascii_of_string s) -> py_strip s = EmptyString.
Proof.
  intros Hs. unfold py_strip, strip_cps, str_cps.
  rewrite utf8_decode_ascii.
  2: { eapply Forall_impl; [exact Hs|]. by intros a [-> | ->]. }
  simpl default. rewrite (drop_space_all (map byte _)); [reflexivity|].
  apply Forall_map. eapply Forall_impl; [exact Hs|]. by intros a [-> | ->].
Qed.

(** Every line of a blank text is dropped: pandas reads [[]]. *)
Lemma combine_blank t :
  Forall blank t -> combine_lines (py_split_lines (string_of_list_ascii t)) = "[]"%string.
Proof.
  intros Ht. unfold combine_lines, py_split_lines. rewrite list_ascii_of_string_of_list_ascii.
  pose proof (split_nl_blank t [] Ht ltac:(constructor)) as Hl.
  induction Hl as [|l ls Hb _ IH]; [reflexivity|]. cbn [map List.filter].
  by rewrite py_strip_blank.
Qed.

Lemma looks_like_json_file_blank t :
  Forall blank t -> looks_like_json_file (string_of_list_ascii t) = false.
Proof.
  intros Ht. destruct t as [|a t] using rev_ind; [reflexivity|].
  apply Forall_app in Ht as [_ [[-> | ->] _]%Forall_cons_1]; by apply looks_like_json_file_last.
Qed.

Lemma blank_text_char t : Forall blank t -> forallb text_char t = true.
Proof.
  intros Ht. apply forallb_forall. intros a Ha.
  by destruct (proj1 (List.Forall_forall _ _) Ht a Ha) as [-> | ->].
Qed.

(** ** Theorems *)

(** C17. End to end, the records a client sends as the spec describes,
    one JSON object per line with the features [gre] and [gpa] (number
    literals, at most 18 integer digits), the text sent as one JSON
    string: the route answers 200 with one prediction per record, in the
    order of the lines, each made from the record's two features as
    floats. *)
Theorem predict_jsonl_records (f : list (PyObj * PyObj) -> PyObj) (host : string) (port : Z)
  (dbg : bool) (samples : list (NumLit * NumLit)) :
  samples <> [] -> forallb sample_ok samples = true ->
  @handle PyfuncModel json_stdlib pandas_lines pyfunc_model
    (mkServer (mkPyfunc (Some df_schema) f) host port dbg) (predict_req (samples_body samples)) =
  mkResponse 200 (BJson (PDict [("predictions", PList (map (fun s => f (sample_row s)) samples))]))
    [].
Proof.
  intros Hne Hok. assert (Hne' : map sample_fields samples <> []) by (by destruct samples).
  apply handle_samples_text; try done.
  - rewrite list_ascii_of_string_of_list_ascii. by apply join_text_chars, samples_printable.
  - destruct (jsonl_text_snoc _ Hne') as [m ->]. apply looks_like_json_file_brace.
  - apply combine_jsonl; [done | apply samples_fields_ok, Hok].
Qed.

(** C18. The route does not hold the client to one record per line:
    a body with all the records on one line, separated by commas, is
    answered exactly as the JSON lines are, one prediction per record,
    since pandas' [_combine_lines] joins the stripped lines with commas
    before ujson parses them. *)
Theorem predict_one_line_records (f : list (PyObj * PyObj) -> PyObj) (host : string) (port : Z)
  (dbg : bool) (samples : list (NumLit * NumLit)) :
  samples <> [] -> forallb sample_ok samples = true ->
  @handle PyfuncModel json_stdlib pandas_lines pyfunc_model
    (mkServer (mkPyfunc (Some df_schema) f) host port dbg)
    (predict_req (dumps_str (string_of_list_ascii (objects_text (map sample_fields samples))))) =
  mkResponse 200 (BJson (PDict [("predictions", PList (map (fun s => f (sample_row s)) samples))]))
    [].
Proof.
  intros Hne Hok. assert (Hne' : map sample_fields samples <> []) by (by destruct samples).
  apply handle_samples_text; try done.
  - rewrite list_ascii_of_string_of_list_ascii, objects_text_join.
    apply printable_text_chars, join_printable; [reflexivity | by apply samples_printable].
  - destruct (join_braces ","%char (map object_text (map sample_fields samples))) as [m Hm];
      [by destruct samples | apply object_texts_braces |].
    rewrite objects_text_join, Hm, app_comm_cons. apply looks_like_json_file_brace.
  - apply combine_one_line; [done | apply samples_fields_ok, Hok].
Qed.

(** C20. Boundary input: a body that is a JSON string of blank lines
    (spaces and newlines, the empty string included) holds no record;
    pandas reads it as a frame without columns, the signature's check
    finds both inputs [gre] and [gpa] missing, and the route answers 500
    with that exception, not a client error and not an empty list of
    predictions. *)
Theorem predict_blank_body_500 (f : list (PyObj * PyObj) -> PyObj) (host : string) (port : Z)
  (dbg : bool) (t : list ascii) :
  Forall blank t ->
  @handle PyfuncModel json_stdlib pandas_lines pyfunc_model
    (mkServer (mkPyfunc (Some df_schema) f) host port dbg)
    (predict_req (dumps_str (string_of_list_ascii t))) =
  server_error dbg (MlflowMissingInputs ["gre"; "gpa"] false).
Proof.
  intros Ht.
  assert (Hj : @json_loads json_stdlib (dumps_str (string_of_list_ascii t)) =
               Ok (PStr (string_of_list_ascii t))).
  { apply py_json_loads_dumps. rewrite list_ascii_of_string_of_list_ascii.
    by apply blank_text_char. }
  assert (Hr : @read_json pandas_lines (PStr (string_of_list_ascii t)) true df_schema =
               Ok (mkFrame 0 [])).
  { cbn [read_json pandas_lines pandas_reference]. unfold pandas_read_json, source_text, no_files.
    rewrite looks_like_json_file_blank by done. cbn [py_bind].
    rewrite combine_blank by done. reflexivity. }
  rewrite handle_predict. unfold make_predictions. cbn [req_body predict_req].
  rewrite (get_json_force_ok _ _ Hj). cbn [py_bind]. rewrite Hr. reflexivity.
Qed.

(** C21. A record that lacks [gpa] while another has it is not
    refused by the service: [DataFrame] fills its [gpa] cell with NaN,
    [astype(float)] and the signature accept the column, and the
    estimator gets one row per record, NaN as that record's [gpa]
    ([rec_row]).  The answer is the estimator's: 200 with its predictions
    when it accepts every row, and 500 with the exception it raises
    otherwise (as scikit-learn estimators without NaN support do), never
    an input error of the service's own. *)
Theorem predict_missing_gpa_nan (m : PyfuncModel) (host : string) (port : Z)
  (dbg : bool) (recs : list Rec) :
  pf_schema m = Some df_schema ->
  existsb has_gpa recs = true -> forallb rec_ok recs = true ->
  @handle PyfuncModel json_stdlib pandas_lines pyfunc_model (mkServer m host port dbg)
    (predict_req (jsonl_body (map rec_fields recs))) =
  match py_mapM (pf_estimator m) (map rec_row recs) with
  | Ok preds => mkResponse 200 (BJson (PDict [("predictions", PList preds)])) []
  | Raise e => server_error dbg e
  end.
Proof.
  intros Hs Hg Hok. assert (Hne : recs <> []) by (by destruct recs).
  destruct (jsonl_text_recs recs Hne Hok) as (Ht & Hfile & Hcomb).
  by apply handle_recs_est.
Qed.

(** C22. When no record has [gpa], pandas builds a frame without that
    column, the signature's check finds the input missing, and the
    route answers 500. *)
Theorem predict_no_gpa_500 (f : list (PyObj * PyObj) -> PyObj) (host : string) (port : Z)
  (dbg : bool) (recs : list Rec) :
  recs <> [] -> existsb has_gpa recs = false -> forallb rec_ok recs = true ->
  @handle PyfuncModel json_stdlib pandas_lines pyfunc_model
    (mkServer (mkPyfunc (Some df_schema) f) host port dbg)
    (predict_req (jsonl_body (map rec_fields recs))) =
  server_error dbg (MlflowMissingInputs ["gpa"] false).
Proof.
  intros Hne Hg Hok. destruct (jsonl_text_recs recs Hne Hok) as (Ht & Hfile & Hcomb).
  rewrite handle_predict. unfold make_predictions. cbn [req_body predict_req].
  unfold jsonl_body. rewrite (@get_json_force_ok json_stdlib _ _ (py_json_loads_dumps 1000 _ Ht)).
  cbn [py_bind]. rewrite (read_json_dicts _ _ Hok Hfile Hcomb), apply_dtype_no_gpa by done.
  reflexivity.
Qed.

(** ** Witnesses

    Two records, [gre] 300 and [gpa] 3.2, then [gre] 310 and [gpa] 3.5,
    for the model that predicts its [gpa] feature. *)
Definition example_samples : list (NumLit * NumLit) :=
  [(mkNum false ["3"; "0"; "0"] [], mkNum false ["3"] ["2"]);
   (mkNum false ["3"; "1"; "0"] [], mkNum false ["3"] ["5"])]%char.

Lemma predict_jsonl_records_witness :
  example_samples <> [] /\ forallb sample_ok example_samples = true /\
  @handle PyfuncModel json_stdlib pandas_lines pyfunc_model srv_gpa
    (predict_req (samples_body example_samples)) =
  mkResponse 200 (BJson (PDict [("predictions", PList [PFloat (FDec false 32 (-1));
                                                      PFloat (FDec false 35 (-1))])])) [].
Proof.
  split_and!; [discriminate | reflexivity |].
  apply (predict_jsonl_records second_feature "0.0.0.0" 8080 true example_samples);
    [discriminate | reflexivity].
Defined.

Lemma predict_one_line_records_witness :
  example_samples <> [] /\ forallb sample_ok example_samples = true /\
  @handle PyfuncModel json_stdlib pandas_lines pyfunc_model srv_gpa
    (predict_req (dumps_str (string_of_list_ascii (objects_text (map sample_fields example_samples))))) =
  mkResponse 200 (BJson (PDict [("predictions", PList [PFloat (FDec false 32 (-1));
                                                      PFloat (FDec false 35 (-1))])])) [].
Proof.
  split_and!; [discriminate | reflexivity |].
  apply (predict_one_line_records second_feature "0.0.0.0" 8080 true example_samples);
    [discriminate | reflexivity].
Defined.

Lemma predict_blank_body_500_witness :
  Forall blank [nl; " "%char] /\
  @handle PyfuncModel json_stdlib pandas_lines pyfunc_model srv_gpa
    (predict_req (dumps_str (string_of_list_ascii [nl; " "%char]))) =
  server_error true (MlflowMissingInputs ["gre"; "gpa"] false).
Proof.
  assert (Hb : Forall blank [nl; " "%char]).
  { repeat apply Forall_cons_2; [by right | by left | apply Forall_nil_2]. }
  split; [exact Hb | exact (predict_blank_body_500 second_feature _ _ _ _ Hb)].
Defined.

(** A record with both features, then one with [gre] 320 only. *)
Definition example_recs : list Rec :=
  [full (mkNum false ["3"; "0"; "0"] [], mkNum false ["3"] ["2"]);
   (mkNum false ["3"; "2"; "0"] [], None)]%char.

(** An estimator that refuses NaN, as scikit-learn's input validation
    does for most estimators. *)
Definition refuses_nan (row : list (PyObj * PyObj)) : PyResult PyObj :=
  if existsb (fun kv => bool_decide (kv.2 = PFloat FNaN)) row
  then Raise (ValueError "Input X contains NaN.") else Ok (second_feature row).

Lemma refuses_nan_no_http r e : refuses_nan r = Raise e -> is_http_exception e = false.
Proof. unfold refuses_nan. case_match; [by intros [= <-] | discriminate]. Qed.

Definition model_no_nan : PyfuncModel := mkPyfuncModel (Some df_schema) refuses_nan refuses_nan_no_http.

Lemma predict_missing_gpa_nan_witness :
  existsb has_gpa example_recs = true /\ forallb rec_ok example_recs = true /\
  @handle PyfuncModel json_stdlib pandas_lines pyfunc_model srv_gpa
    (predict_req (jsonl_body (map rec_fields example_recs))) =
  mkResponse 200 (BJson (PDict [("predictions", PList [PFloat (FDec false 32 (-1)); PFloat FNaN])])) [] /\
  @handle PyfuncModel json_stdlib pandas_lines pyfunc_model (mkServer model_no_nan "0.0.0.0" 8080 true)
    (predict_req (jsonl_body (map rec_fields example_recs))) =
  server_error true (ValueError "Input X contains NaN.").
Proof.
  split_and!; [reflexivity | reflexivity | |].
  - etransitivity; [apply (predict_missing_gpa_nan model_gpa "0.0.0.0" 8080 true example_recs) |];
      reflexivity.
  - etransitivity; [apply (predict_missing_gpa_nan model_no_nan "0.0.0.0" 8080 true example_recs) |];
      reflexivity.
Defined.

Definition gre_only : list Rec := [(mkNum false ["3"; "2"; "0"] [], None)]%char.

Lemma predict_no_gpa_500_witness :
  gre_only <> [] /\
  existsb has_gpa gre_only = false /\
  forallb rec_ok gre_only = true /\
  @handle PyfuncModel json_stdlib pandas_lines pyfunc_model srv_gpa
    (predict_req (jsonl_body (map rec_fields gre_only))) =
  server_error true (MlflowMissingInputs ["gpa"] false).
Proof.
  split_and!; [discriminate | reflexivity | reflexivity |].
  apply (predict_no_gpa_500 second_feature "0.0.0.0" 8080 true); [discriminate | reflexivity ..].
Defined.
