(* ===== verification/JsonOut.v ===== *)
(** * Flask's JSON responses

    A view that returns a dict or a list (lines 17 and 33) is answered
    with [app.json.response(rv)] of Flask's [DefaultJSONProvider]:
    [json.dumps(rv, ensure_ascii=True, sort_keys=True, **dump_args)]
    followed by a newline, where [dump_args] is [indent=2] when
    [app.debug] is set (as [api.run(debug=True)] sets it) and
    [separators=(",", ":")] otherwise.  [json.dumps] is CPython's
    [json.encoder]:
    - [escape_cp], [py_encode_str]: [encode_basestring_ascii]: printable
      ASCII other than a quote and a backslash as it is, a backslash
      before a quote or a backslash, the short escapes b, f, n, r and t
      for their control characters, every other code point as [\u]
      and four lower-case hex digits (two such escapes, a surrogate
      pair, above U+FFFF);
    - [float_repr]: [repr(float)] for a float literal with at most 15
      significant digits (which is then the shortest literal that
      reads back as the same binary64 number) in the normal range; the
      repr of other floats depends on binary64 rounding and is the
      parameter [repr_other]; NaN and the infinities are the encoder's
      [NaN], [Infinity] and [-Infinity];
    - [sort_obj]: [sorted(dct.items())] at every dict, by code point
      order of the keys;
    - [encode]: [_make_iterencode] with its indentation and separators. *)

From Stdlib Require Import Ascii String ZArith Lia Permutation.
From stdpp Require Import base list.
From S2P Require Import Prelude PyData Unicode PyInt Libs Flask Json JsonText Inference.

Open Scope Z_scope.
Open Scope list_scope.

(** ** Strings *)

Definition hex_digit (n : Z) : ascii := chr (if n <? 10 then 48 + n else 87 + n).

(** The backslash. *)
Definition bs : ascii := "092"%char.

(** A backslash, [u] and the four hex digits of a 16-bit unit. *)
Definition u_escape (c : Z) : list ascii :=
  [bs; "u"%char; hex_digit (c / 4096 mod 16); hex_digit (c / 256 mod 16);
   hex_digit (c / 16 mod 16); hex_digit (c mod 16)].

(** [ascii_escape_unichar], or the character itself when [S_CHAR]
    holds; a code point above U+FFFF as its UTF-16 surrogate pair. *)
Definition escape_cp (c : Z) : list ascii :=
  if (32 <=? c) && (c <=? 126) && negb (c =? 34) && negb (c =? 92) then [chr c]
  else if c =? 92 then [bs; bs]
  else if c =? 34 then [bs; dq]
  else if c =? 8 then [bs; "b"%char]
  else if c =? 12 then [bs; "f"%char]
  else if c =? 10 then [bs; "n"%char]
  else if c =? 13 then [bs; "r"%char]
  else if c =? 9 then [bs; "t"%char]
  else if 0x10000 <=? c then
    u_escape (0xD800 + (c - 0x10000) / 1024) ++ u_escape (0xDC00 + (c - 0x10000) mod 1024)
  else u_escape c.

(** [encode_basestring_ascii(s)], on the code points of [s]. *)
Definition py_encode_str (s : string) : list ascii :=
  dq :: flat_map escape_cp (str_cps s) ++ [dq].

(** ** Floats *)

(** The mantissa without its trailing zeros, and the exponent that
    keeps the value. *)
Fixpoint strip_zeros (fuel : nat) (m : Z) (e : Z) : Z * Z :=
  match fuel with
  | O => (m, e)
  | S f => if (m =? 0) || negb (m mod 10 =? 0) then (m, e) else strip_zeros f (m / 10) (e + 1)
  end.

Definition zeros (n : Z) : list ascii := repeat "0"%char (Z.to_nat n).

Definition digit_chars (ds : list Z) : list ascii := map (fun d => chr (48 + d)) ds.

(** [format_float_short(x, 'r', 0, Py_DTSF_ADD_DOT_0)] on the shortest
    digits [ds] of [x] and the position [decpt] of the decimal point:
    exponent notation below [1e-4] and from [1e16] on. *)
Definition format_short (ds : list Z) (decpt : Z) : list ascii :=
  let k := Z.of_nat (length ds) in
  if (decpt <=? -4) || (16 <? decpt) then
    let exp := decpt - 1 in
    digit_chars (firstn 1 ds) ++
    (if 1 <? k then "."%char :: digit_chars (skipn 1 ds) else []) ++
    "e"%char :: (if exp <? 0 then "-"%char else "+"%char) ::
    (if Z.abs exp <? 10 then ["0"%char] else []) ++ list_ascii_of_string (py_str_of_Z (Z.abs exp))
  else if decpt <=? 0 then "0"%char :: "."%char :: zeros (- decpt) ++ digit_chars ds
  else if decpt <? k then
    digit_chars (firstn (Z.to_nat decpt) ds) ++ "."%char :: digit_chars (skipn (Z.to_nat decpt) ds)
  else digit_chars ds ++ zeros (decpt - k) ++ ["."; "0"]%char.

Section Encoder.
(** [repr(float)] of a float whose literal has more than 15 significant
    digits, or is near the ends of the binary64 range: binary64 rounding
    is not modelled. *)
Variable repr_other : PyFloat -> list ascii.

Definition float_repr (f : PyFloat) : list ascii :=
  match f with
  | FDec neg mant exp =>
      let sign := if neg then ["-"%char] else [] in
      if (mant =? 0)%N then sign ++ ["0"; "."; "0"]%char
      else
        let '(m, e) := strip_zeros (N.to_nat mant) (Z.of_N mant) exp in
        let ds := decimal_digits m in
        let decpt := Z.of_nat (length ds) + e in
        if (Z.of_nat (length ds) <=? 15) && (-300 <=? decpt) && (decpt <=? 300)
        then sign ++ format_short ds decpt
        else repr_other f
  | _ => repr_other f
  end.

(** [floatstr] of [_make_iterencode] with [allow_nan=True]. *)
Definition floatstr (f : PyFloat) : list ascii :=
  match f with
  | FNaN => list_ascii_of_string "NaN"
  | FInf false => list_ascii_of_string "Infinity"
  | FInf true => list_ascii_of_string "-Infinity"
  | FDec _ _ _ => float_repr f
  end.

(** ** Values *)

(** [indent] and [separators] of [json.dumps]. *)
Record Layout : Type := mkLayout {
  lay_indent : option nat;
  lay_item_sep : list ascii;
  lay_key_sep : list ascii
}.

(** ['\n' + indent * level], or nothing without [indent]. *)
Definition newline_indent (lay : Layout) (lvl : nat) : list ascii :=
  match lay_indent lay with
  | None => []
  | Some n => nl :: repeat " "%char (n * lvl)
  end.

Fixpoint join_with (sep : list ascii) (ls : list (list ascii)) : list ascii :=
  match ls with
  | [] => []
  | [l] => l
  | l :: ls' => l ++ sep ++ join_with sep ls'
  end.

(** [_iterencode] at indentation level [lvl]. *)
Fixpoint encode (lay : Layout) (lvl : nat) (v : PyObj) {struct v} : list ascii :=
  match v with
  | PNone => list_ascii_of_string "null"
  | PBool true => list_ascii_of_string "true"
  | PBool false => list_ascii_of_string "false"
  | PInt z => list_ascii_of_string (py_str_of_Z z)
  | PFloat f => floatstr f
  | PStr s => py_encode_str s
  | PList [] => ["["; "]"]%char
  | PList l =>
      "["%char :: newline_indent lay (S lvl) ++
      join_with (lay_item_sep lay ++ newline_indent lay (S lvl)) (map (encode lay (S lvl)) l) ++
      newline_indent lay lvl ++ ["]"%char]
  | PDict [] => ["{"; "}"]%char
  | PDict d =>
      "{"%char :: newline_indent lay (S lvl) ++
      join_with (lay_item_sep lay ++ newline_indent lay (S lvl))
        (map (fun kv => py_encode_str kv.1 ++ lay_key_sep lay ++ encode lay (S lvl) kv.2) d) ++
      newline_indent lay lvl ++ ["}"%char]
  end.
End Encoder.

(** [sorted(dct.items())]: insertion by key, in code point order. *)
Fixpoint insert_item (kv : string * PyObj) (d : list (string * PyObj)) : list (string * PyObj) :=
  match d with
  | [] => [kv]
  | kv' :: d' => if String.ltb kv'.1 kv.1 then kv' :: insert_item kv d' else kv :: d
  end.

Definition sort_items (d : list (string * PyObj)) : list (string * PyObj) :=
  fold_right insert_item [] d.

(** [sort_keys=True] at every level. *)
Fixpoint sort_obj (v : PyObj) : PyObj :=
  match v with
  | PList l => PList (map sort_obj l)
  | PDict d => PDict (sort_items (map (fun kv => (kv.1, sort_obj kv.2)) d))
  | _ => v
  end.

(** ** Flask's JSON provider *)

Definition flask_layout (debug : bool) : Layout :=
  if debug then mkLayout (Some 2%nat) [","%char] [":"; " "]%char
  else mkLayout None [","%char] [":"%char].

(** [f"{self.dumps(obj, **dump_args)}\n"] *)
Definition flask_json_text (repr_other : PyFloat -> list ascii) (debug : bool) (v : PyObj)
  : list ascii :=
  encode repr_other (flask_layout debug) 0 (sort_obj v) ++ [nl].

(** The text of a response body: the JSON document of a dict or a list,
    the str a view returned; werkzeug's HTML error pages, redirects and
    empty bodies are not modelled. *)
Definition response_text (repr_other : PyFloat -> list ascii) (debug : bool) (b : RespBody)
  : option string :=
  match b with
  | BJson v => Some (string_of_list_ascii (flask_json_text repr_other debug v))
  | BText s => Some s
  | _ => None
  end.

(** ** Reading strings back

    [json.loads] undoes every escape of [encode_basestring_ascii] on a
    str of valid code points without surrogates. *)

(** A code point in [0, 0x10FFFF] that is not a surrogate, and a str
    made of such code points, given as its UTF-8 encoding. *)
Definition cp_ok (c : Z) : bool := (0 <=? c) && (c <=? 0x10FFFF) && negb (in_range 0xD800 0xDFFF c).

Definition str_ok (s : string) : bool :=
  match utf8_decode (list_ascii_of_string s) with
  | Some cps => forallb cp_ok cps && bool_decide (encode_cps cps = list_ascii_of_string s)
  | None => false
  end.

Lemma hex_val_digit n : 0 <= n < 16 -> hex_val (hex_digit n) = Some n.
Proof.
  intros Hn. unfold hex_val, hex_digit. cbv zeta.
  destruct (Z.ltb_spec n 10); rewrite byte_chr by lia.
  - rewrite in_range_true by lia. f_equal. lia.
  - rewrite !in_range_false, in_range_true by lia. f_equal. lia.
Qed.

Lemma hex4_u_escape c :
  0 <= c < 65536 ->
  hex4 (hex_digit (c / 4096 mod 16)) (hex_digit (c / 256 mod 16)) (hex_digit (c / 16 mod 16))
       (hex_digit (c mod 16)) = Some c.
Proof.
  intros Hc. unfold hex4. rewrite !hex_val_digit by (apply Z.mod_pos_bound; lia).
  f_equal.
  assert (E1 : c / 256 = c / 16 / 16) by (rewrite Z.div_div by lia; reflexivity).
  assert (E2 : c / 4096 = c / 16 / 16 / 16) by (rewrite !Z.div_div by lia; reflexivity).
  rewrite E1, E2.
  pose proof (Z.div_mod c 16 ltac:(lia)). pose proof (Z.mod_pos_bound c 16 ltac:(lia)).
  pose proof (Z.div_mod (c / 16) 16 ltac:(lia)). pose proof (Z.mod_pos_bound (c / 16) 16 ltac:(lia)).
  pose proof (Z.div_mod (c / 16 / 16) 16 ltac:(lia)).
  pose proof (Z.mod_pos_bound (c / 16 / 16) 16 ltac:(lia)).
  assert (c / 16 / 16 / 16 < 16).
  { apply Z.div_lt_upper_bound; [lia|]. apply Z.div_lt_upper_bound; [lia|].
    apply Z.div_lt_upper_bound; lia. }
  assert (0 <= c / 16 / 16 / 16) by (repeat apply Z.div_pos; lia).
  rewrite (Z.mod_small (c / 16 / 16 / 16)) by lia. lia.
Qed.

Lemma cp_ok_spec c : cp_ok c = true -> 0 <= c <= 0x10FFFF /\ (c < 0xD800 \/ 0xDFFF < c).
Proof.
  unfold cp_ok, in_range. intros [[H1 H2]%andb_prop H3]%andb_prop.
  apply Z.leb_le in H1, H2. split; [lia|].
  destruct (Z.leb_spec 0xD800 c), (Z.leb_spec c 0xDFFF); simpl in H3; try discriminate; lia.
Qed.

(** The scanner undoes the escape of one code point. *)
Lemma scan_chars_escape c r acc :
  cp_ok c = true -> scan_chars (escape_cp c ++ r) acc = scan_chars r (rev (utf8_encode c) ++ acc).
Proof.
  intros (Hc & Hs)%cp_ok_spec. unfold escape_cp.
  destruct ((32 <=? c) && (c <=? 126) && negb (c =? 34) && negb (c =? 92)) eqn:Hp.
  - apply andb_prop in Hp as [[[H1 H2]%andb_prop H3]%andb_prop H4].
    apply Z.leb_le in H1, H2. apply negb_true_iff, Z.eqb_neq in H3, H4.
    cbn [app scan_chars].
    case_bool_decide as E; [apply (f_equal byte) in E; rewrite byte_chr in E by lia; done|].
    case_bool_decide as E'; [apply (f_equal byte) in E'; rewrite byte_chr in E' by lia; done|].
    rewrite byte_chr by lia. rewrite (proj2 (Z.leb_gt _ _)) by lia.
    unfold utf8_encode. by rewrite (proj2 (Z.ltb_lt c 0x80)) by lia.
  - destruct (Z.eqb_spec c 92) as [->|H92]; [reflexivity|].
    destruct (Z.eqb_spec c 34) as [->|H34]; [reflexivity|].
    destruct (Z.eqb_spec c 8) as [->|H8]; [reflexivity|].
    destruct (Z.eqb_spec c 12) as [->|H12]; [reflexivity|].
    destruct (Z.eqb_spec c 10) as [->|H10]; [reflexivity|].
    destruct (Z.eqb_spec c 13) as [->|H13]; [reflexivity|].
    destruct (Z.eqb_spec c 9) as [->|H9]; [reflexivity|].
    destruct (Z.leb_spec 0x10000 c) as [Hbig|Hsmall].
    + set (v := c - 0x10000).
      pose proof (Z.div_mod v 1024 ltac:(lia)). pose proof (Z.mod_pos_bound v 1024 ltac:(lia)).
      unfold u_escape. cbn [app]. simpl scan_chars. rewrite hex4_u_escape by lia.
      rewrite (in_range_true 0xD800 0xDBFF) by lia. simpl scan_chars.
      rewrite hex4_u_escape by lia. rewrite (in_range_true 0xDC00 0xDFFF) by lia.
      replace (0x10000 + (0xD800 + v / 1024 - 0xD800) * 1024 + (0xDC00 + v mod 1024 - 0xDC00))
        with c by lia.
      reflexivity.
    + unfold u_escape. cbn [app]. simpl scan_chars. rewrite hex4_u_escape by lia.
      unfold is_high_surrogate. rewrite in_range_false by lia. reflexivity.
Qed.

(** The escaped code points of a str, then its closing quote. *)
Lemma scan_chars_escaped cps t acc :
  forallb cp_ok cps = true ->
  scan_chars (flat_map escape_cp cps ++ dq :: t) acc = inr (rev acc ++ encode_cps cps, t).
Proof.
  revert acc. induction cps as [|c cps IH]; intros acc Hok; simpl in Hok.
  - simpl. by rewrite app_nil_r.
  - apply andb_prop in Hok as [Hc Hok]. cbn [flat_map]. rewrite <- app_assoc.
    rewrite scan_chars_escape, IH by done. f_equal. f_equal.
    unfold encode_cps. cbn [map concat]. rewrite rev_app_distr, rev_involutive.
    by rewrite <- app_assoc.
Qed.

Lemma str_ok_spec s :
  str_ok s = true ->
  forallb cp_ok (str_cps s) = true /\ encode_cps (str_cps s) = list_ascii_of_string s.
Proof.
  unfold str_ok, str_cps. destruct (utf8_decode (list_ascii_of_string s)) as [cps|]; [|done].
  simpl. intros [H1 H2]%andb_prop. split; [done|]. by apply bool_decide_eq_true in H2.
Qed.

(** What the string scanner makes of an encoded str. *)
Lemma scan_string_encoded s t :
  str_ok s = true -> scan_string (flat_map escape_cp (str_cps s) ++ dq :: t) = inr (s, t).
Proof.
  intros [Hok He]%str_ok_spec. unfold scan_string. rewrite scan_chars_escaped by done.
  simpl. by rewrite He, string_of_list_ascii_of_string.
Qed.

(** ** Reading numbers and constants back *)

(** [str(z)] as a number literal. *)
Definition int_lit (z : Z) : NumLit := mkNum (z <? 0) (digit_chars (decimal_digits (Z.abs z))) [].

Lemma encode_int z : list_ascii_of_string (py_str_of_Z z) = num_text (int_lit z).
Proof.
  unfold py_str_of_Z, num_text, int_lit. rewrite list_ascii_of_string_of_list_ascii.
  cbn [lit_neg lit_int lit_frac frac_text]. by rewrite app_nil_r.
Qed.

Lemma digits_value_zero ds : digits_value (0 :: ds) = digits_value ds.
Proof. reflexivity. Qed.

(** The first digit of [str(n)] is not 0, unless [n] is 0. *)
Lemma decimal_digits_head n :
  0 <= n -> exists d ds, decimal_digits n = d :: ds /\ (d = 0 -> ds = []).
Proof.
  intros Hn. destruct (decimal_digits_spec n Hn) as (Hd & Hne & Hv & Hl).
  destruct (decimal_digits n) as [|d ds] eqn:E; [done|]. exists d, ds. split; [done|].
  intros ->. destruct ds as [|d' ds]; [done|]. exfalso.
  apply Forall_cons_1 in Hd as [_ Hds].
  pose proof (digits_value_bound _ Hds) as [_ Hb].
  rewrite digits_value_zero in Hv. rewrite Hv in Hb.
  specialize (Hl (Z.of_nat (length (d' :: ds))) ltac:(simpl; lia) Hb). simpl in Hl. lia.
Qed.

Lemma digit_chars_digits ds :
  Forall (fun d => 0 <= d < 10) ds ->
  forallb is_digit (digit_chars ds) = true /\ digits_of (digit_chars ds) = ds.
Proof.
  induction 1 as [|d ds Hd _ [IH1 IH2]]; [done|].
  assert (Hb : byte (chr (48 + d)) = 48 + d) by (apply byte_chr; lia).
  split.
  - change (is_digit (chr (48 + d)) && forallb is_digit (digit_chars ds) = true).
    rewrite IH1, andb_true_r. unfold is_digit. rewrite Hb. apply in_range_true. lia.
  - change ((byte (chr (48 + d)) - 48) :: digits_of (digit_chars ds) = d :: ds).
    rewrite Hb, IH2. f_equal. lia.
Qed.

Lemma int_lit_ok z : Z.abs z < 10 ^ max_str_digits -> lit_ok (int_lit z) = true.
Proof.
  intros Hz. destruct (decimal_digits_spec (Z.abs z)) as (Hd & _ & _ & Hl); [lia|].
  destruct (decimal_digits_head (Z.abs z)) as (d & ds & E & Hz0); [lia|].
  destruct (digit_chars_digits _ Hd) as [Hdig _].
  assert (Hlen : Z.of_nat (length (digit_chars (decimal_digits (Z.abs z)))) <= max_str_digits).
  { unfold digit_chars. rewrite length_map. apply Hl; [unfold max_str_digits; lia | done]. }
  unfold lit_ok, int_lit. cbn [lit_int lit_frac]. rewrite app_nil_r, Hdig, andb_true_l.
  rewrite E in Hlen |- *. cbn [digit_chars map] in Hlen |- *. apply andb_true_intro. split.
  - destruct (Z.eqb_spec d 0) as [->|Hd0].
    + rewrite (Hz0 eq_refl). apply orb_true_intro. right. by apply bool_decide_eq_true_2.
    + apply orb_true_intro. left. apply negb_true_iff, bool_decide_eq_false_2. intros Ec.
      apply (f_equal byte) in Ec. rewrite E in Hd. inversion Hd; subst.
      rewrite byte_chr in Ec by lia. change (byte "0"%char) with 48 in Ec. lia.
  - by apply Z.leb_le.
Qed.

Lemma int_lit_value z : num_value (int_lit z) = PInt z.
Proof.
  destruct (decimal_digits_spec (Z.abs z)) as (Hd & _ & Hv & _); [lia|].
  unfold num_value, int_lit. cbn [lit_neg lit_int lit_frac].
  rewrite (proj2 (digit_chars_digits _ Hd)), Hv. f_equal. destruct (Z.ltb_spec z 0); lia.
Qed.

Section Scan.
Variable max_depth : nat.

Lemma scan_value_int f d z c t :
  Z.abs z < 10 ^ max_str_digits -> num_end c ->
  scan_value max_depth (S f) d (list_ascii_of_string (py_str_of_Z z) ++ c :: t) =
  Some (inr (PInt z, c :: t)).
Proof.
  intros Hz Hc. rewrite encode_int, scan_value_num, int_lit_value by (done || by apply int_lit_ok).
  reflexivity.
Qed.

(** The scanner gives the same answer with more fuel. *)
Lemma scan_mono f :
  (forall d s r, scan_value max_depth f d s = Some r -> scan_value max_depth (S f) d s = Some r) /\
  (forall d s acc r, scan_members max_depth f d s acc = Some r ->
     scan_members max_depth (S f) d s acc = Some r) /\
  (forall d s acc r, scan_elements max_depth f d s acc = Some r ->
     scan_elements max_depth (S f) d s acc = Some r).
Proof.
  induction f as [|f (IHv & IHm & IHe)]; [repeat split; discriminate|].
  split; [|split].
  - intros d [|a s] r H; [exact H|]. cbn [scan_value] in H |- *.
    case_bool_decide; [exact H|]. case_bool_decide; [|case_bool_decide].
    + destruct (max_depth <=? d)%nat; [exact H|].
      destruct (peek "}" (skip_ws s)); [exact H | by apply IHm].
    + destruct (max_depth <=? d)%nat; [exact H|].
      destruct (peek "]" (skip_ws s)); [exact H | by apply IHe].
    + exact H.
  - intros d s acc r H. cbn [scan_members] in H |- *.
    destruct (peek "034"%char s) as [r0|]; [|exact H].
    destruct (scan_string r0) as [|[k r1]]; [exact H|].
    destruct (peek ":" (skip_ws r1)) as [r2|]; [|exact H].
    destruct (scan_value max_depth f d (skip_ws r2)) as [res|] eqn:Ev; [|discriminate].
    rewrite (IHv _ _ _ Ev). destruct res as [|[v r3]]; [exact H|].
    destruct (peek "}" (skip_ws r3)); [exact H|].
    destruct (peek "," (skip_ws r3)); [by apply IHm | exact H].
  - intros d s acc r H. cbn [scan_elements] in H |- *.
    destruct (scan_value max_depth f d s) as [res|] eqn:Ev; [|discriminate].
    rewrite (IHv _ _ _ Ev). destruct res as [|[v r1]]; [exact H|].
    destruct (peek "]" (skip_ws r1)); [exact H|].
    destruct (peek "," (skip_ws r1)); [by apply IHe | exact H].
Qed.

Lemma scan_value_mono f f' d s r :
  (f <= f')%nat -> scan_value max_depth f d s = Some r -> scan_value max_depth f' d s = Some r.
Proof. intros Hle Hs. induction Hle; [done|]. by apply (proj1 (scan_mono _)). Qed.

End Scan.

(** ** Reading a response back *)

(** The values [json.loads] reads back from what [json.dumps] writes:
    ints with fewer than [max_str_digits] digits, the floats [fok]
    accepts, strs and keys of valid code points, dicts without a
    repeated key. *)
Fixpoint dump_ok (fok : PyFloat -> bool) (v : PyObj) : bool :=
  match v with
  | PNone | PBool _ => true
  | PInt z => Z.abs z <? 10 ^ max_str_digits
  | PFloat f => fok f
  | PStr s => str_ok s
  | PList l => forallb (dump_ok fok) l
  | PDict d =>
      bool_decide (NoDup (dict_keys d)) && forallb (fun kv => str_ok kv.1 && dump_ok fok kv.2) d
  end.

(** NaN and the infinities, which the encoder writes as the constants
    [NaN], [Infinity] and [-Infinity]. *)
Definition special_float (f : PyFloat) : bool :=
  match f with FDec _ _ _ => false | _ => true end.

(** The value read back when each float [f] reads back as [fread f]. *)
Fixpoint read_back (fread : PyFloat -> PyFloat) (v : PyObj) : PyObj :=
  match v with
  | PFloat f => PFloat (fread f)
  | PList l => PList (map (read_back fread) l)
  | PDict d => PDict (map (fun kv => (kv.1, read_back fread kv.2)) d)
  | _ => v
  end.

(** How deep lists and dicts nest: the scanner's recursion depth. *)
Fixpoint nesting (v : PyObj) : nat :=
  match v with
  | PList l => S (list_max (map nesting l))
  | PDict d => S (list_max (map (fun kv => nesting kv.2) d))
  | _ => O
  end.

(** What may follow a value in a document: a separator, a closing
    bracket or a newline. *)
Definition follows (r : list ascii) : Prop := exists c t, r = c :: t /\ num_end c.

Lemma scan_mono_le f f' :
  (f <= f')%nat ->
  (forall md d s r, scan_value md f d s = Some r -> scan_value md f' d s = Some r) /\
  (forall md d s acc r, scan_members md f d s acc = Some r -> scan_members md f' d s acc = Some r) /\
  (forall md d s acc r, scan_elements md f d s acc = Some r -> scan_elements md f' d s acc = Some r).
Proof.
  induction 1 as [|f' _ (IHv & IHm & IHe)]; [done|].
  repeat split; intros; [apply (proj1 (scan_mono _ _)) | apply (proj1 (proj2 (scan_mono _ _)))
    | apply (proj2 (proj2 (scan_mono _ _)))]; eauto.
Qed.

Lemma skip_ws_newline_indent lay n r : skip_ws (newline_indent lay n ++ r) = skip_ws r.
Proof.
  unfold newline_indent. destruct (lay_indent lay); [|done].
  cbn [app skip_ws]. change (is_ws nl) with true. cbn iota.
  induction (n0 * n)%nat; [done|]. exact IHn1.
Qed.

Lemma newline_indent_follows lay n c t :
  c = "]"%char \/ c = "}"%char -> follows (newline_indent lay n ++ c :: t).
Proof.
  unfold follows, num_end, newline_indent. intros Hc. destruct (lay_indent lay); simpl; eauto 10.
  destruct Hc as [-> | ->]; eauto 10.
Qed.

Lemma dict_set_new k v d : k ∉ dict_keys d -> dict_set k v d = d ++ [(k, v)].
Proof.
  induction d as [|[k0 v0] d IH]; intros Hk; [done|]. simpl.
  destruct (String.eqb_spec k k0) as [->|Hne]; [by destruct Hk; left|].
  f_equal. apply IH. intros Hin. apply Hk. by right.
Qed.

Lemma forallb_Permutation {A} (p : A -> bool) l l' : Permutation l l' -> forallb p l = forallb p l'.
Proof. induction 1; simpl; [done | by f_equal | by rewrite !andb_assoc, (andb_comm (p y)) | congruence]. Qed.

Lemma join_with_cons sep a l :
  join_with sep (a :: l) = a ++ match l with [] => [] | _ => sep ++ join_with sep l end.
Proof. destruct l; simpl; [by rewrite app_nil_r | reflexivity]. Qed.

Lemma nesting_children {A} (g : A -> PyObj) (l : list A) d md :
  (d + S (list_max (map (fun x => nesting (g x)) l)) <= md)%nat ->
  Forall (fun x => (S d + nesting (g x) <= md)%nat) l.
Proof.
  intros H. assert (Hl : (list_max (map (fun x => nesting (g x)) l) <= md - S d)%nat) by lia.
  apply list_max_le, Forall_map in Hl. eapply Forall_impl; [exact Hl|]. simpl. lia.
Qed.

Lemma int_lit_head z r :
  Z.abs z < 10 ^ max_str_digits ->
  exists a t, list_ascii_of_string (py_str_of_Z z) ++ r = a :: t /\
              is_ws a = false /\ a <> "]"%char /\ a <> "}"%char.
Proof.
  intros Hz. rewrite encode_int.
  destruct (num_text_head (int_lit z) r (int_lit_ok z Hz)) as (a & t & -> & Ha).
  exists a, t. split; [done|].
  destruct Ha as [-> | Ha]; [repeat split; discriminate|].
  split; [by apply is_ws_digit|]. apply is_digit_byte in Ha.
  split; intros ->; destruct Ha as [_ Ha]; apply Ha; reflexivity.
Qed.

Section RoundTrip.
Variable max_depth : nat.
Variable repr_other : PyFloat -> list ascii.
(** The separators of the layout: a comma between items, a colon and
    white space between a key and its value. *)
Variable lay : Layout.
Hypothesis lay_item : lay_item_sep lay = [","%char].
Hypothesis lay_key :
  forall r, option_map skip_ws (peek ":" (skip_ws (lay_key_sep lay ++ r))) = Some (skip_ws r).
(** The floats [fok] accepts are written as a token the scanner reads
    back as [fread f]. *)
Variable fok : PyFloat -> bool.
Variable fread : PyFloat -> PyFloat.
Hypothesis float_start :
  forall f r, fok f = true ->
  exists a t, floatstr repr_other f ++ r = a :: t /\ is_ws a = false /\ a <> "]"%char /\ a <> "}"%char.
Hypothesis float_read :
  forall f d c t, fok f = true -> num_end c ->
  scan_value max_depth 1 d (floatstr repr_other f ++ c :: t) = Some (inr (PFloat (fread f), c :: t)).

Lemma encode_start v lvl r :
  dump_ok fok v = true ->
  exists a t, encode repr_other lay lvl v ++ r = a :: t /\ is_ws a = false /\ a <> "]"%char /\ a <> "}"%char.
Proof.
  destruct v as [| [] | z | f | s | [|? ?] | [|? ?]]; simpl; intros Hok;
    try (eexists _, _; split; [reflexivity | repeat split; discriminate]).
  - by apply int_lit_head, Z.ltb_lt.
  - by apply float_start.
Qed.

Lemma skip_ws_encode v lvl r : dump_ok fok v = true -> skip_ws (encode repr_other lay lvl v ++ r) = encode repr_other lay lvl v ++ r.
Proof.
  intros Hok. destruct (encode_start v lvl r Hok) as (a & t & E & Hws & _). rewrite E.
  by apply skip_ws_other.
Qed.

(** [json.loads] reads the encoding of [v] back as [v] with its floats
    read back, with any fuel above some bound, at any depth that leaves
    room for its nesting. *)
Definition reads_back (v : PyObj) : Prop :=
  forall lvl d r, (d + nesting v <= max_depth)%nat -> follows r ->
  exists f, scan_value max_depth f d (encode repr_other lay lvl v ++ r) =
            Some (inr (read_back fread v, r)).

Lemma reads_back_atom v :
  dump_ok fok v = true -> (forall l, v <> PList l) -> (forall d, v <> PDict d) -> reads_back v.
Proof.
  intros Hok Hl Hd lvl d r _ (c & t & -> & Hc). exists 1%nat.
  destruct v as [| [] | z | f | s | l | dd]; simpl in Hok; try reflexivity; cbn [encode read_back].
  - by apply scan_value_int; [apply Z.ltb_lt|].
  - by apply float_read.
  - destruct (str_ok_spec s Hok) as [_ _]. unfold py_encode_str. cbn [app].
    rewrite <- app_assoc. cbn [app scan_value]. decide_chars. simpl lift.
    by rewrite scan_string_encoded.
  - by destruct (Hl l).
  - by destruct (Hd dd).
Qed.

Lemma scan_value_lift f f' d s r :
  scan_value max_depth f d s = Some r -> scan_value max_depth (Nat.max f f') d s = Some r.
Proof. apply (proj1 (scan_mono_le f (Nat.max f f') ltac:(lia))). Qed.

Lemma join_map_cons2 {A} sep (g : A -> list ascii) a b l :
  join_with sep (map g (a :: b :: l)) = g a ++ sep ++ join_with sep (map g (b :: l)).
Proof. reflexivity. Qed.

Lemma skip_ws_join {A} sep (g : A -> list ascii) a l t :
  (forall r, skip_ws (g a ++ r) = g a ++ r) ->
  skip_ws (join_with sep (map g (a :: l)) ++ t) = join_with sep (map g (a :: l)) ++ t.
Proof. intros Ha. rewrite map_cons, join_with_cons, <- app_assoc. apply Ha. Qed.

(** The items of a list after its [[]: each element, then a comma or
    the closing bracket. *)
Lemma scan_elements_encode l lvl d r acc :
  Forall (fun x => dump_ok fok x = true -> reads_back x) l ->
  forallb (dump_ok fok) l = true -> Forall (fun x => (d + nesting x <= max_depth)%nat) l -> l <> [] ->
  exists f, scan_elements max_depth f d
    (join_with (lay_item_sep lay ++ newline_indent lay (S lvl)) (map (encode repr_other lay (S lvl)) l)
       ++ newline_indent lay lvl ++ "]"%char :: r) acc =
    Some (inr (PList (rev acc ++ map (read_back fread) l), r)).
Proof.
  revert acc. induction l as [|x l IHl]; intros acc Hrb Hok Hd Hne; [done|].
  apply Forall_cons_1 in Hrb as [Hx Hrb], Hd as [Hdx Hd]. apply andb_prop in Hok as [Hokx Hok].
  destruct l as [|y l].
  - cbn [map join_with].
    destruct (Hx Hokx (S lvl) d _ Hdx (newline_indent_follows lay lvl "]" r ltac:(auto)))
      as [f Hf].
    exists (S f). cbn [scan_elements]. rewrite Hf, skip_ws_newline_indent. reflexivity.
  - destruct (IHl (read_back fread x :: acc) Hrb Hok Hd ltac:(done)) as [f2 Hf2].
    rewrite lay_item in Hf2.
    rewrite join_map_cons2, lay_item, <- !app_assoc. cbn [app].
    match goal with
    | |- context [encode repr_other lay (S lvl) x ++ ?rest] =>
        destruct (Hx Hokx (S lvl) d rest Hdx) as [f1 Hf1]; [unfold follows, num_end; eauto 10|]
    end.
    exists (S (Nat.max f1 f2)). cbn [scan_elements]. rewrite (scan_value_lift _ _ _ _ _ Hf1).
    cbn [skip_ws]. change (is_ws ","%char) with false. cbn iota.
    rewrite peek_other by discriminate. rewrite peek_same, skip_ws_newline_indent.
    rewrite skip_ws_join by (intros; apply skip_ws_encode; by apply andb_prop in Hok as [? _]).
    replace (rev acc ++ map (read_back fread) (x :: y :: l))
      with (rev (read_back fread x :: acc) ++ map (read_back fread) (y :: l))
      by (simpl; by rewrite <- app_assoc).
    apply (proj2 (proj2 (scan_mono_le f2 (Nat.max f1 f2) ltac:(lia))) _ _ _ _ _ Hf2).
Qed.

(** One member of a dict: the quoted key, the key separator, the value,
    after which the scanner looks for a closing brace or a comma. *)
Lemma scan_members_item f d lvl k v w rest acc :
  str_ok k = true -> dump_ok fok v = true ->
  scan_value max_depth f d (encode repr_other lay lvl v ++ rest) = Some (inr (w, rest)) ->
  scan_members max_depth (S f) d
    (py_encode_str k ++ lay_key_sep lay ++ encode repr_other lay lvl v ++ rest) acc =
  match peek "}" (skip_ws rest) with
  | Some r4 => Some (inr (PDict (dict_set k w acc), r4))
  | None =>
      match peek "," (skip_ws rest) with
      | Some r4 => scan_members max_depth f d (skip_ws r4) (dict_set k w acc)
      | None => err "Expecting ',' delimiter"
      end
  end.
Proof.
  intros Hk Hv Hf. unfold py_encode_str. cbn [app]. rewrite <- !app_assoc. cbn [app scan_members].
  rewrite peek_same, scan_string_encoded by done.
  specialize (lay_key (encode repr_other lay lvl v ++ rest)).
  destruct (peek ":" _) as [r2|]; [|discriminate]. injection lay_key as ->.
  by rewrite skip_ws_encode, Hf.
Qed.

(** The members of a dict after its [{]. *)
Lemma scan_members_encode items lvl d r acc :
  Forall (fun kv => dump_ok fok kv.2 = true -> reads_back kv.2) items ->
  forallb (fun kv => str_ok kv.1 && dump_ok fok kv.2) items = true ->
  NoDup (dict_keys acc ++ dict_keys items) ->
  Forall (fun kv => (d + nesting kv.2 <= max_depth)%nat) items -> items <> [] ->
  exists f, scan_members max_depth f d
    (join_with (lay_item_sep lay ++ newline_indent lay (S lvl))
       (map (fun kv => py_encode_str kv.1 ++ lay_key_sep lay ++ encode repr_other lay (S lvl) kv.2)
          items)
       ++ newline_indent lay lvl ++ "}"%char :: r) acc =
    Some (inr (PDict (acc ++ map (fun kv => (kv.1, read_back fread kv.2)) items), r)).
Proof.
  revert acc. induction items as [|[k x] items IHi]; intros acc Hrb Hok Hnd Hd Hne; [done|].
  apply Forall_cons_1 in Hrb as [Hx Hrb], Hd as [Hdx Hd].
  apply andb_prop in Hok as [[Hk Hokx]%andb_prop Hok]. simpl in Hx, Hdx, Hk, Hokx.
  assert (Hset : dict_set k (read_back fread x) acc = acc ++ [(k, read_back fread x)]).
  { apply dict_set_new. apply NoDup_app in Hnd as (_ & Hdis & _).
    intros Hin. apply (Hdis k Hin). by left. }
  destruct items as [|[k' y] items].
  - cbn [map join_with fst snd].
    destruct (Hx Hokx (S lvl) d _ Hdx (newline_indent_follows lay lvl "}" r ltac:(auto)))
      as [f Hf].
    exists (S f). rewrite <- !app_assoc, (scan_members_item _ _ _ _ _ _ _ _ Hk Hokx Hf).
    rewrite skip_ws_newline_indent, Hset.
    reflexivity.
  - destruct (IHi (acc ++ [(k, read_back fread x)]) Hrb Hok
      ltac:(unfold dict_keys in *; rewrite map_app, <- app_assoc; exact Hnd) Hd ltac:(done))
      as [f2 Hf2].
    rewrite <- app_assoc in Hf2. rewrite lay_item in Hf2.
    rewrite join_map_cons2, lay_item, <- !app_assoc. cbn [app fst snd].
    match goal with
    | |- context [encode repr_other lay (S lvl) x ++ ?rest] =>
        destruct (Hx Hokx (S lvl) d rest Hdx) as [f1 Hf1]; [unfold follows, num_end; eauto 10|]
    end.
    exists (S (Nat.max f1 f2)).
    rewrite (scan_members_item _ _ _ _ _ _ _ _ Hk Hokx (scan_value_lift _ _ _ _ _ Hf1)).
    cbn [skip_ws]. change (is_ws ","%char) with false. cbn iota.
    rewrite peek_other by discriminate. rewrite peek_same, skip_ws_newline_indent, Hset.
    rewrite skip_ws_join by reflexivity.
    apply (proj1 (proj2 (scan_mono_le f2 (Nat.max f1 f2) ltac:(lia))) _ _ _ _ _ Hf2).
Qed.

Lemma scan_value_open_list f d t :
  (d < max_depth)%nat -> peek "]" (skip_ws t) = None ->
  scan_value max_depth (S f) d ("["%char :: t) = scan_elements max_depth f (S d) (skip_ws t) [].
Proof.
  intros Hd Hp. cbn [scan_value]. decide_chars. rewrite (proj2 (Nat.leb_gt _ _) Hd), Hp.
  reflexivity.
Qed.

Lemma scan_value_open_dict f d t :
  (d < max_depth)%nat -> peek "}" (skip_ws t) = None ->
  scan_value max_depth (S f) d ("{"%char :: t) = scan_members max_depth f (S d) (skip_ws t) [].
Proof.
  intros Hd Hp. cbn [scan_value]. decide_chars. rewrite (proj2 (Nat.leb_gt _ _) Hd), Hp.
  reflexivity.
Qed.

(** The first item of a non-empty list or dict is not its closing bracket. *)
Lemma peek_join {A} c sep (g : A -> list ascii) a l t :
  (exists b u, g a = b :: u /\ b <> c) -> peek c (join_with sep (map g (a :: l)) ++ t) = None.
Proof.
  intros (b & u & Ea & Hb). rewrite map_cons, join_with_cons, Ea. by apply peek_other.
Qed.

Lemma encode_head v lvl :
  dump_ok fok v = true -> exists b u, encode repr_other lay lvl v = b :: u /\ b <> "]"%char.
Proof.
  intros Hv. destruct (encode_start v lvl [] Hv) as (b & u & E & _ & Hb & _).
  rewrite app_nil_r in E. eauto.
Qed.

Theorem dump_ok_reads_back v : dump_ok fok v = true -> reads_back v.
Proof.
  induction v as [| | | | | l IH | items IH] using PyObj_ind'; intros Hok;
    try (apply reads_back_atom; [done | discriminate..]);
    intros lvl d r Hd Hr; simpl in Hd.
  - destruct l as [|x l].
    { exists 1%nat. simpl. by rewrite (proj2 (Nat.leb_gt _ _)) by lia. }
    destruct (scan_elements_encode (x :: l) lvl (S d) r [] IH Hok
      (nesting_children (fun y => y) _ d _ Hd) ltac:(done)) as [f Hf].
    exists (S f). cbn [encode app]. rewrite <- !app_assoc. cbn [app].
    simpl in Hok. apply andb_prop in Hok as [Hx _].
    rewrite scan_value_open_list, skip_ws_newline_indent, skip_ws_join;
      [exact Hf | intros; by apply skip_ws_encode | lia |].
    rewrite skip_ws_newline_indent, skip_ws_join by (intros; by apply skip_ws_encode).
    by apply peek_join, encode_head.
  - destruct items as [|[k x] items].
    { exists 1%nat. simpl. by rewrite (proj2 (Nat.leb_gt _ _)) by lia. }
    simpl in Hok. apply andb_prop in Hok as [Hnd%bool_decide_eq_true Hok].
    destruct (scan_members_encode ((k, x) :: items) lvl (S d) r [] IH Hok Hnd
      (nesting_children snd _ d _ Hd) ltac:(done)) as [f Hf].
    exists (S f). cbn [encode app]. rewrite <- !app_assoc. cbn [app].
    rewrite scan_value_open_dict, skip_ws_newline_indent, skip_ws_join;
      [exact Hf | reflexivity | lia |].
    rewrite skip_ws_newline_indent, skip_ws_join by reflexivity.
    apply peek_join. eexists _, _. split; [reflexivity | discriminate].
Qed.
End RoundTrip.

Lemma flask_layout_item debug : lay_item_sep (flask_layout debug) = [","%char].
Proof. by destruct debug. Qed.

Lemma flask_layout_key debug r :
  option_map skip_ws (peek ":" (skip_ws (lay_key_sep (flask_layout debug) ++ r))) =
  Some (skip_ws r).
Proof. by destruct debug. Qed.

(** [sort_keys] reorders the items of a dict: a permutation. *)
Lemma insert_item_perm kv d : Permutation (insert_item kv d) (kv :: d).
Proof.
  induction d as [|kv' d IH]; simpl; [done|].
  destruct (String.ltb _ _); [|done].
  rewrite IH. apply perm_swap.
Qed.

Lemma sort_items_perm d : Permutation (sort_items d) d.
Proof.
  induction d as [|kv d IH]; simpl; [done|].
  rewrite insert_item_perm. by apply perm_skip.
Qed.

Lemma list_max_perm l l' : Permutation l l' -> list_max l = list_max l'.
Proof. induction 1; simpl; lia. Qed.

Lemma sort_obj_nesting v : nesting (sort_obj v) = nesting v.
Proof.
  induction v as [| | | | | l IH | d IH] using PyObj_ind'; simpl; try done.
  - rewrite map_map. do 2 f_equal. apply map_ext_Forall, IH.
  - f_equal. rewrite (list_max_perm _ _ (Permutation_map _ (sort_items_perm _))).
    rewrite map_map. f_equal. apply map_ext_Forall, IH.
Qed.

Lemma sort_obj_dump_ok fok v : dump_ok fok (sort_obj v) = dump_ok fok v.
Proof.
  induction v as [| | | | | l IH | d IH] using PyObj_ind'; simpl; try done.
  - induction IH as [|x l Hx _ IHl]; simpl; [done|]. by rewrite Hx, IHl.
  - rewrite (forallb_Permutation _ _ _ (sort_items_perm _)).
    assert (Hk : Permutation (dict_keys (sort_items (map (fun kv => (kv.1, sort_obj kv.2)) d)))
                              (dict_keys d)).
    { unfold dict_keys. rewrite (Permutation_map _ (sort_items_perm _)), map_map. done. }
    f_equal.
    + apply bool_decide_ext. by rewrite Hk.
    + clear Hk. induction IH as [|x l Hx _ IHl]; simpl; [done|]. simpl in Hx. by rewrite Hx, IHl.
Qed.

(** The fuel of [json_decode_text] gives the answer a larger fuel gives. *)
Lemma scan_value_det md f f' d s r r' :
  scan_value md f d s = Some r -> scan_value md f' d s = Some r' -> r = r'.
Proof.
  intros H H'. apply (proj1 (scan_mono_le f (Nat.max f f') ltac:(lia))) in H.
  apply (proj1 (scan_mono_le f' (Nat.max f f') ltac:(lia))) in H'. congruence.
Qed.

(** What [json.loads] makes of Flask's body, for any way of writing and
    reading back the floats that meets the hypotheses of [RoundTrip]. *)
Lemma flask_json_read_back max_depth repr_other debug fok fread v :
  (forall f r, fok f = true ->
     exists a t, floatstr repr_other f ++ r = a :: t /\ is_ws a = false /\
                 a <> "]"%char /\ a <> "}"%char) ->
  (forall f d c t, fok f = true -> num_end c ->
     scan_value max_depth 1 d (floatstr repr_other f ++ c :: t) =
     Some (inr (PFloat (fread f), c :: t))) ->
  dump_ok fok v = true -> (nesting v <= max_depth)%nat ->
  json_decode_text max_depth (flask_json_text repr_other debug v) =
  Ok (read_back fread (sort_obj v)).
Proof.
  intros Hfs Hfr Hok Hn. rewrite <- sort_obj_dump_ok in Hok. rewrite <- sort_obj_nesting in Hn.
  destruct (dump_ok_reads_back max_depth repr_other (flask_layout debug) (flask_layout_item debug)
    (flask_layout_key debug) fok fread Hfs Hfr _ Hok O O [nl] Hn
    ltac:(unfold follows, num_end; eauto 10)) as [f Hf].
  pose proof (json_decode_text_terminates max_depth (flask_json_text repr_other debug v)) as Ht.
  unfold json_decode_text, flask_json_text in Ht |- *.
  rewrite (skip_ws_encode _ _ fok Hfs) in Ht |- * by done.
  destruct (scan_value max_depth (S _) _ _) as [res|] eqn:E; [|by destruct Ht].
  by rewrite (scan_value_det _ _ _ _ _ _ _ E Hf).
Qed.

Lemma special_float_start repr_other f r :
  special_float f = true ->
  exists a t, floatstr repr_other f ++ r = a :: t /\ is_ws a = false /\
              a <> "]"%char /\ a <> "}"%char.
Proof.
  destruct f as [| |[]]; [done|..]; intros _; eexists _, _;
    (split; [reflexivity | repeat split; discriminate]).
Qed.

Lemma special_float_read max_depth repr_other f d c t :
  special_float f = true -> num_end c ->
  scan_value max_depth 1 d (floatstr repr_other f ++ c :: t) = Some (inr (PFloat f, c :: t)).
Proof. destruct f as [| |[]]; [done|..]; reflexivity. Qed.

Lemma read_back_id v : read_back (fun f => f) v = v.
Proof.
  induction v as [| | | | | l IH | d IH] using PyObj_ind'; simpl; try done.
  - f_equal. induction IH; simpl; congruence.
  - f_equal. induction IH as [|[k x] d Hx _ IHd]; simpl in *; congruence.
Qed.

(** ** Theorems *)

(** C23. Round trip of a JSON response: [json.loads] reads the body Flask
    writes for a value back as that value with every dict's keys sorted,
    in debug and in production layout, for a value made of None, bools,
    ints below the digit limit, NaN and the infinities, strs of valid code
    points and dicts without a repeated key, nested no deeper than the
    decoder's depth budget. *)
Theorem flask_json_roundtrip max_depth repr_other debug v :
  dump_ok special_float v = true -> (nesting v <= max_depth)%nat ->
  json_decode_text max_depth (flask_json_text repr_other debug v) = Ok (sort_obj v).
Proof.
  intros Hok Hn. rewrite <- (read_back_id (sort_obj v)).
  apply (flask_json_read_back _ _ _ special_float); [|intros; by apply special_float_read | done..].
  apply special_float_start.
Qed.

(** A response with a nested list, NaN, a str with an escape and two keys
    out of order. *)
Definition roundtrip_example : PyObj :=
  PDict [("zeta", PList [PInt (-12); PFloat FNaN; PBool true]);
         ("alpha", PStr (String "034"%char "q")); ("mid", PNone)].

Lemma flask_json_roundtrip_witness :
  dump_ok special_float roundtrip_example = true /\ (nesting roundtrip_example <= 2)%nat /\
  json_decode_text 2 (flask_json_text (fun _ => []) true roundtrip_example) =
  Ok (sort_obj roundtrip_example).
Proof.
  assert (H1 : dump_ok special_float roundtrip_example = true) by (vm_compute; reflexivity).
  assert (H2 : (nesting roundtrip_example <= 2)%nat) by (simpl; lia).
  split; [exact H1 | split; [exact H2 | apply (flask_json_roundtrip 2 _ true _ H1 H2)]].
Defined.
