(* ===== verification/JsonFloat.v ===== *)
(** * Floats in responses

    [repr(float)] of a float whose shortest literal has at most 15
    significant digits ([float_repr] of [JsonOut]) and what [json.loads]
    reads back from it: a literal of the same decimal number, in the
    notation [format_float_short] chose (fixed, [0.000ddd], [ddd00.0] or
    exponent).  Floats are compared by their normal form [fnorm]: sign,
    mantissa without trailing zeros and exponent.  With this the round
    trip of [JsonOut] extends to responses that carry floats, as the
    predictions of [make_predictions] do. *)

From Stdlib Require Import Ascii String ZArith Lia Permutation.
From stdpp Require Import base list.
From S2P Require Import Prelude PyData Unicode PyInt Libs Flask Json JsonText Pandas Mlflow Inference JsonOut.

Open Scope Z_scope.
Open Scope list_scope.

(** ** Normal forms *)

(** A decimal float as sign, mantissa without trailing zeros and
    exponent; zero keeps its sign. *)
Definition fnorm (f : PyFloat) : PyFloat :=
  match f with
  | FDec neg mant exp =>
      if (mant =? 0)%N then FDec neg 0 0
      else let '(m, e) := strip_zeros (N.to_nat mant) (Z.of_N mant) exp in FDec neg (Z.to_N m) e
  | _ => f
  end.

Fixpoint obj_norm (v : PyObj) : PyObj :=
  match v with
  | PFloat f => PFloat (fnorm f)
  | PList l => PList (map obj_norm l)
  | PDict d => PDict (map (fun kv => (kv.1, obj_norm kv.2)) d)
  | _ => v
  end.

(** Two values are equivalent when they agree up to the literal their
    floats are written with. *)
#[export] Instance PyObj_equiv : Equiv PyObj := fun v w => obj_norm v = obj_norm w.

#[export] Instance PyObj_equiv_Equivalence : Equivalence (≡@{PyObj}).
Proof. split; [done | by intros ?? | intros ??? H1 H2; unfold equiv, PyObj_equiv in *; congruence]. Qed.

(** ** Trailing zeros *)

Lemma strip_zeros_shift fuel m j e :
  0 < m -> m mod 10 <> 0 -> (j <= fuel)%nat ->
  strip_zeros fuel (m * 10 ^ Z.of_nat j) e = (m, e + Z.of_nat j).
Proof.
  intros Hm Hmod. revert fuel e. induction j as [|j IH]; intros fuel e Hj.
  - rewrite Z.mul_1_r, Z.add_0_r. destruct fuel; [done|]. simpl.
    destruct (Z.eqb_spec m 0); [lia|]. destruct (Z.eqb_spec (m mod 10) 0); [lia|]. done.
  - destruct fuel as [|fuel]; [lia|]. cbn [strip_zeros].
    rewrite Nat2Z.inj_succ, Z.pow_succ_r, (Z.mul_comm 10 (10 ^ _)), Z.mul_assoc by lia.
    rewrite (proj2 (Z.eqb_neq _ _)) by (pose proof (Z.pow_pos_nonneg 10 (Z.of_nat j)); nia).
    rewrite Z.mod_mul, Z.div_mul by lia. simpl. rewrite IH by lia. f_equal. lia.
Qed.

Lemma strip_zeros_spec fuel mant e :
  0 < mant < 10 ^ Z.of_nat fuel ->
  exists m j, strip_zeros fuel mant e = (m, e + Z.of_nat j) /\ mant = m * 10 ^ Z.of_nat j /\
              0 < m /\ m mod 10 <> 0 /\ (j <= fuel)%nat.
Proof.
  revert mant e. induction fuel as [|fuel IH]; intros mant e Hm; [simpl in Hm; lia|].
  cbn [strip_zeros]. destruct (Z.eqb_spec mant 0); [lia|].
  destruct (Z.eqb_spec (mant mod 10) 0) as [H0|H0]; simpl.
  - rewrite Nat2Z.inj_succ, Z.pow_succ_r in Hm by lia.
    pose proof (Z.div_mod mant 10 ltac:(lia)).
    destruct (IH (mant / 10) (e + 1) ltac:(lia)) as (m & j & -> & Hv & Hpos & Hmod & Hj).
    exists m, (S j). split; [f_equal; lia|]. rewrite Nat2Z.inj_succ, Z.pow_succ_r by lia.
    split; [lia|]. split_and!; [done | done | lia].
  - exists mant, O. split; [f_equal; lia|]. simpl. split_and!; [lia | lia | done | lia].
Qed.

Lemma strip_zeros_mant mant e :
  (mant <> 0)%N ->
  exists m j, strip_zeros (N.to_nat mant) (Z.of_N mant) e = (m, e + Z.of_nat j) /\
              Z.of_N mant = m * 10 ^ Z.of_nat j /\ 0 < m /\ m mod 10 <> 0.
Proof.
  intros Hm. destruct (strip_zeros_spec (N.to_nat mant) (Z.of_N mant) e) as (m & j & ? & ? & ? & ? & _).
  - split; [lia|]. rewrite N_nat_Z. apply Z.pow_gt_lin_r; lia.
  - eauto 10.
Qed.

(** ** Digits of a literal *)

Lemma frac_text_ne fs : fs <> [] -> frac_text fs = "."%char :: fs.
Proof. by destruct fs. Qed.

Lemma num_value_frac n :
  lit_frac n <> [] ->
  num_value n = PFloat (FDec (lit_neg n) (Z.to_N (digits_value (digits_of (lit_int n ++ lit_frac n))))
                          (0 - Z.of_nat (length (lit_frac n)))).
Proof. unfold num_value. by destruct (lit_frac n). Qed.

Lemma zeros_digits n :
  forallb is_digit (zeros n) = true /\ digits_of (zeros n) = repeat 0 (Z.to_nat n).
Proof. unfold zeros, digits_of. induction (Z.to_nat n) as [|k [IH1 IH2]]; [done|]. simpl. by rewrite IH1, IH2. Qed.

Lemma digits_value_zeros_l n ds : digits_value (repeat 0 n ++ ds) = digits_value ds.
Proof. induction n; [done|]. exact IHn. Qed.

Lemma digits_value_zeros_r ds n :
  digits_value (ds ++ repeat 0 n) = digits_value ds * 10 ^ Z.of_nat n.
Proof.
  induction n as [|n IH]; [by rewrite app_nil_r, Z.mul_1_r|].
  cbn [repeat]. rewrite repeat_cons, app_assoc, digits_value_app, IH, Nat2Z.inj_succ, Z.pow_succ_r by lia.
  lia.
Qed.

Lemma lit_ok_intro neg c r fs :
  forallb is_digit ((c :: r) ++ fs) = true -> (c = "0"%char -> r = []) ->
  Z.of_nat (length (c :: r)) <= max_str_digits -> lit_ok (mkNum neg (c :: r) fs) = true.
Proof.
  intros Hd Hz Hl. unfold lit_ok. cbn [lit_int lit_frac]. rewrite Hd, andb_true_l.
  apply andb_true_intro. split; [|by apply Z.leb_le].
  case_bool_decide as Hc; [|done]. rewrite (Hz Hc). by apply orb_true_r.
Qed.

(** The digits of the shortest repr: a non-zero leading digit. *)
Lemma digit_char_nonzero d : 0 < d < 10 -> chr (48 + d) <> "0"%char.
Proof.
  intros Hd E. apply (f_equal byte) in E. rewrite byte_chr in E by lia.
  assert (byte "0"%char = 48) by reflexivity. lia.
Qed.

Lemma digit_chars_app ds ds' : digit_chars (ds ++ ds') = digit_chars ds ++ digit_chars ds'.
Proof. apply map_app. Qed.

Lemma digits_of_app a b : digits_of (a ++ b) = digits_of a ++ digits_of b.
Proof. apply map_app. Qed.

Lemma repeat_snoc {A} (x : A) n : repeat x n ++ [x] = repeat x (S n).
Proof. cbn [repeat]. by rewrite repeat_cons. Qed.

(** The shortest digits [ds] of a float (a non-zero leading digit, at
    most 15 of them). *)
Definition short_digits (ds : list Z) : Prop :=
  Forall (fun d => 0 <= d < 10) ds /\ (exists d0 ds', ds = d0 :: ds' /\ d0 <> 0) /\
  Z.of_nat (length ds) <= 15.

(** ** Fixed notation

    [format_float_short] writes [0.000ddd], [dd.ddd] or [ddd00.0] when
    [-4 < decpt <= 16]: a literal without exponent, which [json.loads]
    reads as the mantissa [digits_value ds] times a power of ten. *)
Lemma format_short_fixed (neg : bool) ds decpt :
  short_digits ds -> -4 < decpt <= 16 ->
  exists (lit : NumLit) (j : nat), (if neg then ["-"%char] else []) ++ format_short ds decpt = num_text lit /\
    lit_ok lit = true /\
    num_value lit = PFloat (FDec neg (Z.to_N (digits_value ds * 10 ^ Z.of_nat j))
                                   (decpt - Z.of_nat (length ds) - Z.of_nat j)).
Proof.
  intros (Hd & (d0 & ds' & Eds & Hd0) & Hk) Hp.
  destruct (digit_chars_digits ds Hd) as [Hdig Hval].
  assert (Hd0' : 0 < d0 < 10) by (rewrite Eds in Hd; apply Forall_cons_1 in Hd as [? _]; lia).
  assert (Hne : digit_chars ds <> []) by (by rewrite Eds).
  unfold format_short. cbv zeta.
  rewrite (proj2 (Z.leb_gt decpt (-4)) ltac:(lia)), (proj2 (Z.ltb_ge 16 decpt) ltac:(lia)).
  cbn [orb]. destruct (Z.leb_spec decpt 0) as [Hle|Hgt].
  - exists (mkNum neg ["0"%char] (zeros (- decpt) ++ digit_chars ds)), O.
    assert (Hf : zeros (- decpt) ++ digit_chars ds <> []) by (intros [_ ?]%app_eq_nil; done).
    split_and!.
    + unfold num_text. cbn [lit_neg lit_int lit_frac]. by rewrite frac_text_ne.
    + apply lit_ok_intro; [| done | unfold max_str_digits; simpl; lia].
      cbn [app forallb]. by rewrite forallb_app, (proj1 (zeros_digits _)), Hdig.
    + rewrite num_value_frac by done. cbn [lit_neg lit_int lit_frac].
      rewrite !digits_of_app, (proj2 (zeros_digits _)), Hval, length_app.
      unfold zeros, digit_chars. rewrite repeat_length, length_map.
      change (digits_of ["0"%char] ++ repeat 0 (Z.to_nat (- decpt)) ++ ds)
        with (repeat 0 (S (Z.to_nat (- decpt))) ++ ds).
      rewrite digits_value_zeros_l, Z.mul_1_r. do 2 f_equal. lia.
  - destruct (Z.ltb_spec decpt (Z.of_nat (length ds))) as [Hlt|Hge].
    + set (p := Z.to_nat decpt).
      exists (mkNum neg (digit_chars (firstn p ds)) (digit_chars (skipn p ds))), O.
      assert (Hs : digit_chars (skipn p ds) <> []).
      { unfold digit_chars. intros E%map_eq_nil%(f_equal length). rewrite length_skipn in E.
        simpl in E. lia. }
      assert (Hfirst : firstn p ds = d0 :: firstn (p - 1) ds').
      { rewrite Eds. destruct p as [|p'] eqn:Ep; [lia|]. simpl. by rewrite Nat.sub_0_r. }
      split_and!.
      * unfold num_text. cbn [lit_neg lit_int lit_frac]. by rewrite frac_text_ne.
      * assert (Hdig' : forallb is_digit (digit_chars (firstn p ds) ++ digit_chars (skipn p ds)) = true)
          by (rewrite <- digit_chars_app, firstn_skipn; exact Hdig).
        assert (Hlen : Z.of_nat (length (digit_chars (firstn p ds))) <= max_str_digits)
          by (unfold digit_chars, max_str_digits; rewrite length_map, length_firstn; lia).
        rewrite Hfirst in Hdig', Hlen |- *. apply lit_ok_intro; [exact Hdig' | | exact Hlen].
        intros E. exfalso. by apply (digit_char_nonzero d0).
      * rewrite num_value_frac by done. cbn [lit_neg lit_int lit_frac].
        rewrite <- digit_chars_app, firstn_skipn, Hval, Z.mul_1_r.
        unfold digit_chars. rewrite length_map, length_skipn. do 2 f_equal. lia.
    + set (n := Z.to_nat (decpt - Z.of_nat (length ds))).
      exists (mkNum neg (digit_chars ds ++ zeros (decpt - Z.of_nat (length ds))) ["0"%char]), (S n).
      split_and!.
      * unfold num_text. cbn [lit_neg lit_int lit_frac frac_text]. by rewrite <- !app_assoc.
      * assert (Hdig' : forallb is_digit ((digit_chars ds ++ zeros (decpt - Z.of_nat (length ds)))
                                           ++ ["0"%char]) = true)
          by (rewrite !forallb_app, Hdig, (proj1 (zeros_digits _)); done).
        assert (Hlen : Z.of_nat (length (digit_chars ds ++ zeros (decpt - Z.of_nat (length ds))))
                       <= max_str_digits)
          by (unfold digit_chars, zeros, max_str_digits; rewrite length_app, length_map, repeat_length; lia).
        rewrite Eds in Hdig', Hlen |- *. apply lit_ok_intro; [exact Hdig' | | exact Hlen].
        intros E. exfalso. by apply (digit_char_nonzero d0).
      * rewrite num_value_frac by done. cbn [lit_neg lit_int lit_frac].
        rewrite <- app_assoc, !digits_of_app, (proj2 (zeros_digits _)), Hval.
        change (digits_of ["0"%char]) with [0]. rewrite repeat_snoc, digits_value_zeros_r.
        do 2 f_equal. simpl length. lia.
Qed.

(** ** Exponent notation *)

(** The digits of [str(n)] for [n >= 0]. *)
Lemma py_str_of_nonneg n :
  0 <= n -> list_ascii_of_string (py_str_of_Z n) = digit_chars (decimal_digits n).
Proof.
  intros Hn. rewrite encode_int. unfold num_text, int_lit. cbn [lit_neg lit_int lit_frac frac_text].
  rewrite (proj2 (Z.ltb_ge n 0) Hn), Z.abs_eq by done. by rewrite app_nil_r.
Qed.

(** The exponent [e], a sign and at least two digits, as
    [format_float_short] writes it. *)
Lemma exp_part_text x c t :
  num_end c ->
  exp_part ("e"%char :: (if x <? 0 then "-"%char else "+"%char) ::
            ((if Z.abs x <? 10 then ["0"%char] else []) ++ list_ascii_of_string (py_str_of_Z (Z.abs x)))
            ++ c :: t) = Some (x, c :: t).
Proof.
  intros Hc. rewrite py_str_of_nonneg by lia.
  destruct (decimal_digits_spec (Z.abs x)) as (Hd & Hne & Hv & _); [lia|].
  destruct (digit_chars_digits _ Hd) as [Hdig Hval].
  set (pad := if Z.abs x <? 10 then ["0"%char] else []).
  assert (Hpad : forallb is_digit pad = true /\ digits_of pad = if Z.abs x <? 10 then [0] else [])
    by (unfold pad; destruct (Z.abs x <? 10); done).
  destruct Hpad as [Hpd Hpv].
  assert (Hall : forallb is_digit (pad ++ digit_chars (decimal_digits (Z.abs x))) = true)
    by (by rewrite forallb_app, Hpd, Hdig).
  assert (Hval' : digits_value (digits_of (pad ++ digit_chars (decimal_digits (Z.abs x)))) = Z.abs x).
  { rewrite digits_of_app, Hval, Hpv. destruct (Z.abs x <? 10); [|exact Hv].
    change ([0] ++ decimal_digits (Z.abs x)) with (repeat 0 1 ++ decimal_digits (Z.abs x)).
    by rewrite digits_value_zeros_l. }
  cbn [exp_part]. rewrite (bool_decide_eq_true_2 ("e"%char = "e"%char)) by done. cbn [orb].
  replace (read_exp_sign _) with (x <? 0, (pad ++ digit_chars (decimal_digits (Z.abs x))) ++ c :: t)
    by (destruct (x <? 0); reflexivity).
  rewrite take_digits_app by (done || (destruct (num_end_stop c Hc); by destruct c)).
  destruct (pad ++ digit_chars (decimal_digits (Z.abs x))) as [|a l] eqn:E.
  - exfalso. apply app_eq_nil in E as [_ E]. unfold digit_chars in E. by apply map_eq_nil in E.
  - rewrite Hval'. f_equal. f_equal. destruct (Z.ltb_spec x 0); lia.
Qed.

Lemma num_stop_e : num_stop "e"%char.
Proof. split; [reflexivity | discriminate]. Qed.

(** A literal followed by an exponent is read as a float with that
    exponent. *)
Lemma scan_value_exp md f d lit x c t :
  lit_ok lit = true -> num_end c ->
  scan_value md (S f) d
    ((num_text lit ++ "e"%char :: (if x <? 0 then "-"%char else "+"%char) ::
      ((if Z.abs x <? 10 then ["0"%char] else []) ++ list_ascii_of_string (py_str_of_Z (Z.abs x))))
     ++ c :: t) =
  Some (inr (PFloat (FDec (lit_neg lit) (Z.to_N (digits_value (digits_of (lit_int lit ++ lit_frac lit))))
                          (x - Z.of_nat (length (lit_frac lit)))), c :: t)).
Proof.
  intros Hn Hc. destruct (lit_ok_digits lit Hn) as (_ & Hf & _).
  rewrite <- app_assoc, scan_value_lit by done. unfold scan_number.
  rewrite read_minus_num by done. cbn [app].
  rewrite int_part_num, frac_part_num by (done || apply num_stop_e).
  rewrite exp_part_text by done. by destruct (lit_frac lit).
Qed.

(** [format_float_short] in exponent notation: the first digit, the
    others after a dot, then the exponent [decpt - 1]. *)
Lemma format_short_exp (neg : bool) ds decpt :
  short_digits ds -> decpt <= -4 \/ 16 < decpt ->
  exists lit : NumLit,
    lit_ok lit = true /\ lit_neg lit = neg /\ lit_int lit ++ lit_frac lit = digit_chars ds /\
    Z.of_nat (length (lit_frac lit)) = Z.of_nat (length ds) - 1 /\
    (if neg then ["-"%char] else []) ++ format_short ds decpt =
    num_text lit ++ "e"%char :: (if decpt - 1 <? 0 then "-"%char else "+"%char) ::
      ((if Z.abs (decpt - 1) <? 10 then ["0"%char] else []) ++
       list_ascii_of_string (py_str_of_Z (Z.abs (decpt - 1)))).
Proof.
  intros (Hd & (d0 & ds' & -> & Hd0) & Hk) Hp.
  destruct (digit_chars_digits _ Hd) as [Hdig _].
  assert (Hd0' : 0 < d0 < 10) by (apply Forall_cons_1 in Hd as [? _]; lia).
  exists (mkNum neg [chr (48 + d0)] (digit_chars ds')). split_and!; try done.
  - apply lit_ok_intro; [exact Hdig | done | unfold max_str_digits; simpl; lia].
  - cbn [lit_frac]. unfold digit_chars. rewrite length_map. simpl length. lia.
  - unfold format_short. cbv zeta.
    rewrite (proj2 (orb_true_iff _ _)) by (destruct Hp; [left; apply Z.leb_le | right; apply Z.ltb_lt]; lia).
    unfold num_text. cbn [lit_neg lit_int lit_frac firstn skipn digit_chars map].
    destruct ds' as [|d1 ds'']; simpl length.
    + rewrite (proj2 (Z.ltb_ge _ _)) by lia. simpl. by rewrite <- app_assoc.
    + rewrite (proj2 (Z.ltb_lt _ _)) by lia. simpl. by rewrite <- !app_assoc.
Qed.

(** ** Short floats *)

(** The floats whose [repr] [float_repr] models: zero, and the floats
    whose shortest literal has at most 15 digits and a decimal point
    position in [-300, 300]. *)
Definition short_float (f : PyFloat) : bool :=
  match f with
  | FDec neg mant exp =>
      (mant =? 0)%N ||
      (let '(m, e) := strip_zeros (N.to_nat mant) (Z.of_N mant) exp in
       let k := Z.of_nat (length (decimal_digits m)) in
       (k <=? 15) && (-300 <=? k + e) && (k + e <=? 300))
  | _ => true
  end.

(** What [json.loads] reads from [repr(f)]. *)
Definition float_read_back (repr_other : PyFloat -> list ascii) (f : PyFloat) : PyFloat :=
  match scan_value 0 1 0 (floatstr repr_other f ++ [","%char]) with
  | Some (inr (PFloat g, _)) => g
  | _ => f
  end.

Lemma fnorm_shift (neg : bool) m j E :
  0 < m -> m mod 10 <> 0 ->
  fnorm (FDec neg (Z.to_N (m * 10 ^ Z.of_nat j)) E) = FDec neg (Z.to_N m) (E + Z.of_nat j).
Proof.
  intros Hm Hmod. pose proof (Z.pow_pos_nonneg 10 (Z.of_nat j) ltac:(lia) ltac:(lia)) as Hp.
  pose proof (Z.pow_gt_lin_r 10 (Z.of_nat j) ltac:(lia) ltac:(lia)) as Hj.
  assert (Hpos : 0 < m * 10 ^ Z.of_nat j) by nia.
  unfold fnorm. rewrite (proj2 (N.eqb_neq _ _)).
  2: { intros E0. apply (f_equal Z.of_N) in E0. rewrite Z2N.id in E0 by lia. simpl in E0. lia. }
  rewrite Z2N.id by lia.
  assert (10 ^ Z.of_nat j <= m * 10 ^ Z.of_nat j) by nia.
  rewrite strip_zeros_shift by (done || rewrite Z_N_nat; lia). done.
Qed.

Lemma short_digits_of m :
  0 < m -> Z.of_nat (length (decimal_digits m)) <= 15 -> short_digits (decimal_digits m).
Proof.
  intros Hm Hk. destruct (decimal_digits_spec m ltac:(lia)) as (Hd & _ & Hv & _).
  destruct (decimal_digits_head m ltac:(lia)) as (d0 & ds' & E & Hz).
  split; [done|]. split; [|done]. exists d0, ds'. split; [done|].
  intros ->. rewrite E, (Hz eq_refl) in Hv. unfold digits_value in Hv. simpl in Hv. lia.
Qed.

(** A short float is written as a number token that the scanner reads,
    whatever follows it, as a float of the same normal form. *)
Lemma short_float_token repr_other f :
  short_float f = true -> (forall neg m e, f <> FDec neg m e) \/
  exists lit suffix g,
    floatstr repr_other f = num_text lit ++ suffix /\ lit_ok lit = true /\ fnorm g = fnorm f /\
    forall md d c t, num_end c ->
      scan_value md 1 d (floatstr repr_other f ++ c :: t) = Some (inr (PFloat g, c :: t)).
Proof.
  destruct f as [neg mant exp| |]; [|left; discriminate..]. intros Hs. right.
  unfold floatstr, float_repr. simpl in Hs.
  destruct (N.eqb_spec mant 0) as [->|Hm0].
  { exists (mkNum neg ["0"%char] ["0"%char]), [], (FDec neg 0 (-1)).
    split_and!; [by destruct neg | done | done |]. intros md d c t Hc.
    match goal with
    | |- context [scan_value _ _ _ (?x ++ c :: t)] =>
        replace x with (num_text (mkNum neg ["0"%char] ["0"%char])) by (by destruct neg)
    end.
    rewrite (scan_value_num md 0 d _ c t) by done. by destruct neg. }
  destruct (strip_zeros_mant mant exp Hm0) as (m & j & Es & Hv & Hpos & Hmod).
  rewrite Es in Hs |- *. cbv zeta in Hs.
  set (k := Z.of_nat (length (decimal_digits m))) in *.
  apply andb_prop in Hs as [[Hk Hlo]%andb_prop Hhi]. apply Z.leb_le in Hk, Hlo, Hhi.
  assert (Hfn : fnorm (FDec neg mant exp) = FDec neg (Z.to_N m) (exp + Z.of_nat j))
    by (unfold fnorm; rewrite (proj2 (N.eqb_neq _ _)) by done; by rewrite Es).
  rewrite Hfn. fold k. rewrite (proj2 (Z.leb_le _ _) Hk), (proj2 (Z.leb_le _ _) Hlo),
    (proj2 (Z.leb_le _ _) Hhi). cbn [andb].
  pose proof (short_digits_of m Hpos Hk) as Hsd.
  destruct (decimal_digits_spec m ltac:(lia)) as (Hd & _ & Hval & _).
  destruct (Z.leb_spec (k + (exp + Z.of_nat j)) (-4)) as [Hx|Hx];
    [|destruct (Z.ltb_spec 16 (k + (exp + Z.of_nat j))) as [Hy|Hy]].
  1, 2: destruct (format_short_exp neg (decimal_digits m) (k + (exp + Z.of_nat j)) Hsd
         ltac:(lia)) as (lit & Hok & Hneg & Hdig & Hlen & Ht);
    exists lit; eexists; exists (FDec neg (Z.to_N m) (exp + Z.of_nat j)); split_and!;
    [exact Ht | exact Hok | by rewrite <- (Z.mul_1_r m) at 1; rewrite (fnorm_shift neg m 0), Z.add_0_r
    | intros md d c t Hc; rewrite Ht, scan_value_exp by done; rewrite Hneg, Hdig,
        (proj2 (digit_chars_digits _ Hd)), Hval, Hlen; do 5 f_equal; fold k; lia].
  destruct (format_short_fixed neg (decimal_digits m) (k + (exp + Z.of_nat j)) Hsd ltac:(lia))
    as (lit & j' & Ht & Hok & Hnv).
  rewrite Hval in Hnv. fold k in Hnv.
  exists lit, [], (FDec neg (Z.to_N (m * 10 ^ Z.of_nat j')) (k + (exp + Z.of_nat j) - k - Z.of_nat j')).
  split_and!; [by rewrite app_nil_r | done | rewrite fnorm_shift by done; f_equal; lia |].
  intros md d c t Hc. by rewrite Ht, scan_value_num, Hnv.
Qed.

Lemma short_float_start repr_other f r :
  short_float f = true ->
  exists a t, floatstr repr_other f ++ r = a :: t /\ is_ws a = false /\
              a <> "]"%char /\ a <> "}"%char.
Proof.
  intros Hs. destruct (short_float_token repr_other f Hs) as [Hsp|(lit & suf & g & Ef & Hok & _)].
  - apply special_float_start. destruct f as [neg m e| |]; [by destruct (Hsp neg m e) | done..].
  - rewrite Ef, <- app_assoc. destruct (num_text_head lit (suf ++ r) Hok) as (a & t & -> & Ha).
    exists a, t. split; [done|].
    destruct Ha as [-> | Ha]; [repeat split; discriminate|].
    split; [by apply is_ws_digit|]. apply is_digit_byte in Ha.
    split; intros ->; destruct Ha as [_ Ha]; apply Ha; reflexivity.
Qed.

Lemma short_float_read max_depth repr_other f d c t :
  short_float f = true -> num_end c ->
  scan_value max_depth 1 d (floatstr repr_other f ++ c :: t) =
  Some (inr (PFloat (float_read_back repr_other f), c :: t)).
Proof.
  intros Hs Hc. unfold float_read_back.
  destruct (short_float_token repr_other f Hs) as [Hsp|(lit & suf & g & _ & _ & _ & Hscan)].
  - destruct f as [neg m e| |[]]; [by destruct (Hsp neg m e) | reflexivity..].
  - rewrite !Hscan by (done || by left). reflexivity.
Qed.

(** Each short float reads back as a literal of the same number. *)
Lemma float_read_back_norm repr_other f :
  short_float f = true -> fnorm (float_read_back repr_other f) = fnorm f.
Proof.
  intros Hs. unfold float_read_back.
  destruct (short_float_token repr_other f Hs) as [Hsp|(lit & suf & g & _ & _ & Hg & Hscan)].
  - destruct f as [neg m e| |[]]; [by destruct (Hsp neg m e) | reflexivity..].
  - by rewrite Hscan by (by left).
Qed.

Lemma read_back_equiv fr v :
  (forall f, short_float f = true -> fnorm (fr f) = fnorm f) ->
  dump_ok short_float v = true -> read_back fr v ≡ v.
Proof.
  intros Hfr. unfold equiv, PyObj_equiv.
  induction v as [| | | f | | l IH | d IH] using PyObj_ind'; simpl; intros Hok; try done.
  - by rewrite Hfr.
  - f_equal. rewrite map_map. induction IH as [|x l Hx _ IHl]; [done|].
    simpl in Hok |- *. apply andb_prop in Hok as [Hx' Hl']. f_equal; [by apply Hx | by apply IHl].
  - f_equal. rewrite map_map. apply andb_prop in Hok as [_ Hok]. clear - IH Hok.
    induction IH as [|[k x] d Hx _ IHd]; [done|].
    simpl in Hok |- *. apply andb_prop in Hok as [[_ Hx']%andb_prop Hd'].
    f_equal; [f_equal; by apply Hx | by apply IHd].
Qed.

(** What [json.loads] makes of Flask's body when its floats are short. *)
Lemma flask_json_read_equiv max_depth repr_other debug v :
  dump_ok short_float v = true -> (nesting v <= max_depth)%nat ->
  exists w, json_decode_text max_depth (flask_json_text repr_other debug v) = Ok w /\
            w ≡ sort_obj v.
Proof.
  intros Hok Hn. exists (read_back (float_read_back repr_other) (sort_obj v)). split.
  - apply (flask_json_read_back _ _ _ short_float); [apply short_float_start | intros; by apply short_float_read
      | done | done].
  - apply read_back_equiv; [apply float_read_back_norm|]. by rewrite sort_obj_dump_ok.
Qed.

(** ** Theorems *)

(** C24. Round trip of a response with floats: [json.loads] reads the
    body Flask writes for a value back as a value equivalent to it with
    sorted keys, in both layouts: each float comes back as a literal of
    the same decimal number (its [repr]), for floats whose shortest
    literal has at most 15 digits, zero, NaN and the infinities, the
    other parts as in [flask_json_roundtrip]. *)
Theorem flask_json_roundtrip_floats max_depth repr_other debug v :
  dump_ok short_float v = true -> (nesting v <= max_depth)%nat ->
  exists w, json_decode_text max_depth (flask_json_text repr_other debug v) = Ok w /\
            w ≡ sort_obj v.
Proof. apply flask_json_read_equiv. Qed.

(** Predictions such as a regressor returns: 3.5, 2e20 and -1.2e-06. *)
Definition float_example : PyObj :=
  PDict [("predictions", PList [PFloat (FDec false 35 (-1)); PFloat (FDec false 2 20);
                                PFloat (FDec true 12 (-7)); PFloat (FDec false 0 0)])].

Lemma flask_json_roundtrip_floats_witness :
  dump_ok short_float float_example = true /\ (nesting float_example <= 2)%nat /\
  exists w, json_decode_text 2 (flask_json_text (fun _ => []) true float_example) = Ok w /\
            w ≡ sort_obj float_example.
Proof.
  assert (H1 : dump_ok short_float float_example = true) by (vm_compute; reflexivity).
  assert (H2 : (nesting float_example <= 2)%nat) by (simpl; lia).
  split; [exact H1 | split; [exact H2 | apply (flask_json_roundtrip_floats 2 _ true _ H1 H2)]].
Defined.

(** C25. The prediction route end to end: when the body decodes, pandas
    builds the frame, the model predicts and [tolist] succeeds with a
    list of short floats (or ints, strs, ...), the body Flask sends is
    read back by [json.loads] as [{"predictions": ...}] with the same
    predictions, each float as a literal of the same number. *)
Theorem predict_response_roundtrip {M} {JL : JsonLoads} {RJ : ReadJson} {PM : PyFuncModel M}
  (srv : Server M) repr_other max_depth body v df out l :
  json_loads body = Ok v -> read_json v true df_schema = Ok df ->
  predict (srv_model srv) df = Ok out -> tolist out = Ok l ->
  dump_ok short_float l = true -> (nesting l < max_depth)%nat ->
  exists txt w,
    response_text repr_other (srv_debug srv) (resp_body (handle srv (predict_req body))) = Some txt /\
    json_decode_text max_depth (list_ascii_of_string txt) = Ok w /\
    w ≡ PDict [("predictions", sort_obj l)].
Proof.
  intros Hj Hr Hp Ht Hok Hn. rewrite (handle_predict_ok srv body v df out l) by done.
  assert (Hd : dump_ok short_float (PDict [("predictions", l)]) = true)
    by (cbn [dump_ok forallb fst snd]; rewrite Hok; reflexivity).
  destruct (flask_json_read_equiv max_depth repr_other (srv_debug srv) _ Hd ltac:(simpl; lia))
    as (w & Hw & Heq).
  eexists _, w. split; [reflexivity|]. by rewrite list_ascii_of_string_of_list_ascii.
Qed.

#[local] Existing Instances json_stdlib pandas_lines.

Lemma predict_response_roundtrip_witness :
  json_loads spec_body_string = Ok (PStr spec_body_lines) /\
  read_json (PStr spec_body_lines) true df_schema = Ok spec_frame /\
  predict model_gpa spec_frame = Ok (NdArray spec_gpas) /\
  tolist (NdArray spec_gpas) = Ok (PList spec_gpas) /\
  dump_ok short_float (PList spec_gpas) = true /\ (nesting (PList spec_gpas) < 10)%nat /\
  exists txt w,
    response_text (fun _ => []) (srv_debug srv_gpa)
      (resp_body (handle srv_gpa (predict_req spec_body_string))) = Some txt /\
    json_decode_text 10 (list_ascii_of_string txt) = Ok w /\
    w ≡ PDict [("predictions", sort_obj (PList spec_gpas))].
Proof.
  split_and!; [vm_compute; reflexivity .. | simpl; lia |].
  apply (predict_response_roundtrip srv_gpa (fun _ => []) 10 spec_body_string (PStr spec_body_lines)
           spec_frame (NdArray spec_gpas)); [vm_compute; reflexivity .. | simpl; lia].
Defined.
