(* ===== verification/JsonEncoding.v ===== *)
(** * What Flask's encoder writes: ASCII bytes

    The property of the JSON text of a response that the flag
    [ensure_ascii=True] of Flask's provider promises: every byte is
    ASCII, whatever code points the value's strs hold. *)

From Stdlib Require Import Ascii String ZArith Lia.
From stdpp Require Import base list.
From S2P Require Import Prelude PyData Unicode PyInt Libs Flask Json JsonText Pandas Mlflow Inference JsonOut JsonFloat.

Open Scope Z_scope.
Open Scope list_scope.

(** ** ASCII output *)

(** A byte of 7-bit ASCII. *)
Definition ascii_byte (a : ascii) : bool := byte a <? 128.

Lemma chr_ascii z : 0 <= z < 128 -> ascii_byte (chr z) = true.
Proof. intros Hz. unfold ascii_byte. rewrite byte_chr by lia. apply Z.ltb_lt. lia. Qed.

Lemma hex_digit_ascii n : ascii_byte (hex_digit (n mod 16)) = true.
Proof.
  pose proof (Z.mod_pos_bound n 16 ltac:(lia)). unfold hex_digit.
  destruct (Z.ltb_spec (n mod 16) 10); apply chr_ascii; lia.
Qed.

Lemma u_escape_ascii c : forallb ascii_byte (u_escape c) = true.
Proof. unfold u_escape. cbn [forallb]. rewrite !hex_digit_ascii. reflexivity. Qed.

(** [encode_basestring_ascii] writes ASCII whatever the code point. *)
Lemma escape_cp_ascii c : forallb ascii_byte (escape_cp c) = true.
Proof.
  unfold escape_cp.
  destruct ((32 <=? c) && (c <=? 126) && negb (c =? 34) && negb (c =? 92)) eqn:Hp.
  - apply andb_prop in Hp as [[[H1 H2]%andb_prop _]%andb_prop _].
    apply Z.leb_le in H1, H2. cbn [forallb]. by rewrite chr_ascii by lia.
  - repeat match goal with |- context [if ?b then _ else _] => destruct b end;
      rewrite ?forallb_app, ?u_escape_ascii; reflexivity.
Qed.

Lemma py_encode_str_ascii s : forallb ascii_byte (py_encode_str s) = true.
Proof.
  unfold py_encode_str. cbn [forallb]. rewrite forallb_app. simpl.
  rewrite andb_true_r. induction (str_cps s) as [|c cps IH]; [done|].
  simpl. by rewrite forallb_app, escape_cp_ascii, IH.
Qed.

Lemma digit_chars_ascii ds :
  Forall (fun d => 0 <= d < 10) ds -> forallb ascii_byte (digit_chars ds) = true.
Proof. induction 1; [done|]. simpl. rewrite chr_ascii by lia. done. Qed.

Lemma zeros_ascii n : forallb ascii_byte (zeros n) = true.
Proof. unfold zeros. by induction (Z.to_nat n). Qed.

Lemma str_of_Z_ascii z : forallb ascii_byte (list_ascii_of_string (py_str_of_Z z)) = true.
Proof.
  unfold py_str_of_Z. rewrite list_ascii_of_string_of_list_ascii, forallb_app.
  destruct (decimal_digits_spec (Z.abs z)) as (Hd & _); [lia|].
  fold (digit_chars (decimal_digits (Z.abs z))). rewrite digit_chars_ascii by done.
  by destruct (z <? 0).
Qed.

Lemma format_short_ascii ds decpt :
  Forall (fun d => 0 <= d < 10) ds -> forallb ascii_byte (format_short ds decpt) = true.
Proof.
  intros Hd. unfold format_short. cbv zeta.
  assert (Hf : forall n, forallb ascii_byte (digit_chars (firstn n ds)) = true)
    by (intros; apply digit_chars_ascii, Forall_take, Hd).
  assert (Hs : forall n, forallb ascii_byte (digit_chars (skipn n ds)) = true)
    by (intros; apply digit_chars_ascii, Forall_drop, Hd).
  repeat match goal with |- context [if ?b then _ else _] => destruct b end;
    repeat progress (rewrite ?forallb_app; cbn [forallb]);
    rewrite ?Hf, ?Hs, ?zeros_ascii, ?str_of_Z_ascii, ?digit_chars_ascii by done; reflexivity.
Qed.

(** [repr] of a float is ASCII when the repr of long floats is. *)
Lemma floatstr_ascii repr_other f :
  (forall g, forallb ascii_byte (repr_other g) = true) ->
  forallb ascii_byte (floatstr repr_other f) = true.
Proof.
  intros Hro. destruct f as [neg mant exp| |[]]; try reflexivity.
  unfold floatstr, float_repr. destruct (N.eqb_spec mant 0) as [_|Hm]; [by destruct neg|].
  destruct (strip_zeros_mant mant exp Hm) as (m & j & -> & _ & Hpos & _).
  destruct (decimal_digits_spec m ltac:(lia)) as (Hd & _).
  destruct (_ && _ && _); [|apply Hro].
  rewrite forallb_app, format_short_ascii by done. by destruct neg.
Qed.

Lemma newline_indent_ascii lay n : forallb ascii_byte (newline_indent lay n) = true.
Proof.
  unfold newline_indent. destruct (lay_indent lay); [|done]. cbn [forallb].
  by induction (n0 * n)%nat.
Qed.

Lemma join_with_ascii sep ls :
  forallb ascii_byte sep = true -> Forall (fun l => forallb ascii_byte l = true) ls ->
  forallb ascii_byte (join_with sep ls) = true.
Proof.
  intros Hs. induction 1 as [|l ls Hl Hls IH]; [done|].
  rewrite join_with_cons, forallb_app, Hl. destruct ls; [done|]. by rewrite forallb_app, Hs, IH.
Qed.

Section Ascii.
Variable repr_other : PyFloat -> list ascii.
Hypothesis repr_other_ascii : forall g, forallb ascii_byte (repr_other g) = true.
Variable lay : Layout.
Hypothesis item_ascii : forallb ascii_byte (lay_item_sep lay) = true.
Hypothesis key_ascii : forallb ascii_byte (lay_key_sep lay) = true.

Lemma encode_ascii lvl v : forallb ascii_byte (encode repr_other lay lvl v) = true.
Proof.
  revert lvl.
  induction v as [| [] | z | f | s | l IH | d IH] using PyObj_ind'; intros lvl; cbn [encode];
    try reflexivity.
  - apply str_of_Z_ascii.
  - by apply floatstr_ascii.
  - apply py_encode_str_ascii.
  - destruct l as [|x l]; [reflexivity|]. cbn [forallb].
    rewrite !forallb_app, !newline_indent_ascii, join_with_ascii; [done | by rewrite forallb_app, item_ascii, newline_indent_ascii |].
    apply Forall_map. eapply Forall_impl; [exact IH|]. intros y Hy. apply Hy.
  - destruct d as [|kv d]; [reflexivity|]. cbn [forallb].
    rewrite !forallb_app, !newline_indent_ascii, join_with_ascii; [done | by rewrite forallb_app, item_ascii, newline_indent_ascii |].
    apply Forall_map. eapply Forall_impl; [exact IH|]. intros [k x] Hx. cbn [fst snd] in Hx |- *.
    by rewrite !forallb_app, py_encode_str_ascii, key_ascii, Hx.
Qed.
End Ascii.

(** C26. [ensure_ascii=True]: every byte of a JSON response is 7-bit
    ASCII, whatever the strs and keys hold (other code points are
    written as [\u] escapes), as long as the [repr] of the floats it
    does not model is ASCII, as CPython's is. *)
Theorem flask_json_ascii repr_other debug v :
  (forall g, forallb ascii_byte (repr_other g) = true) ->
  forallb ascii_byte (flask_json_text repr_other debug v) = true.
Proof.
  intros Hro. unfold flask_json_text. rewrite forallb_app, encode_ascii; [done | done |..];
    by destruct debug.
Qed.

(** A str with an e-acute (two UTF-8 bytes) and an emoji (a surrogate
    pair in the output). *)
Definition non_ascii_example : PyObj :=
  PDict [(String.append "caf" (String (ascii_of_nat 195) (String (ascii_of_nat 169) EmptyString)),
          PStr (String (ascii_of_nat 240) (String (ascii_of_nat 159)
                  (String (ascii_of_nat 152) (String (ascii_of_nat 128) EmptyString)))))].

Lemma flask_json_ascii_witness :
  (forall g : PyFloat, forallb ascii_byte ((fun _ => []) g) = true) /\
  forallb ascii_byte (flask_json_text (fun _ => []) true non_ascii_example) = true.
Proof.
  assert (H : forall g : PyFloat, forallb ascii_byte ((fun _ => []) g) = true) by done.
  split; [exact H | exact (flask_json_ascii _ true _ H)].
Defined.
